(** * The crawl engine of honey_scraper

    A shallow embedding of [scraper.py] (class [HoneyScraper]) and of the
    monitoring layer of [web_dashboard.py] (class [MonitoredScraper], the
    global [scraper_state] and the delay endpoint), followed by the
    properties of the crawl engine: retry and backoff, the consecutive-error
    counter, progress markers, resumption and the store upsert.

    Python values that come out of [response.json()] are kept as untyped
    JSON values and the operations the code applies to them ([in], [[]],
    [.get], iteration, truth value) raise what Python raises.  Exceptions,
    the SQLite file, the dashboard's state dictionary and the calls to
    [time.sleep] / [session.get] are threaded through one monad. *)

From Stdlib Require Import List String Ascii ZArith QArith Bool Arith Lia Lqa.
Import ListNotations.
Local Open Scope string_scope.
Local Open Scope list_scope.
Local Close Scope Q_scope.
Set Warnings "-register-all".

(** ** JSON values, as [response.json()] returns them *)

Inductive json : Type :=
| JNull                                   (* None *)
| JBool (b : bool)
| JInt (z : Z)
| JFloat (q : Q)
| JStr (s : string)
| JArr (items : list json)                (* list *)
| JObj (fields : list (string * json)).   (* dict, in insertion order *)

(** Exceptions, told apart as far as the [except] clauses of the source and
    the claims need: [Timeout] is a [RequestException], and everything here
    is an [Exception]. *)
Inductive exn : Type :=
| Timeout
| RequestException
| TypeError
| AttributeError
| KeyError
| ValueError
| OverflowError
| SqliteError
| OtherError.

Definition is_Timeout (e : exn) : bool :=
  match e with Timeout => true | _ => false end.

Definition is_RequestException (e : exn) : bool :=
  match e with Timeout | RequestException => true | _ => false end.

Inductive result (A : Type) : Type :=
| Val (a : A)
| Exc (e : exn).
Arguments Val {A} a.
Arguments Exc {A} e.

Definition and_then {A B : Type} (r : result A) (f : A -> result B) : result B :=
  match r with
  | Val a => f a
  | Exc e => Exc e
  end.

Notation "x <-- r ; k" := (and_then r (fun x => k))
  (at level 61, r at next level, right associativity).

(** ** Python operations on JSON values *)

Module Py.

(** [bool(x)] *)
Definition truthy (j : json) : bool :=
  match j with
  | JNull => false
  | JBool b => b
  | JInt z => negb (Z.eqb z 0)
  | JFloat q => negb (Z.eqb (Qnum q) 0)
  | JStr s => negb (String.eqb s "")
  | JArr l => match l with [] => false | _ => true end
  | JObj l => match l with [] => false | _ => true end
  end.

Fixpoint assoc (k : string) (l : list (string * json)) : option json :=
  match l with
  | [] => None
  | (k', v) :: rest => if String.eqb k k' then Some v else assoc k rest
  end.

Definition is_str (k : string) (j : json) : bool :=
  match j with JStr s => String.eqb k s | _ => false end.

Definition substring_of (k s : string) : bool :=
  match String.index 0 k s with Some _ => true | None => false end.

(** ["k" in j] *)
Definition contains (k : string) (j : json) : result bool :=
  match j with
  | JObj l => Val (match assoc k l with Some _ => true | None => false end)
  | JArr l => Val (existsb (is_str k) l)
  | JStr s => Val (substring_of k s)
  | _ => Exc TypeError
  end.

(** [j["k"]] *)
Definition getitem (j : json) (k : string) : result json :=
  match j with
  | JObj l => match assoc k l with Some v => Val v | None => Exc KeyError end
  | _ => Exc TypeError
  end.

(** [j.get("k", default)]; only a dict has [get]. *)
Definition get_default (j : json) (k : string) (d : json) : result json :=
  match j with
  | JObj l => Val (match assoc k l with Some v => v | None => d end)
  | _ => Exc AttributeError
  end.

(** [j.get("k")] *)
Definition get (j : json) (k : string) : result json :=
  get_default j k JNull.

Definition chars (s : string) : list json :=
  map (fun c => JStr (String c EmptyString)) (list_ascii_of_string s).

(** the items [for x in j] goes through *)
Definition iter (j : json) : result (list json) :=
  match j with
  | JArr l => Val l
  | JObj l => Val (map (fun kv => JStr (fst kv)) l)
  | JStr s => Val (chars s)
  | _ => Exc TypeError
  end.

(** [l[:n]] on a list *)
Definition take {A : Type} (n : Z) (l : list A) : list A :=
  if (0 <=? n)%Z then firstn (Z.to_nat n) l
  else firstn (List.length l - Z.to_nat (- n)) l.

(** [j[:n]] *)
Definition slice_to (j : json) (n : Z) : result json :=
  match j with
  | JArr l => Val (JArr (take n l))
  | JStr s => Val (JStr (string_of_list_ascii (take n (list_ascii_of_string s))))
  | _ => Exc TypeError
  end.

(** [len(j)] *)
Definition len (j : json) : result nat :=
  match j with
  | JArr l => Val (List.length l)
  | JObj l => Val (List.length l)
  | JStr s => Val (String.length s)
  | _ => Exc TypeError
  end.

End Py.

(** ** The partner API, the clock and the text renderings

    [api r n] is what [session.get] does on the [n]-th attempt (from 0) of a
    wrapped call for request [r]: it raises, or returns a response with a
    status code and a body that [response.json()] decodes or fails on.
    [now] is [int(time.time() * 1000)] at the successive readings of the
    clock.  [dumps] is [json.dumps]; [int_text] and [real_text] are the
    texts SQLite stores for a number put in a TEXT column. *)

Inductive request : Type :=
| SupportedDomains
| PartialsByDomain (domain : json)
| StoreById (store_id : json) (max_ugc success_count : Z).

Record response : Type := {
  status_code : Z;
  json_body : result json
}.

Record env : Type := {
  api : request -> nat -> result response;
  now : nat -> Z;
  dumps : json -> string;
  int_text : Z -> string;
  real_text : Q -> string
}.

(** [response.raise_for_status()] raises [HTTPError], a [RequestException],
    for the 4xx and 5xx codes. *)
Definition raise_for_status (r : response) : result unit :=
  if ((400 <=? status_code r) && (status_code r <? 600))%Z
  then Exc RequestException else Val tt.

(** ** The SQLite file *)

Inductive sqlval : Type :=
| SqlNull
| SqlInt (z : Z)
| SqlReal (q : Q)
| SqlText (s : string).

(** A TEXT key column: [None] is NULL. *)
Definition key : Type := option string.

Record store_row : Type := {
  store_id : key;
  store_columns : list sqlval        (* domain, partial_url, name, ..., raw_json *)
}.

Record child_row : Type := {
  row_id : Z;                        (* INTEGER PRIMARY KEY AUTOINCREMENT *)
  owner : key;                       (* store_id *)
  columns : list sqlval
}.

Record domain_row : Type := {
  domain : key;
  scraped_at : Z;
  store_count : Z
}.

Record database : Type := {
  stores : list store_row;
  coupons : list child_row;
  coupons_seq : Z;                   (* sqlite_sequence of coupons *)
  partial_urls : list child_row;
  partial_urls_seq : Z;
  scraped_domains : list domain_row
}.

Definition empty_db : database :=
  {| stores := []; coupons := []; coupons_seq := 0;
     partial_urls := []; partial_urls_seq := 0; scraped_domains := [] |}.

Module Sql.

Definition in_int64 (z : Z) : bool :=
  ((- 2 ^ 63 <=? z) && (z <? 2 ^ 63))%Z.

(** What the sqlite3 module binds for a Python value. *)
Definition bind_param (j : json) : result sqlval :=
  match j with
  | JNull => Val SqlNull
  | JBool b => Val (SqlInt (if b then 1 else 0))
  | JInt z => if in_int64 z then Val (SqlInt z) else Exc OverflowError
  | JFloat q => Val (SqlReal q)
  | JStr s => Val (SqlText s)
  | JArr _ | JObj _ => Exc SqliteError
  end.

(** The value a column of TEXT affinity holds, and compares with. *)
Definition text (E : env) (v : sqlval) : key :=
  match v with
  | SqlNull => None
  | SqlInt z => Some (int_text E z)
  | SqlReal q => Some (real_text E q)
  | SqlText s => Some s
  end.

(** [column = ?]: NULL equals nothing. *)
Definition eq (a b : key) : bool :=
  match a, b with
  | Some x, Some y => String.eqb x y
  | _, _ => false
  end.

(** [SELECT 1 FROM stores WHERE store_id = ?] finds a row *)
Definition store_found (k : key) (d : database) : bool :=
  existsb (fun r => eq (store_id r) k) (stores d).

(** [SELECT 1 FROM scraped_domains WHERE domain = ?] finds a row *)
Definition domain_found (k : key) (d : database) : bool :=
  existsb (fun r => eq (domain r) k) (scraped_domains d).

(** [INSERT OR REPLACE INTO stores]: the row in conflict on the primary
    key goes, the new row comes last. *)
Definition replace_store (r : store_row) (d : database) : database :=
  {| stores := filter (fun r' => negb (eq (store_id r') (store_id r))) (stores d) ++ [r];
     coupons := coupons d; coupons_seq := coupons_seq d;
     partial_urls := partial_urls d; partial_urls_seq := partial_urls_seq d;
     scraped_domains := scraped_domains d |}.

Definition delete_owned (k : key) (rows : list child_row) : list child_row :=
  filter (fun r => negb (eq (owner r) k)) rows.

(** [DELETE FROM coupons WHERE store_id = ?] *)
Definition delete_coupons (k : key) (d : database) : database :=
  {| stores := stores d;
     coupons := delete_owned k (coupons d); coupons_seq := coupons_seq d;
     partial_urls := partial_urls d; partial_urls_seq := partial_urls_seq d;
     scraped_domains := scraped_domains d |}.

(** [INSERT INTO coupons]: the id is one more than any id used before. *)
Definition insert_coupon (k : key) (cols : list sqlval) (d : database) : database :=
  {| stores := stores d;
     coupons := coupons d ++ [{| row_id := coupons_seq d + 1; owner := k; columns := cols |}];
     coupons_seq := coupons_seq d + 1;
     partial_urls := partial_urls d; partial_urls_seq := partial_urls_seq d;
     scraped_domains := scraped_domains d |}.

(** [DELETE FROM partial_urls WHERE store_id = ?] *)
Definition delete_partial_urls (k : key) (d : database) : database :=
  {| stores := stores d;
     coupons := coupons d; coupons_seq := coupons_seq d;
     partial_urls := delete_owned k (partial_urls d);
     partial_urls_seq := partial_urls_seq d;
     scraped_domains := scraped_domains d |}.

(** [INSERT INTO partial_urls] *)
Definition insert_partial_url (k : key) (cols : list sqlval) (d : database) : database :=
  {| stores := stores d;
     coupons := coupons d; coupons_seq := coupons_seq d;
     partial_urls := partial_urls d
                     ++ [{| row_id := partial_urls_seq d + 1; owner := k; columns := cols |}];
     partial_urls_seq := partial_urls_seq d + 1;
     scraped_domains := scraped_domains d |}.

(** [INSERT OR REPLACE INTO scraped_domains] *)
Definition replace_domain (r : domain_row) (d : database) : database :=
  {| stores := stores d;
     coupons := coupons d; coupons_seq := coupons_seq d;
     partial_urls := partial_urls d; partial_urls_seq := partial_urls_seq d;
     scraped_domains :=
       filter (fun r' => negb (eq (domain r') (domain r))) (scraped_domains d) ++ [r] |}.

End Sql.

(** ** The state the code runs in *)

(** The global [scraper_state] dictionary of [web_dashboard.py].  [mode] keeps
    the two values its label is formatted from, and [started_at] the reading
    of the clock. *)
Record scraper_state_t : Type := {
  running : bool;
  current_domain : option json;
  domains_processed : nat;
  total_domains : nat;
  stores_saved : nat;
  errors : nat;
  consecutive_errors : nat;
  last_error : option string;
  started_at : option nat;
  mode : option (bool * option Z);
  should_stop : bool;
  delay : Q
}.

Definition initial_scraper_state : scraper_state_t :=
  {| running := false; current_domain := None; domains_processed := 0;
     total_domains := 0; stores_saved := 0; errors := 0;
     consecutive_errors := 0; last_error := None; started_at := None;
     mode := None; should_stop := false; delay := (1 # 2)%Q |}.

(** [db] is what the SQLite file holds, [txn] what the open connection sees
    when it has uncommitted statements.  [self_delay] is the [delay] attribute
    of the scraper object, [scraper_instance] tells whether the dashboard's
    global of that name points to it.  [clock] counts the readings of
    [time.time()].  [stop_request_in = Some n] says that the operator's
    [POST /api/scraper/stop] arrives while the [n]-th next HTTP request is in
    flight. *)
Record world : Type := {
  db : database;
  txn : option database;
  scraper_state : scraper_state_t;
  self_delay : Q;
  scraper_instance : bool;
  clock : nat;
  stop_request_in : option nat
}.

Definition set_db (d : database) (w : world) : world :=
  {| db := d; txn := txn w; scraper_state := scraper_state w;
     self_delay := self_delay w; scraper_instance := scraper_instance w;
     clock := clock w; stop_request_in := stop_request_in w |}.

Definition set_txn (t : option database) (w : world) : world :=
  {| db := db w; txn := t; scraper_state := scraper_state w;
     self_delay := self_delay w; scraper_instance := scraper_instance w;
     clock := clock w; stop_request_in := stop_request_in w |}.

Definition set_scraper_state (s : scraper_state_t) (w : world) : world :=
  {| db := db w; txn := txn w; scraper_state := s;
     self_delay := self_delay w; scraper_instance := scraper_instance w;
     clock := clock w; stop_request_in := stop_request_in w |}.

Definition set_self_delay (q : Q) (w : world) : world :=
  {| db := db w; txn := txn w; scraper_state := scraper_state w;
     self_delay := q; scraper_instance := scraper_instance w;
     clock := clock w; stop_request_in := stop_request_in w |}.

Definition set_clock (n : nat) (w : world) : world :=
  {| db := db w; txn := txn w; scraper_state := scraper_state w;
     self_delay := self_delay w; scraper_instance := scraper_instance w;
     clock := n; stop_request_in := stop_request_in w |}.

Definition set_stop_request_in (o : option nat) (w : world) : world :=
  {| db := db w; txn := txn w; scraper_state := scraper_state w;
     self_delay := self_delay w; scraper_instance := scraper_instance w;
     clock := clock w; stop_request_in := o |}.

Definition initial_world (q : Q) : world :=
  {| db := empty_db; txn := None; scraper_state := initial_scraper_state;
     self_delay := q; scraper_instance := true; clock := 0;
     stop_request_in := None |}.

(** What a run does to the outside, in order. *)
Inductive event : Type :=
| Slept (seconds : Q)                      (* time.sleep *)
| Requested (r : request) (attempt : nat)  (* session.get *)
| Saved (store : key)                      (* a store and its children committed *)
| SaveFailed (store : json) (e : exn)      (* logger.error after the rollback *)
| Marked (d : key) (count : Z).            (* a progress marker committed *)

(** ** The monad: state, exceptions and the trace of events *)

Definition M (A : Type) : Type := world -> result A * world * list event.

Definition ret {A : Type} (a : A) : M A := fun w => (Val a, w, []).

Definition bind {A B : Type} (m : M A) (f : A -> M B) : M B :=
  fun w =>
    match m w with
    | (Val a, w1, t1) => let '(r, w2, t2) := f a w1 in (r, w2, t1 ++ t2)
    | (Exc e, w1, t1) => (Exc e, w1, t1)
    end.

Definition raise {A : Type} (e : exn) : M A := fun w => (Exc e, w, []).

Definition lift {A : Type} (r : result A) : M A := fun w => (r, w, []).

(** [try: m  except Exception as e: h e] *)
Definition try_except {A : Type} (m : M A) (h : exn -> M A) : M A :=
  fun w =>
    match m w with
    | (Val a, w1, t1) => (Val a, w1, t1)
    | (Exc e, w1, t1) => let '(r, w2, t2) := h e w1 in (r, w2, t1 ++ t2)
    end.

(** [try: m  finally: f] *)
Definition try_finally {A : Type} (m : M A) (f : M unit) : M A :=
  fun w =>
    let '(r, w1, t1) := m w in
    match f w1 with
    | (Val _, w2, t2) => (r, w2, t1 ++ t2)
    | (Exc e, w2, t2) => (Exc e, w2, t1 ++ t2)
    end.

Definition emit (ev : event) : M unit := fun w => (Val tt, w, [ev]).

Definition the_world : M world := fun w => (Val w, w, []).

Definition modify (f : world -> world) : M unit := fun w => (Val tt, f w, []).

Declare Scope monad_scope.
Delimit Scope monad_scope with monad.
Notation "x <- m ;; k" := (bind m (fun x => k))
  (at level 61, m at next level, right associativity) : monad_scope.
Notation "m ;; k" := (bind m (fun _ => k))
  (at level 61, right associativity) : monad_scope.
Local Open Scope monad_scope.

(** How one turn of a [for] loop ends: at its end or by [continue], or by
    [break]. *)
Inductive flow : Type := Next | Break.

(** [for x in l: body], the body reading and updating the local variables
    [s] and saying whether it broke out. *)
Fixpoint for_each {A S : Type} (body : A -> S -> M (flow * S)) (l : list A) (s : S)
  : M S :=
  match l with
  | [] => ret s
  | x :: rest =>
      fs <- body x s ;;
      match fst fs with
      | Next => for_each body rest (snd fs)
      | Break => ret (snd fs)
      end
  end.

(** ** web_dashboard.py: the state dictionary *)

Module Dashboard.

(** [scraper_state[key] = value], key by key *)

Definition with_running (v : bool) (s : scraper_state_t) : scraper_state_t :=
  {| running := v; current_domain := current_domain s;
     domains_processed := domains_processed s;
     total_domains := total_domains s; stores_saved := stores_saved s;
     errors := errors s; consecutive_errors := consecutive_errors s;
     last_error := last_error s; started_at := started_at s;
     mode := mode s; should_stop := should_stop s; delay := delay s |}.

Definition with_current_domain (v : option json) (s : scraper_state_t) : scraper_state_t :=
  {| running := running s; current_domain := v;
     domains_processed := domains_processed s;
     total_domains := total_domains s; stores_saved := stores_saved s;
     errors := errors s; consecutive_errors := consecutive_errors s;
     last_error := last_error s; started_at := started_at s;
     mode := mode s; should_stop := should_stop s; delay := delay s |}.

Definition with_domains_processed (v : nat) (s : scraper_state_t) : scraper_state_t :=
  {| running := running s; current_domain := current_domain s;
     domains_processed := v; total_domains := total_domains s;
     stores_saved := stores_saved s; errors := errors s;
     consecutive_errors := consecutive_errors s;
     last_error := last_error s; started_at := started_at s;
     mode := mode s; should_stop := should_stop s; delay := delay s |}.

Definition with_total_domains (v : nat) (s : scraper_state_t) : scraper_state_t :=
  {| running := running s; current_domain := current_domain s;
     domains_processed := domains_processed s; total_domains := v;
     stores_saved := stores_saved s; errors := errors s;
     consecutive_errors := consecutive_errors s;
     last_error := last_error s; started_at := started_at s;
     mode := mode s; should_stop := should_stop s; delay := delay s |}.

Definition with_stores_saved (v : nat) (s : scraper_state_t) : scraper_state_t :=
  {| running := running s; current_domain := current_domain s;
     domains_processed := domains_processed s;
     total_domains := total_domains s; stores_saved := v;
     errors := errors s; consecutive_errors := consecutive_errors s;
     last_error := last_error s; started_at := started_at s;
     mode := mode s; should_stop := should_stop s; delay := delay s |}.

Definition with_errors (v : nat) (s : scraper_state_t) : scraper_state_t :=
  {| running := running s; current_domain := current_domain s;
     domains_processed := domains_processed s;
     total_domains := total_domains s; stores_saved := stores_saved s;
     errors := v; consecutive_errors := consecutive_errors s;
     last_error := last_error s; started_at := started_at s;
     mode := mode s; should_stop := should_stop s; delay := delay s |}.

Definition with_consecutive_errors (v : nat) (s : scraper_state_t) : scraper_state_t :=
  {| running := running s; current_domain := current_domain s;
     domains_processed := domains_processed s;
     total_domains := total_domains s; stores_saved := stores_saved s;
     errors := errors s; consecutive_errors := v;
     last_error := last_error s; started_at := started_at s;
     mode := mode s; should_stop := should_stop s; delay := delay s |}.

Definition with_last_error (v : option string) (s : scraper_state_t) : scraper_state_t :=
  {| running := running s; current_domain := current_domain s;
     domains_processed := domains_processed s;
     total_domains := total_domains s; stores_saved := stores_saved s;
     errors := errors s; consecutive_errors := consecutive_errors s;
     last_error := v; started_at := started_at s; mode := mode s;
     should_stop := should_stop s; delay := delay s |}.

Definition with_started_at (v : option nat) (s : scraper_state_t) : scraper_state_t :=
  {| running := running s; current_domain := current_domain s;
     domains_processed := domains_processed s;
     total_domains := total_domains s; stores_saved := stores_saved s;
     errors := errors s; consecutive_errors := consecutive_errors s;
     last_error := last_error s; started_at := v; mode := mode s;
     should_stop := should_stop s; delay := delay s |}.

Definition with_mode (v : option (bool * option Z)) (s : scraper_state_t) : scraper_state_t :=
  {| running := running s; current_domain := current_domain s;
     domains_processed := domains_processed s;
     total_domains := total_domains s; stores_saved := stores_saved s;
     errors := errors s; consecutive_errors := consecutive_errors s;
     last_error := last_error s; started_at := started_at s; mode := v;
     should_stop := should_stop s; delay := delay s |}.

Definition with_should_stop (v : bool) (s : scraper_state_t) : scraper_state_t :=
  {| running := running s; current_domain := current_domain s;
     domains_processed := domains_processed s;
     total_domains := total_domains s; stores_saved := stores_saved s;
     errors := errors s; consecutive_errors := consecutive_errors s;
     last_error := last_error s; started_at := started_at s;
     mode := mode s; should_stop := v; delay := delay s |}.

Definition with_delay (v : Q) (s : scraper_state_t) : scraper_state_t :=
  {| running := running s; current_domain := current_domain s;
     domains_processed := domains_processed s;
     total_domains := total_domains s; stores_saved := stores_saved s;
     errors := errors s; consecutive_errors := consecutive_errors s;
     last_error := last_error s; started_at := started_at s;
     mode := mode s; should_stop := should_stop s; delay := v |}.


(** [update_scraper_state(key, value)] *)
Definition update_scraper_state (f : scraper_state_t -> scraper_state_t) : M unit :=
  modify (fun w => set_scraper_state (f (scraper_state w)) w).

(** [scraper_state.get(key)] *)
Definition read {A : Type} (f : scraper_state_t -> A) : M A :=
  w <- the_world ;; ret (f (scraper_state w)).

(** [str(e)] *)
Definition str (e : exn) : string :=
  match e with
  | Timeout => "Timeout"
  | RequestException => "RequestException"
  | TypeError => "TypeError"
  | AttributeError => "AttributeError"
  | KeyError => "KeyError"
  | ValueError => "ValueError"
  | OverflowError => "OverflowError"
  | SqliteError => "sqlite3.Error"
  | OtherError => "Exception"
  end.

End Dashboard.

(** ** scraper.py: class HoneyScraper *)

Module HoneyScraper.
Section WithEnv.

Variable E : env.

(** [time.sleep(d)] raises [ValueError] on a negative length. *)
Definition sleep (d : Q) : M unit :=
  if Qle_bool 0 d then emit (Slept d) else raise ValueError.

(** [int(time.time() * 1000)] *)
Definition time_ms : M Z :=
  w <- the_world ;;
  modify (set_clock (S (clock w))) ;;
  ret (now E (clock w)).

(** Time passes while a request is in flight: the operator's stop request,
    if one is due, sets [should_stop] in the dashboard's dictionary. *)
Definition operator (w : world) : world :=
  match stop_request_in w with
  | None => w
  | Some 0 =>
      set_stop_request_in None
        (set_scraper_state (Dashboard.with_should_stop true (scraper_state w)) w)
  | Some (S n) => set_stop_request_in (Some n) w
  end.

(** [self.session.get(url, timeout=30)] *)
Definition session_get (r : request) (attempt : nat) : M response :=
  emit (Requested r attempt) ;;
  modify operator ;;
  lift (api E r attempt).

(** *** The SQLite connection of one method call *)

Definition connect : M unit := modify (set_txn None).

Definition view (w : world) : database :=
  match txn w with Some d => d | None => db w end.

(** a data-changing statement opens a transaction if none is open *)
Definition execute (f : database -> database) : M unit :=
  modify (fun w => set_txn (Some (f (view w))) w).

Definition commit : M unit :=
  modify (fun w => set_txn None (set_db (view w) w)).

Definition rollback : M unit := modify (set_txn None).

Definition close : M unit := modify (set_txn None).

Definition bind_text (j : json) : M key :=
  v <- lift (Sql.bind_param j) ;; ret (Sql.text E v).

(** [_store_exists] *)
Definition _store_exists (store_id : json) : M bool :=
  connect ;;
  k <- bind_text store_id ;;
  w <- the_world ;;
  close ;;
  ret (Sql.store_found k (view w)).

(** [_domain_scraped] *)
Definition _domain_scraped (domain : json) : M bool :=
  connect ;;
  k <- bind_text domain ;;
  w <- the_world ;;
  close ;;
  ret (Sql.domain_found k (view w)).

(** [_mark_domain_scraped] *)
Definition _mark_domain_scraped (domain : json) (store_count : nat) : M unit :=
  connect ;;
  t <- time_ms ;;
  k <- bind_text domain ;;
  execute (Sql.replace_domain
             {| domain := k; scraped_at := t; store_count := Z.of_nat store_count |}) ;;
  commit ;;
  emit (Marked k (Z.of_nat store_count)) ;;
  close.

(** *** [_save_store_to_db] *)

(** How a column's value is read from a dict: [d.get(k)],
    [1 if d.get(k) else 0], or [json.dumps(d.get(k, default))]. *)
Inductive column : Type :=
| Plain (k : string)
| Flag (k : string)
| Dumped (k : string) (default : json).

Definition store_fields : list column :=
  [Plain "name"; Plain "label"; Plain "country"; Plain "url"; Plain "logoUrl";
   Flag "active"; Flag "supported"; Plain "supportStage";
   Plain "created"; Plain "updated"; Plain "checked"; Plain "score";
   Plain "shoppers24h"; Plain "shoppers30d"; Plain "shoppersChange";
   Plain "numSavings24h"; Plain "numSavings30d";
   Plain "avgSavings24h"; Plain "avgSavings30d"; Plain "metadata";
   Plain "affiliateURL"; Plain "affiliateRestrictions"; Flag "ugcAllowed";
   Plain "freeShippingThreshold"; Flag "forceJsRedirect";
   Plain "launchpadPathname"].

Definition coupon_fields : list column :=
  [Plain "code"; Plain "dealId"; Plain "description"; Plain "created";
   Plain "expires"; Flag "exclusive"; Flag "hidden"; Plain "restrictions";
   Plain "rank"; Plain "applied_acc_count"; Plain "applied_acc_last_ts";
   Plain "applied_acc_last_discount"; Plain "url";
   Dumped "meta" (JObj []); Dumped "sources" (JArr []); Dumped "tags" (JArr [])].

Definition partial_url_fields : list column :=
  [Plain "domain"; Plain "partialURL"].

Definition argument (d : json) (c : column) : result json :=
  match c with
  | Plain k => Py.get d k
  | Flag k =>
      match Py.get d k with
      | Val v => Val (JInt (if Py.truthy v then 1 else 0))
      | Exc e => Exc e
      end
  | Dumped k default =>
      match Py.get_default d k default with
      | Val v => Val (JStr (dumps E v))
      | Exc e => Exc e
      end
  end.

(** the tuple of arguments, evaluated from left to right *)
Fixpoint arguments (d : json) (cs : list column) : result (list json) :=
  match cs with
  | [] => Val []
  | c :: rest =>
      match argument d c with
      | Exc e => Exc e
      | Val v =>
          match arguments d rest with
          | Exc e => Exc e
          | Val vs => Val (v :: vs)
          end
      end
  end.

(** the parameters of one statement, bound from left to right *)
Fixpoint bind_params (js : list json) : result (list sqlval) :=
  match js with
  | [] => Val []
  | j :: rest =>
      match Sql.bind_param j with
      | Exc e => Exc e
      | Val v =>
          match bind_params rest with
          | Exc e => Exc e
          | Val vs => Val (v :: vs)
          end
      end
  end.

(** [for x in l: body x], for a loop without [break] *)
Fixpoint for_all {A : Type} (body : A -> M unit) (l : list A) : M unit :=
  match l with
  | [] => ret tt
  | x :: rest => body x ;; for_all body rest
  end.

(** one [INSERT INTO coupons] / [INSERT INTO partial_urls] *)
Definition insert_child (insert : key -> list sqlval -> database -> database)
           (fields : list column) (store_id item : json) : M unit :=
  args <- lift (arguments item fields) ;;
  k <- bind_text store_id ;;
  cols <- lift (bind_params args) ;;
  execute (insert k cols).

Definition _save_store_to_db (domain store_id partial_url details : json) : M unit :=
  connect ;;
  try_finally
    (try_except
       ((* Insert store *)
        args <- lift (arguments details store_fields) ;;
        k <- bind_text store_id ;;
        cols <- lift (bind_params
                        (domain :: partial_url :: args ++ [JStr (dumps E details)])) ;;
        execute (Sql.replace_store {| store_id := k; store_columns := cols |}) ;;
        (* Insert coupons *)
        k <- bind_text store_id ;;
        execute (Sql.delete_coupons k) ;;
        cs <- lift (Py.get_default details "publicCoupons" (JArr [])) ;;
        cs <- lift (Py.iter cs) ;;
        for_all (insert_child Sql.insert_coupon coupon_fields store_id) cs ;;
        (* Insert partial URLs *)
        k <- bind_text store_id ;;
        execute (Sql.delete_partial_urls k) ;;
        pus <- lift (Py.get_default details "partialUrls" (JArr [])) ;;
        pus <- lift (Py.iter pus) ;;
        for_all (insert_child Sql.insert_partial_url partial_url_fields store_id) pus ;;
        commit ;;
        emit (Saved k))
       (fun e => rollback ;; emit (SaveFailed store_id e)))
    close.

(** *** The two wrapped lookups

    [get_store_ids_by_domain] and [get_store_details] run the same loop on
    their own request, response path and value for a miss. *)

Definition max_retries : nat := 3.

(** [if "data" in data and path in data["data"]: return data["data"][path]]
    and the [return] of the miss after it *)
Definition read_path (path : string) (miss data : json) : result json :=
  has_data <-- Py.contains "data" data ;
  found <-- (if has_data : bool
             then inner <-- Py.getitem data "data" ; Py.contains path inner
             else Val false) ;
  if found : bool
  then inner <-- Py.getitem data "data" ; Py.getitem inner path
  else Val miss.

(** How one turn of the retry loop ends: by [return], by going to the next
    turn with the delay it has reached, or by [break]. *)
Inductive turn : Type :=
| Return (v : json)
| Continue (retry_delay : Q)
| Broken.

(** the body of [for attempt in range(max_retries)].  Only [session.get],
    [raise_for_status] and [response.json] can raise a [RequestException],
    and they run before the delay is changed, so the handlers find the
    delay the turn began with. *)
Definition attempt_once (r : request) (path : string) (miss : json)
           (attempt : nat) (retry_delay : Q) : M turn :=
  try_except
    (sleep retry_delay ;;
     response <- session_get r attempt ;;
     if (status_code response =? 429)%Z then
       (* Check for rate limiting *)
       sleep (retry_delay * 2)%Q ;;
       ret (Continue (retry_delay * 2)%Q)
     else
       lift (raise_for_status response) ;;
       data <- lift (json_body response) ;;
       v <- lift (read_path path miss data) ;;
       ret (Return v))
    (fun e =>
       if is_RequestException e then
         (* except Timeout, except RequestException: the same steps *)
         if (attempt <? max_retries - 1)%nat
         then sleep (retry_delay * (3 # 2))%Q ;;
              ret (Continue (retry_delay * (3 # 2))%Q)
         else ret (Continue (retry_delay * (3 # 2))%Q)
       else ret Broken).

Fixpoint retry_loop (r : request) (path : string) (miss : json)
         (remaining attempt : nat) (retry_delay : Q) : M json :=
  match remaining with
  | 0 => ret miss
  | S n =>
      t <- attempt_once r path miss attempt retry_delay ;;
      match t with
      | Return v => ret v
      | Continue d => retry_loop r path miss n (S attempt) d
      | Broken => ret miss
      end
  end.

Definition get_store_ids_by_domain (domain : json) : M json :=
  w <- the_world ;;
  retry_loop (PartialsByDomain domain) "getPartialURLsByDomain" (JArr [])
             max_retries 0 (self_delay w).

Definition get_store_details (store_id : json) (max_ugc success_count : Z) : M json :=
  w <- the_world ;;
  retry_loop (StoreById store_id max_ugc success_count) "getStoreById" JNull
             max_retries 0 (self_delay w).

(** [get_supported_domains]; [len(domains)] is in its log line. *)
Definition get_supported_domains : M json :=
  try_except
    (response <- session_get SupportedDomains 0 ;;
     lift (raise_for_status response) ;;
     domains <- lift (json_body response) ;;
     _ <- lift (Py.len domains) ;;
     ret domains)
    (fun _ => ret (JArr [])).

(** *** [scrape_all_stores] *)

(** the local counters of the run *)
Record locals : Type := {
  processed : nat;
  skipped : nat;
  errs : nat                      (* [errors] *)
}.

(** the body of [for mapping in store_mappings], with the run's counters and
    [domain_store_count] as its local variables *)
Definition each_mapping (skip_existing : bool) (domain mapping : json)
           (s : locals * nat) : M (flow * (locals * nat)) :=
  let '(l, domain_store_count) := s in
  store_id <- lift (Py.get mapping "storeId") ;;
  partial_url <- lift (Py.get mapping "partialURL") ;;
  (* Skip if store already exists *)
  known <- (if skip_existing then _store_exists store_id else ret false) ;;
  if known : bool then ret (Next, (l, S domain_store_count))
  else
    store_details <- get_store_details store_id 3 1 ;;
    if Py.truthy store_details then
      _save_store_to_db domain store_id partial_url store_details ;;
      (* the log line reads the name and the country *)
      _ <- lift (Py.get_default store_details "name" (JStr "Unknown")) ;;
      _ <- lift (Py.get_default store_details "country" (JStr "N/A")) ;;
      ret (Next, ({| processed := S (processed l); skipped := skipped l;
                     errs := errs l |}, S domain_store_count))
    else
      ret (Next, ({| processed := processed l; skipped := skipped l;
                     errs := S (errs l) |}, domain_store_count)).

(** the body of [for i, domain in enumerate(domains, 1)] *)
Definition each_domain (skip_existing : bool) (domain : json) (l : locals)
  : M (flow * locals) :=
  (* Skip if already scraped *)
  scraped <- (if skip_existing then _domain_scraped domain else ret false) ;;
  if scraped : bool then
    ret (Next, {| processed := processed l; skipped := S (skipped l);
                  errs := errs l |})
  else
    (* Get store IDs for domain *)
    store_mappings <- get_store_ids_by_domain domain ;;
    if negb (Py.truthy store_mappings) then
      _mark_domain_scraped domain 0 ;;
      ret (Next, l)
    else
      _ <- lift (Py.len store_mappings) ;;        (* in the log line *)
      (* Get details for each store *)
      items <- lift (Py.iter store_mappings) ;;
      s <- for_each (each_mapping skip_existing domain) items (l, 0) ;;
      (* Mark domain as scraped *)
      _mark_domain_scraped domain (snd s) ;;
      ret (Next, fst s).

Definition no_locals : locals := {| processed := 0; skipped := 0; errs := 0 |}.

(** [if max_domains:] *)
Definition limit (max_domains : option Z) : option Z :=
  match max_domains with
  | Some n => if (n =? 0)%Z then None else Some n
  | None => None
  end.

Definition scrape_all_stores (max_domains : option Z) (skip_existing : bool) : M locals :=
  (* Get all domains *)
  domains <- get_supported_domains ;;
  if negb (Py.truthy domains) then ret no_locals
  else
    domains <- match limit max_domains with
               | Some n => lift (Py.slice_to domains n)
               | None => ret domains
               end ;;
    items <- lift (Py.iter domains) ;;
    (* Process each domain *)
    for_each (each_domain skip_existing) items no_locals.

End WithEnv.
End HoneyScraper.

(** ** web_dashboard.py: class MonitoredScraper *)

Module MonitoredScraper.
Section WithEnv.

Variable E : env.

Import Dashboard.

(** the [except Exception as e] branch the two overrides share *)
Definition count_error (miss : json) (e : exn) : M json :=
  update_scraper_state (with_last_error (Some (str e))) ;;
  n <- read consecutive_errors ;;
  let consecutive := n + 1 in
  update_scraper_state (with_consecutive_errors consecutive) ;;
  (* Stop if too many consecutive errors (likely blocked) *)
  (if (10 <=? consecutive)%nat
   then update_scraper_state (with_should_stop true)
   else ret tt) ;;
  ret miss.

(** the [try] branch: reset consecutive errors on success *)
Definition note_success (m : M json) : M json :=
  result <- m ;;
  (if Py.truthy result
   then update_scraper_state (with_consecutive_errors 0)
   else ret tt) ;;
  ret result.

Definition get_store_ids_by_domain (domain : json) : M json :=
  try_except
    (note_success (HoneyScraper.get_store_ids_by_domain E domain))
    (count_error (JArr [])).

Definition get_store_details (store_id : json) (max_ugc success_count : Z) : M json :=
  try_except
    (note_success (HoneyScraper.get_store_details E store_id max_ugc success_count))
    (count_error JNull).

(** the local variables of the run: [i], [processed], [skipped], [errors] *)
Record locals : Type := {
  i : nat;
  processed : nat;
  skipped : nat;
  errs : nat
}.

(** the body of [for mapping in store_mappings] *)
Definition each_mapping (skip_existing : bool) (domain mapping : json)
           (s : locals * nat) : M (flow * (locals * nat)) :=
  let '(l, domain_store_count) := s in
  (* Check for stop signal *)
  stop <- read should_stop ;;
  if stop : bool then ret (Break, s)
  else
    store_id <- lift (Py.get mapping "storeId") ;;
    partial_url <- lift (Py.get mapping "partialURL") ;;
    known <- (if skip_existing then HoneyScraper._store_exists E store_id
              else ret false) ;;
    if known : bool then ret (Next, (l, S domain_store_count))
    else
      store_details <- get_store_details store_id 3 1 ;;
      (if Py.truthy store_details then
         HoneyScraper._save_store_to_db E domain store_id partial_url store_details ;;
         update_scraper_state (with_stores_saved (S (processed l))) ;;
         ret (Next, ({| i := i l; processed := S (processed l);
                        skipped := skipped l; errs := errs l |},
                     S domain_store_count))
       else
         update_scraper_state (with_errors (S (errs l))) ;;
         ret (Next, ({| i := i l; processed := processed l;
                        skipped := skipped l; errs := S (errs l) |},
                     S domain_store_count))).

(** the body of [for i, domain in enumerate(domains, 1)]; [i l] is the
    number of the turns done *)
Definition each_domain (skip_existing : bool) (domain : json) (l : locals)
  : M (flow * locals) :=
  let l := {| i := S (i l); processed := processed l; skipped := skipped l;
              errs := errs l |} in
  (* Check for stop signal *)
  stop <- read should_stop ;;
  if stop : bool then ret (Break, l)
  else
    update_scraper_state (with_current_domain (Some domain)) ;;
    update_scraper_state (with_domains_processed (i l)) ;;
    (* Skip if already scraped *)
    scraped <- (if skip_existing then HoneyScraper._domain_scraped E domain
                else ret false) ;;
    if scraped : bool then
      ret (Next, {| i := i l; processed := processed l;
                    skipped := S (skipped l); errs := errs l |})
    else
      (* Get store IDs for domain *)
      store_mappings <- get_store_ids_by_domain domain ;;
      if negb (Py.truthy store_mappings) then
        HoneyScraper._mark_domain_scraped E domain 0 ;;
        ret (Next, l)
      else
        (* Get details for each store *)
        items <- lift (Py.iter store_mappings) ;;
        s <- for_each (each_mapping skip_existing domain) items (l, 0) ;;
        (* Mark domain as scraped *)
        HoneyScraper._mark_domain_scraped E domain (snd s) ;;
        (* Check if we should stop due to errors *)
        stop <- read should_stop ;;
        ret (if stop : bool then Break else Next, fst s).

Definition no_locals : locals :=
  {| i := 0; processed := 0; skipped := 0; errs := 0 |}.

(** [sum(1 for d in domains if self._domain_scraped(d))] *)
Definition count_scraped (d : json) (n : nat) : M (flow * nat) :=
  scraped <- HoneyScraper._domain_scraped E d ;;
  ret (Next, if scraped : bool then S n else n).

(** the [try] block of [scrape_all_stores] *)
Definition scrape (max_domains : option Z) (skip_existing : bool) : M locals :=
  (* Get all domains *)
  domains <- HoneyScraper.get_supported_domains E ;;
  if negb (Py.truthy domains) then
    update_scraper_state (with_last_error (Some "No domains found in domains list")) ;;
    ret no_locals
  else
    _ <- lift (Py.len domains) ;;
    domains <- match HoneyScraper.limit max_domains with
               | Some n => lift (Py.slice_to domains n)
               | None => ret domains
               end ;;
    items <- lift (Py.iter domains) ;;
    all_done <- (if skip_existing then
                   (* Count how many will be skipped *)
                   already_scraped <- for_each count_scraped items 0 ;;
                   n <- lift (Py.len domains) ;;
                   ret (already_scraped =? n)%nat
                 else ret false) ;;
    if all_done : bool then
      update_scraper_state
        (with_last_error (Some "All selected domains already scraped")) ;;
      ret no_locals
    else
      n <- lift (Py.len domains) ;;
      update_scraper_state (with_total_domains n) ;;
      (* Process each domain *)
      for_each (each_domain skip_existing) items no_locals.

Definition scrape_all_stores (max_domains : option Z) (skip_existing : bool) : M locals :=
  update_scraper_state (with_running true) ;;
  update_scraper_state (with_should_stop false) ;;
  w <- the_world ;;
  update_scraper_state (with_started_at (Some (clock w))) ;;
  update_scraper_state
    (with_mode (Some (skip_existing, HoneyScraper.limit max_domains))) ;;
  update_scraper_state (with_consecutive_errors 0) ;;
  update_scraper_state (with_last_error None) ;;
  try_finally
    (scrape max_domains skip_existing)
    (update_scraper_state (with_running false) ;;
     update_scraper_state (with_current_domain None) ;;
     update_scraper_state (with_should_stop false)).

End WithEnv.
End MonitoredScraper.

(** ** web_dashboard.py: [POST /api/scraper/delay] *)

Inductive http_reply : Type :=
| Ok200 (new_delay : Q)
| Error400 (message : string).

(** [api_scraper_delay], given the number [float(data.get('delay', 0.5))]
    comes to *)
Definition api_scraper_delay (delay : Q) : world -> http_reply * world :=
  fun w =>
    if Qlt_le_dec delay 0 then (Error400 "Delay must be non-negative", w)
    else if Qlt_le_dec 10 delay then (Error400 "Delay must be 10 seconds or less", w)
    else
      (* Update state *)
      let w := set_scraper_state (Dashboard.with_delay delay (scraper_state w)) w in
      (* Update running scraper if active *)
      let w := if scraper_instance w then set_self_delay delay w else w in
      (Ok200 delay, w).

(** ** Reading the transport: what one attempt of a wrapped call meets *)

Inductive verdict : Type :=
| RateLimited                 (* HTTP 429 *)
| TransportError              (* Timeout or another RequestException *)
| Unexpected                  (* any other exception *)
| Answered (v : json).        (* the lookup returns [v] *)

Definition verdict_of (path : string) (miss : json) (x : result response) : verdict :=
  match x with
  | Exc e => if is_RequestException e then TransportError else Unexpected
  | Val resp =>
      if (status_code resp =? 429)%Z then RateLimited
      else
        match raise_for_status resp with
        | Exc _ => TransportError
        | Val _ =>
            match json_body resp with
            | Exc e => if is_RequestException e then TransportError else Unexpected
            | Val data =>
                match HoneyScraper.read_path path miss data with
                | Val v => Answered v
                | Exc _ => Unexpected
                end
            end
        end
  end.

(** the events of one attempt that starts with delay [d] *)
Definition attempt_events (r : request) (attempt : nat) (d : Q) (v : verdict) : list event :=
  match v with
  | RateLimited => [Slept d; Requested r attempt; Slept (d * 2)%Q]
  | TransportError =>
      if (attempt <? HoneyScraper.max_retries - 1)%nat
      then [Slept d; Requested r attempt; Slept (d * (3 # 2))%Q]
      else [Slept d; Requested r attempt]
  | Unexpected | Answered _ => [Slept d; Requested r attempt]
  end.

Definition attempt_turn (d : Q) (v : verdict) : HoneyScraper.turn :=
  match v with
  | RateLimited => HoneyScraper.Continue (d * 2)%Q
  | TransportError => HoneyScraper.Continue (d * (3 # 2))%Q
  | Unexpected => HoneyScraper.Broken
  | Answered v => HoneyScraper.Return v
  end.

Definition is_retry (v : verdict) : bool :=
  match v with RateLimited | TransportError => true | _ => false end.

(** the verdict on the [n]-th attempt of the wrapped call for [r] *)
Definition verdict_at (E : env) (r : request) (path : string) (miss : json)
           (n : nat) : verdict :=
  verdict_of path miss (api E r n).

(** ** Simulated environments, for the instances of the theorems *)

Definition ok (j : json) : result response :=
  Val {| status_code := 200; json_body := Val j |}.

Definition status (code : Z) : result response :=
  Val {| status_code := code; json_body := Exc OtherError |}.

(** a 200 whose body is not JSON *)
Definition malformed : result response :=
  Val {| status_code := 200; json_body := Exc OtherError |}.

Definition enveloped (path : string) (v : json) : json :=
  JObj [("data", JObj [(path, v)])].

Definition env_of (a : request -> nat -> result response) : env :=
  {| api := a; now := fun n => Z.of_nat n; dumps := fun _ => "{}";
     int_text := fun _ => "0"; real_text := fun _ => "0.0" |}.

(** ** Backoff under rate limiting *)

(** the transport answers attempt [n] of the call for [r] with HTTP 429 *)
Definition rate_limited_at (E : env) (r : request) (n : nat) : Prop :=
  exists resp, api E r n = Val resp /\ status_code resp = 429%Z.

(** the transport answers attempt [n] with a 2xx whose JSON body holds [v]
    under [data] and [path] *)
Definition succeeds_at (E : env) (r : request) (path : string) (v : json)
           (n : nat) : Prop :=
  exists resp data inner,
    api E r n = Val resp
    /\ (200 <= status_code resp < 300)%Z
    /\ json_body resp = Val data
    /\ Py.getitem data "data" = Val inner
    /\ Py.getitem inner path = Val v.

(** the delay after [k] doublings *)
Definition doubled (k : nat) (d : Q) : Q := Nat.iter k (fun q => (q * 2)%Q) d.

(** the events of [n] rate-limited attempts, the first one numbered [a] and
    starting with delay [d] *)
Fixpoint rate_limited_events (r : request) (a n : nat) (d : Q) : list event :=
  match n with
  | 0 => []
  | S k =>
      Slept d :: Requested r a :: Slept (d * 2)%Q
            :: rate_limited_events r (S a) k (d * 2)%Q
  end.

(** the seconds slept in a trace *)
Fixpoint total_slept (t : list event) : Q :=
  match t with
  | [] => 0%Q
  | Slept d :: rest => (d + total_slept rest)%Q
  | _ :: rest => total_slept rest
  end.

(** the requests issued in a trace *)
Fixpoint requests_of (t : list event) : list (request * nat) :=
  match t with
  | [] => []
  | Requested r n :: rest => (r, n) :: requests_of rest
  | _ :: rest => requests_of rest
  end.

(** What a wrapped call [run] for request [r] does when its first [N]
    attempts are rate limited and the next one would be answered with [v],
    starting from the delay and the world [w]: each rate-limited attempt
    sleeps the current delay, issues its request and sleeps the doubled
    delay, which the next attempt starts from; with fewer than three such
    attempts the call returns [v], otherwise it returns the miss after three
    attempts; the delays and the seconds slept after each attempt grow
    strictly. *)
Definition backs_off (run : M json) (r : request) (miss v : json) (N : nat)
           (w : world) : Prop :=
  let d := self_delay w in
  (N < 3 ->
   run w = (Val v, Nat.iter (S N) HoneyScraper.operator w,
            rate_limited_events r 0 N d ++ [Slept (doubled N d); Requested r N]))
  /\ (3 <= N ->
      run w = (Val miss, Nat.iter 3 HoneyScraper.operator w, rate_limited_events r 0 3 d))
  /\ (forall k,
         rate_limited_events r 0 (S k) d
         = rate_limited_events r 0 k d
           ++ [Slept (doubled k d); Requested r k; Slept (doubled k d * 2)%Q]
         /\ doubled (S k) d = (doubled k d * 2)%Q
         /\ (doubled k d < doubled (S k) d)%Q
         /\ (total_slept (rate_limited_events r 0 k d)
             < total_slept (rate_limited_events r 0 (S k) d))%Q)
  /\ (total_slept (rate_limited_events r 0 N d)
      < total_slept (rate_limited_events r 0 N d
                       ++ [Slept (doubled N d); Requested r N]))%Q.

(** two attempts rate limited, the third answered *)
Definition api_429_twice (r : request) (n : nat) : result response :=
  if (n <? 2)%nat then status 429
  else match r with
       | SupportedDomains => ok (JArr [])
       | PartialsByDomain _ =>
           ok (enveloped "getPartialURLsByDomain"
                 (JArr [JObj [("storeId", JStr "S1"); ("partialURL", JStr "a.com")]]))
       | StoreById _ _ _ => ok (enveloped "getStoreById" (JObj [("name", JStr "A")]))
       end.

(** ** A well-formed body without the response path *)

(** the JSON document holds an object under [data] that has the key [path] *)
Definition has_path (path : string) (data : json) : bool :=
  match data with
  | JObj l =>
      match Py.assoc "data" l with
      | Some (JObj inner) =>
          match Py.assoc path inner with Some _ => true | None => false end
      | _ => false
      end
  | _ => false
  end.

(** the transport answers attempt [n] with a 2xx whose body decodes to [data] *)
Definition body_at (E : env) (r : request) (data : json) (n : nat) : Prop :=
  exists resp,
    api E r n = Val resp
    /\ (200 <= status_code resp < 300)%Z
    /\ json_body resp = Val data.

(** the requests of attempts [0] to [k] of the call for [r] *)
Definition attempts_upto (r : request) (k : nat) : list (request * nat) :=
  map (fun j => (r, j)) (seq 0 (S k)).

(** What a wrapped call [run] does when the attempts before [k] are retried
    and attempt [k] gets a body without the path: it returns the miss, the
    request of attempt [k] is the last thing it does, and a run [exhausted]
    of the same call whose attempts all fail returns the same value. *)
Definition misses_at_once (run exhausted : M json) (r : request) (miss : json)
           (k : nat) (w : world) : Prop :=
  exists w' t,
    run w = (Val miss, w', t ++ [Requested r k])
    /\ requests_of (t ++ [Requested r k]) = attempts_upto r k
    /\ fst (fst (exhausted w)) = fst (fst (run w)).

(** a 200 with an empty JSON object, whatever the request and the attempt *)
Definition api_empty_object (r : request) (n : nat) : result response :=
  ok (JObj []).

(** ** Invariants of a computation *)

(** [m] keeps the invariant [I] of the world and emits only events in [T],
    whether it returns or raises. *)
Definition preserves {A : Type} (I : world -> Prop) (T : event -> Prop) (m : M A) : Prop :=
  forall w, I w -> I (snd (fst (m w))) /\ Forall T (snd (m w)).

(** the scraper object's delay is zero *)
Definition zero_delay (w : world) : Prop := (self_delay w == 0)%Q.

(** an event that takes no time: anything but a sleep of some length *)
Definition sleepless (ev : event) : Prop :=
  match ev with
  | Slept d => (d == 0)%Q
  | _ => True
  end.

(** ** A run whose fetches all fail *)

Definition ten_stores : list string :=
  ["S0"; "S1"; "S2"; "S3"; "S4"; "S5"; "S6"; "S7"; "S8"; "S9"].

(** [a.com] resolves to ten stores, every detail fetch times out, and so does
    the mapping lookup of [b.com] and of [c.com] *)
Definition api_failing (r : request) (n : nat) : result response :=
  match r with
  | SupportedDomains => ok (JArr [JStr "a.com"; JStr "b.com"; JStr "c.com"])
  | PartialsByDomain d =>
      if Py.is_str "a.com" d
      then ok (enveloped "getPartialURLsByDomain"
                 (JArr (map (fun s => JObj [("storeId", JStr s);
                                            ("partialURL", JStr "a.com")])
                            ten_stores)))
      else Exc Timeout
  | StoreById _ _ _ => Exc RequestException
  end.

(** the domain of a mapping lookup in a trace *)
Definition mapping_lookups (t : list event) : list json :=
  flat_map (fun ev => match ev with
                      | Requested (PartialsByDomain d) 0 => [d]
                      | _ => []
                      end) t.

(** the markers written in a trace *)
Definition markers (t : list event) : list (key * Z) :=
  flat_map (fun ev => match ev with
                      | Marked d n => [(d, n)]
                      | _ => []
                      end) t.

(** no stop was asked for and none is pending, and no error is counted *)
Definition never_tripped (w : world) : Prop :=
  stop_request_in w = None
  /\ should_stop (scraper_state w) = false
  /\ consecutive_errors (scraper_state w) = 0.

(** ** What a store save writes *)

Fixpoint map_result {A B : Type} (f : A -> result B) (l : list A) : result (list B) :=
  match l with
  | [] => Val []
  | x :: rest =>
      y <-- f x ;
      ys <-- map_result f rest ;
      Val (y :: ys)
  end.

(** the columns of one coupon or partial-url row *)
Definition child_columns (E : env) (fields : list HoneyScraper.column)
           (store_id item : json) : result (list sqlval) :=
  args <-- HoneyScraper.arguments E item fields ;
  _ <-- Sql.bind_param store_id ;
  HoneyScraper.bind_params args.

(** the rows of one save: the store row and the rows of its children *)
Record save_plan : Type := {
  plan_store : store_row;
  plan_coupons : list (list sqlval);
  plan_partial_urls : list (list sqlval)
}.

(** the rows [_save_store_to_db] is to write for its arguments, or the
    exception that reading and binding them raises *)
Definition plan_of (E : env) (domain store_id partial_url details : json)
  : result save_plan :=
  args <-- HoneyScraper.arguments E details HoneyScraper.store_fields ;
  v <-- Sql.bind_param store_id ;
  cols <-- HoneyScraper.bind_params
         (domain :: partial_url :: args ++ [JStr (dumps E details)]) ;
  cs <-- Py.get_default details "publicCoupons" (JArr []) ;
  cs <-- Py.iter cs ;
  coupon_rows <-- map_result (child_columns E HoneyScraper.coupon_fields store_id) cs ;
  pus <-- Py.get_default details "partialUrls" (JArr []) ;
  pus <-- Py.iter pus ;
  partial_url_rows <--
    map_result (child_columns E HoneyScraper.partial_url_fields store_id) pus ;
  Val {| plan_store := {| store_id := Sql.text E v; store_columns := cols |};
         plan_coupons := coupon_rows;
         plan_partial_urls := partial_url_rows |}.

Definition insert_all (insert : key -> list sqlval -> database -> database)
           (k : key) (rows : list (list sqlval)) (d : database) : database :=
  fold_left (fun d cols => insert k cols d) rows d.

(** the statements of one save, applied in order *)
Definition write_plan (p : save_plan) (d : database) : database :=
  let k := store_id (plan_store p) in
  insert_all Sql.insert_partial_url k (plan_partial_urls p)
    (Sql.delete_partial_urls k
       (insert_all Sql.insert_coupon k (plan_coupons p)
          (Sql.delete_coupons k
             (Sql.replace_store (plan_store p) d)))).

(** ** A store whose coupons are null *)





(** the child rows of the store with key [k] *)
Definition owned (k : key) (rows : list child_row) : list child_row :=
  filter (fun r => Sql.eq (owner r) k) rows.

(** the store rows with key [k] *)
Definition stores_with (k : key) (d : database) : list store_row :=
  filter (fun r => Sql.eq (store_id r) k) (stores d).

(** the file after [_save_store_to_db] on the world [w] *)
Definition db_after_save (E : env) (domain sid partial_url details : json)
           (w : world) : database :=
  db (snd (fst (HoneyScraper._save_store_to_db E domain sid partial_url details w))).

(** a store record with two coupons and one partial url, and one with one
    coupon and none *)
Definition record_two_coupons : json :=
  JObj [("name", JStr "A");
        ("publicCoupons", JArr [JObj [("code", JStr "X")]; JObj [("code", JStr "Y")]]);
        ("partialUrls", JArr [JObj [("domain", JStr "a.com"); ("partialURL", JStr "a.com")]])].

Definition record_one_coupon : json :=
  JObj [("name", JStr "B"); ("publicCoupons", JArr [JObj [("code", JStr "Z")]])].

(** ** What a lookup does to the world *)

(** an event of the transport: a sleep or a request *)
Definition is_transport (ev : event) : Prop :=
  match ev with
  | Slept _ | Requested _ _ => True
  | _ => False
  end.

(** the value a wrapped call returns with delay [q]; it does not depend on
    the world it runs in *)
Definition lookup_value (E : env) (r : request) (path : string) (miss : json)
           (q : Q) : json :=
  match fst (fst (HoneyScraper.retry_loop E r path miss HoneyScraper.max_retries 0 q
                                          (initial_world q))) with
  | Val v => v
  | Exc _ => miss
  end.

(** the mappings the lookup for the domain returns *)
Definition mappings_of (E : env) (domain : json) (q : Q) : json :=
  lookup_value E (PartialsByDomain domain) "getPartialURLsByDomain" (JArr []) q.

(** the record the lookup for the store returns *)
Definition details_of (E : env) (sid : json) (q : Q) : json :=
  lookup_value E (StoreById sid 3 1) "getStoreById" JNull q.

(** ** Well-formed answers of the API *)

(** a mapping is an object whose store id SQLite can bind *)
Definition mapping_shaped (m : json) : Prop :=
  exists fields sid v,
    m = JObj fields /\ Py.get m "storeId" = Val sid /\ Sql.bind_param sid = Val v.

(** the mappings are an array of such objects, or nothing *)
Definition mappings_shaped (ms : json) : Prop :=
  Py.truthy ms = false \/ exists items, ms = JArr items /\ Forall mapping_shaped items.

(** a store record is an object, or nothing *)
Definition details_shaped (v : json) : Prop :=
  Py.truthy v = false \/ exists fields, v = JObj fields.

(** every answer of the API has the shape of section 6 of the specification *)
Definition api_shaped (E : env) : Prop :=
  (forall dom n v,
      verdict_at E (PartialsByDomain dom) "getPartialURLsByDomain" (JArr []) n = Answered v ->
      mappings_shaped v)
  /\ (forall sid n v,
         verdict_at E (StoreById sid 3 1) "getStoreById" JNull n = Answered v ->
         details_shaped v).

(** the number of items [for mapping in ms] goes through *)
Definition mapping_count (ms : json) : nat :=
  match Py.iter ms with
  | Val items => List.length items
  | Exc _ => 0
  end.

(** ** A domain with two stores *)

Definition store_record (name : string) : json :=
  JObj [("name", JStr name); ("publicCoupons", JArr []); ("partialUrls", JArr [])].

(** [a.com] resolves to the stores [S1] and [S2], [b.com] to nothing *)
Definition api_two_stores (r : request) (n : nat) : result response :=
  match r with
  | SupportedDomains => ok (JArr [JStr "a.com"; JStr "b.com"])
  | PartialsByDomain d =>
      if Py.is_str "a.com" d
      then ok (enveloped "getPartialURLsByDomain"
                 (JArr [JObj [("storeId", JStr "S1"); ("partialURL", JStr "a.com")];
                        JObj [("storeId", JStr "S2"); ("partialURL", JStr "a.com")]]))
      else ok (enveloped "getPartialURLsByDomain" (JArr []))
  | StoreById sid _ _ =>
      if Py.is_str "S1" sid then ok (enveloped "getStoreById" (store_record "One"))
      else ok (enveloped "getStoreById" (store_record "Two"))
  end.

(** the stores whose details a trace asks for *)
Definition detail_lookups (t : list event) : list json :=
  flat_map (fun ev => match ev with
                      | Requested (StoreById sid _ _) 0 => [sid]
                      | _ => []
                      end) t.

(** the keys of the stores in the file *)
Definition store_ids (d : database) : list key := map store_id (stores d).

(** the operator presses stop while the third request of the run, the detail
    fetch of [S1], is in flight *)
Definition stop_during_first_fetch : world :=
  set_stop_request_in (Some 2) (initial_world (1 # 2)).

(** ** Runs that differ in their counters only *)

(** two outcomes agree on the world, on the events and on how they ended, up
    to the relation [R] on the values returned *)
Definition agree {A : Type} (R : A -> A -> Prop)
           (o1 o2 : result A * world * list event) : Prop :=
  snd (fst o1) = snd (fst o2)
  /\ snd o1 = snd o2
  /\ match fst (fst o1), fst (fst o2) with
     | Val a1, Val a2 => R a1 a2
     | Exc e1, Exc e2 => e1 = e2
     | _, _ => False
     end.

(** the same way out of a turn, with any local variables *)
Definition same_flow {S : Type} (a b : flow * S) : Prop := fst a = fst b.

(** a loop body that does to the world the same whatever its local variables *)
Definition blind {A S : Type} (body : A -> S -> M (flow * S)) : Prop :=
  forall x s s' w, agree same_flow (body x s w) (body x s' w).

(** ** Markers that stay *)

(** the domain with key [k] is marked in the file, and in the open
    transaction if there is one *)
Definition marked (k : key) (w : world) : Prop :=
  Sql.domain_found k (db w) = true
  /\ forall d, txn w = Some d -> Sql.domain_found k d = true.

(** no stop request of the operator is pending *)
Definition idle (w : world) : Prop := stop_request_in w = None.

(** the counters after [n] more domains were skipped *)
Definition skip_more (n : nat) (l : HoneyScraper.locals) : HoneyScraper.locals :=
  {| HoneyScraper.processed := HoneyScraper.processed l;
     HoneyScraper.skipped := n + HoneyScraper.skipped l;
     HoneyScraper.errs := HoneyScraper.errs l |}.

(** the loop of [HoneyScraper.scrape_all_stores] over the domains [ds], with
    resumption, from fresh counters *)
Definition resume_loop (E : env) (ds : list string)
  : M HoneyScraper.locals :=
  for_each (HoneyScraper.each_domain E true) (map JStr ds) HoneyScraper.no_locals.

(** the crawl of [api_two_stores] with resumption, cut when the loop has gone
    through [a.com] *)
Definition cut_after_a : result HoneyScraper.locals * world * list event :=
  Eval vm_compute in
    resume_loop (env_of api_two_stores) ["a.com"] (initial_world (1 # 2)).

(** ** A fresh run over a file with an old marker *)

(** [a.com] resolves to nothing, [b.com] to the store [S1] *)
Definition api_later_store (r : request) (n : nat) : result response :=
  match r with
  | SupportedDomains => ok (JArr [JStr "a.com"; JStr "b.com"])
  | PartialsByDomain d =>
      if Py.is_str "b.com" d
      then ok (enveloped "getPartialURLsByDomain"
                 (JArr [JObj [("storeId", JStr "S1"); ("partialURL", JStr "b.com")]]))
      else ok (enveloped "getPartialURLsByDomain" (JArr []))
  | StoreById _ _ _ => ok (enveloped "getStoreById" (store_record "One"))
  end.

(** a file in which [b.com] was marked, with no store, by an earlier crawl *)
Definition b_marked_before : world :=
  set_db (Sql.replace_domain {| domain := Some "b.com"; scraped_at := 0; store_count := 0 |}
                             empty_db)
         (initial_world (1 # 2)).

(** ** A stop that arrives inside a domain *)

(** the operator presses stop while the second request of the run, the
    lookup of the mappings of [a.com], is in flight *)
Definition stop_during_mapping_lookup : world :=
  set_stop_request_in (Some 1) (initial_world (1 # 2)).

(** ** The rows a payload stands for

    What a store record, a coupon and a partial url of the payload are in the
    file, column by column, written from the payload and not from the save. *)

(** the SQL value of a scalar of the payload *)
Definition sql_of (j : json) : sqlval :=
  match j with
  | JNull => SqlNull
  | JBool b => SqlInt (if b then 1 else 0)
  | JInt z => SqlInt z
  | JFloat q => SqlReal q
  | JStr s => SqlText s
  | JArr _ | JObj _ => SqlNull
  end.

(** a value that a column can hold: not a list, not an object, and an
    integer of 64 bits *)
Definition scalar (j : json) : Prop :=
  match j with
  | JArr _ | JObj _ => False
  | JInt z => Sql.in_int64 z = true
  | _ => True
  end.

(** the value of a field of an object, [null] when it has none *)
Definition field (fields : list (string * json)) (k : string) : json :=
  match Py.assoc k fields with
  | Some v => v
  | None => JNull
  end.

(** a column that holds 1 when the field is truthy and 0 otherwise *)
Definition flag (fields : list (string * json)) (k : string) : sqlval :=
  SqlInt (if Py.truthy (field fields k) then 1 else 0).

(** a column that holds the JSON text of the field, or of [default] when the
    object has no such field *)
Definition dumped (E : env) (fields : list (string * json)) (k : string) (default : json)
  : sqlval :=
  SqlText (dumps E (match Py.assoc k fields with
                    | Some v => v
                    | None => default
                    end)).

(** the row of a store record saved for the id [s] under [domain] and
    [partial_url] *)
Definition store_row_of (E : env) (s : string) (domain partial_url : json)
           (r : list (string * json)) : store_row :=
  {| store_id := Some s;
     store_columns :=
       [sql_of domain; sql_of partial_url;
        sql_of (field r "name"); sql_of (field r "label"); sql_of (field r "country");
        sql_of (field r "url"); sql_of (field r "logoUrl");
        flag r "active"; flag r "supported"; sql_of (field r "supportStage");
        sql_of (field r "created"); sql_of (field r "updated");
        sql_of (field r "checked"); sql_of (field r "score");
        sql_of (field r "shoppers24h"); sql_of (field r "shoppers30d");
        sql_of (field r "shoppersChange");
        sql_of (field r "numSavings24h"); sql_of (field r "numSavings30d");
        sql_of (field r "avgSavings24h"); sql_of (field r "avgSavings30d");
        sql_of (field r "metadata");
        sql_of (field r "affiliateURL"); sql_of (field r "affiliateRestrictions");
        flag r "ugcAllowed"; sql_of (field r "freeShippingThreshold");
        flag r "forceJsRedirect"; sql_of (field r "launchpadPathname");
        SqlText (dumps E (JObj r))] |}.

(** the columns of a coupon of the payload, after [store_id] *)
Definition coupon_row (E : env) (c : list (string * json)) : list sqlval :=
  [sql_of (field c "code"); sql_of (field c "dealId"); sql_of (field c "description");
   sql_of (field c "created"); sql_of (field c "expires");
   flag c "exclusive"; flag c "hidden";
   sql_of (field c "restrictions"); sql_of (field c "rank");
   sql_of (field c "applied_acc_count"); sql_of (field c "applied_acc_last_ts");
   sql_of (field c "applied_acc_last_discount"); sql_of (field c "url");
   dumped E c "meta" (JObj []); dumped E c "sources" (JArr []);
   dumped E c "tags" (JArr [])].

(** the columns of a partial url of the payload, after [store_id] *)
Definition partial_url_row (pu : list (string * json)) : list sqlval :=
  [sql_of (field pu "domain"); sql_of (field pu "partialURL")].

(** the fields of a store record, of a coupon and of a partial url that go
    into a column as they are *)
Definition store_scalars : list string :=
  ["name"; "label"; "country"; "url"; "logoUrl"; "supportStage"; "created"; "updated";
   "checked"; "score"; "shoppers24h"; "shoppers30d"; "shoppersChange"; "numSavings24h";
   "numSavings30d"; "avgSavings24h"; "avgSavings30d"; "metadata"; "affiliateURL";
   "affiliateRestrictions"; "freeShippingThreshold"; "launchpadPathname"].

Definition coupon_scalars : list string :=
  ["code"; "dealId"; "description"; "created"; "expires"; "restrictions"; "rank";
   "applied_acc_count"; "applied_acc_last_ts"; "applied_acc_last_discount"; "url"].

Definition partial_url_scalars : list string := ["domain"; "partialURL"].

(** the fields [keys] of the object are scalars *)
Definition scalars (keys : list string) (fields : list (string * json)) : Prop :=
  Forall (fun k => scalar (field fields k)) keys.

(** A payload that a save can write: [domain] and [partial_url] are scalars,
    the record [r] has scalars in the fields that go into a column as they
    are, its [publicCoupons] are the objects [cs] and its [partialUrls] the
    objects [pus], each a list that may be absent, with scalars in their
    fields. *)
Definition payload (domain partial_url : json) (r : list (string * json))
           (cs pus : list (list (string * json))) : Prop :=
  scalar domain /\ scalar partial_url
  /\ scalars store_scalars r
  /\ Py.get_default (JObj r) "publicCoupons" (JArr []) = Val (JArr (map JObj cs))
  /\ Forall (scalars coupon_scalars) cs
  /\ Py.get_default (JObj r) "partialUrls" (JArr []) = Val (JArr (map JObj pus))
  /\ Forall (scalars partial_url_scalars) pus.

(** the argument the save reads from an object for a column *)
Definition argument_of (E : env) (fields : list (string * json)) (c : HoneyScraper.column)
  : json :=
  match c with
  | HoneyScraper.Plain k => field fields k
  | HoneyScraper.Flag k => JInt (if Py.truthy (field fields k) then 1 else 0)
  | HoneyScraper.Dumped k default =>
      JStr (dumps E (match Py.assoc k fields with
                     | Some v => v
                     | None => default
                     end))
  end.

(** ** The fetch of the domain list *)

(** the list fetch fails: the transport raises, the status is an error
    status, or the body is not JSON *)
Definition list_fetch_fails (E : env) : Prop :=
  match api E SupportedDomains 0 with
  | Exc _ => True
  | Val resp =>
      (400 <= status_code resp < 600)%Z \/ exists e, json_body resp = Exc e
  end.

(** ** The effort of one lookup *)

(** the seconds [n] attempts may sleep, as a multiple of the delay the first
    of them starts with *)
Fixpoint sleep_bound (n : nat) : Q :=
  match n with
  | 0 => 0%Q
  | S k => (3 + 2 * sleep_bound k)%Q
  end.

(** every attempt is answered with HTTP 429 *)
Definition api_always_429 (r : request) (n : nat) : result response := status 429.

(** ** Requests that follow a sleep *)

(** [m] keeps the invariant [I] of the world and the events it emits, taken
    together, satisfy [P], whether it returns or raises *)
Definition keeps {A : Type} (I : world -> Prop) (P : list event -> Prop) (m : M A) : Prop :=
  forall w, I w -> I (snd (fst (m w))) /\ P (snd (m w)).

(** a request of a lookup, for the mappings of a domain or the record of a
    store *)
Definition is_lookup (r : request) : bool :=
  match r with
  | SupportedDomains => false
  | PartialsByDomain _ | StoreById _ _ _ => true
  end.

(** in the events [t], which come after the event [prev], every request of a
    lookup comes directly after a sleep of [d] seconds or more *)
Fixpoint paced_after (d : Q) (prev : option event) (t : list event) : Prop :=
  match t with
  | [] => True
  | ev :: rest =>
      match ev with
      | Requested r _ =>
          if is_lookup r
          then match prev with
               | Some (Slept q) => (d <= q)%Q
               | _ => False
               end
          else True
      | _ => True
      end
      /\ paced_after d (Some ev) rest
  end.

Definition paced (d : Q) (t : list event) : Prop := paced_after d None t.

(** the same, said of the trace: whatever comes before a request of a lookup
    ends with a sleep of [d] seconds or more *)
Definition lookups_follow_sleeps (d : Q) (t : list event) : Prop :=
  forall t1 r a t2,
    t = t1 ++ Requested r a :: t2 ->
    is_lookup r = true ->
    exists t0 q, t1 = t0 ++ [Slept q] /\ (d <= q)%Q.

(** ** A run with a limit *)

(** the event concerns none but the domains [allowed]: a request for the
    mappings of a domain asks for one of them, and a marker is written under
    the key of one of them *)
Definition touches_only (E : env) (allowed : list json) (ev : event) : Prop :=
  match ev with
  | Requested (PartialsByDomain d) _ => In d allowed
  | Marked k _ =>
      exists d v, In d allowed /\ Sql.bind_param d = Val v /\ k = Sql.text E v
  | _ => True
  end.

(** an event of the lookup for the request [r]: a sleep, or a request for [r] *)
Definition own_transport (r : request) (ev : event) : Prop :=
  match ev with
  | Slept _ => True
  | Requested r' _ => r' = r
  | _ => False
  end.

(** ** web_dashboard.py: [POST /api/scraper/stop]

    [api_scraper_stop] always answers 200 with the same message; what it does
    is to set the stop flag. *)
Definition api_scraper_stop (w : world) : world :=
  set_scraper_state (Dashboard.with_should_stop true (scraper_state w)) w.

(** ** web_dashboard.py: [POST /api/scraper/start] *)

Definition set_scraper_instance (b : bool) (w : world) : world :=
  {| db := db w; txn := txn w; scraper_state := scraper_state w;
     self_delay := self_delay w; scraper_instance := b;
     clock := clock w; stop_request_in := stop_request_in w |}.

(** what the endpoint answers: 200 and the arguments of the run it has
    started a thread for, 400 with a message, or the 500 Flask makes of an
    exception that nothing catches *)
Inductive start_reply : Type :=
| Started (max_domains : option Z) (skip_existing : bool)
| StartError400 (message : string)
| StartError500 (e : exn).

Section Start.

(** what [int] makes of a string: a number, or [ValueError] *)
Variable int_of_str : string -> option Z.

(** [int(x)] on a JSON value; a float is cut towards zero *)
Definition py_int (j : json) : result Z :=
  match j with
  | JInt z => Val z
  | JBool b => Val (if b then 1 else 0)%Z
  | JFloat q => Val (Z.quot (Qnum q) (Zpos (Qden q)))
  | JStr s =>
      match int_of_str s with
      | Some z => Val z
      | None => Exc ValueError
      end
  | JNull | JArr _ | JObj _ => Exc TypeError
  end.

(** [api_scraper_start], given what [request.json] comes to.  The new
    [MonitoredScraper] takes its delay from the state dictionary; its
    [_init_database] creates the tables that are missing and changes no row.
    The value of [max_domains] goes to the run as it is when it is falsy, and
    the run then applies no limit; [skip_existing] is only ever tested for
    its truth value. *)
Definition api_scraper_start (data : json) : world -> start_reply * world :=
  fun w =>
    if running (scraper_state w)
    then (StartError400 "Scraper is already running", w)
    else
      let data := if Py.truthy data then data else JObj [] in
      match Py.get_default data "max_domains" JNull with
      | Exc e => (StartError500 e, w)
      | Val max_domains =>
          match Py.get_default data "skip_existing" (JBool true) with
          | Exc e => (StartError500 e, w)
          | Val skip_existing =>
              match (if Py.truthy max_domains
                     then n <-- py_int max_domains ; Val (Some n)
                     else Val None) with
              | Exc ValueError => (StartError400 "Invalid max_domains value", w)
              | Exc e => (StartError500 e, w)
              | Val max_domains =>
                  (* Start scraper in background thread *)
                  let w := set_self_delay (delay (scraper_state w))
                                          (set_scraper_instance true w) in
                  let w := set_scraper_state
                             (Dashboard.with_mode
                                (Some (Py.truthy skip_existing,
                                       HoneyScraper.limit max_domains))
                                (scraper_state w)) w in
                  (Started max_domains (Py.truthy skip_existing), w)
              end
          end
      end.

End Start.

(** ** The file a save leaves *)

(** the rows [INSERT] adds under the key [k], one for each tuple of columns,
    when the sequence of the table stands at [seq] *)
Fixpoint new_rows (k : key) (seq : Z) (rows : list (list sqlval)) : list child_row :=
  match rows with
  | [] => []
  | cols :: rest =>
      {| row_id := seq + 1; owner := k; columns := cols |} :: new_rows k (seq + 1) rest
  end.

(** every coupon and every partial url whose [store_id] is not NULL has its
    store in the file, by the comparison [store_id = ?] of the file.  A row
    whose [store_id] is NULL is the row of no store. *)
Definition no_orphans (d : database) : Prop :=
  (forall r, In r (coupons d) -> owner r <> None -> Sql.store_found (owner r) d = true)
  /\ (forall r, In r (partial_urls d) -> owner r <> None ->
                Sql.store_found (owner r) d = true).

(** [a.com] resolves to the store [S1], whose record has two coupons and a
    partial url *)
Definition api_with_coupons (r : request) (n : nat) : result response :=
  match r with
  | SupportedDomains => ok (JArr [JStr "a.com"])
  | PartialsByDomain _ =>
      ok (enveloped "getPartialURLsByDomain"
            (JArr [JObj [("storeId", JStr "S1"); ("partialURL", JStr "a.com")]]))
  | StoreById _ _ _ => ok (enveloped "getStoreById" record_two_coupons)
  end.

(** a file that holds the store [S1] with one coupon, of id 1 *)
Definition file_with_a_coupon : world :=
  set_db {| stores := [{| store_id := Some "S1"; store_columns := [] |}];
            coupons := [{| row_id := 1; owner := Some "S1"; columns := [] |}];
            coupons_seq := 1;
            partial_urls := []; partial_urls_seq := 0;
            scraped_domains := [] |}
         (initial_world (1 # 2)).

(** the keys that are not NULL *)
Definition text_keys (ks : list key) : list string :=
  flat_map (fun k => match k with Some s => [s] | None => [] end) ks.

(** the domains of the markers in the file *)
Definition marked_domains (d : database) : list key := map domain (scraped_domains d).

(** no two stores have the same key, no two markers the same domain *)
Definition keys_unique (d : database) : Prop :=
  NoDup (text_keys (store_ids d)) /\ NoDup (text_keys (marked_domains d)).

(** the ids of the rows are distinct and none is beyond the sequence *)
Definition ids_in_sequence (rows : list child_row) (seq : Z) : Prop :=
  NoDup (map row_id rows) /\ forall r, In r rows -> (row_id r <= seq)%Z.

Definition autoincrement_kept (d : database) : Prop :=
  ids_in_sequence (coupons d) (coupons_seq d)
  /\ ids_in_sequence (partial_urls d) (partial_urls_seq d).

(** the file holds the stores [ks] and the markers of the domains [ms] *)
Definition holds (ks ms : list key) (d : database) : Prop :=
  incl ks (store_ids d) /\ incl ms (marked_domains d).

(** ** The domains a run selects *)

(** [domains[:max_domains]] when [max_domains] is given and is not zero, all
    of them otherwise *)
Definition selected {A : Type} (max_domains : option Z) (domains : list A) : list A :=
  match HoneyScraper.limit max_domains with
  | Some n => Py.take n domains
  | None => domains
  end.

(** ** Round trips through the file *)

(** the markers of the domain with key [k] *)
Definition markers_of (k : key) (d : database) : list domain_row :=
  filter (fun r => Sql.eq (domain r) k) (scraped_domains d).

(** ** web_dashboard.py: [GET /api/stores] *)

(** [LIMIT ? OFFSET ?]: a negative limit is no limit, a negative offset is
    no offset *)
Definition limit_offset {A : Type} (limit offset : Z) (rows : list A) : list A :=
  let rest := skipn (Z.to_nat offset) rows in
  if (limit <? 0)%Z then rest else firstn (Z.to_nat limit) rest.

(** the column of a store row at a place of the [INSERT] of
    [_save_store_to_db], counted after [store_id] *)
Definition store_column (n : nat) (r : store_row) : sqlval :=
  nth n (store_columns r) SqlNull.

(** [active = 1], on what a save binds for the column, or on a number *)
Definition is_active (r : store_row) : bool :=
  match store_column 7 r with
  | SqlInt z => (z =? 1)%Z
  | SqlReal q => Qeq_bool q 1
  | _ => false
  end.

(** what the endpoint answers: 200 with a page of stores, each with the
    number of its coupons, and the pagination figures, or 500 *)
Inductive stores_reply : Type :=
| StoresPage (rows : list (store_row * Z)) (page per_page total pages : Z)
| StoresError500.

Definition page_rows (r : stores_reply) : list (store_row * Z) :=
  match r with
  | StoresPage rows _ _ _ _ => rows
  | StoresError500 => []
  end.

(** the columns of the tables [stores] and [coupons], as [_init_database]
    creates them *)
Definition stores_columns : list string :=
  ["store_id"; "domain"; "partial_url"; "name"; "label"; "country"; "url"; "logo_url";
   "active"; "supported"; "support_stage"; "created"; "updated"; "checked"; "score";
   "shoppers_24h"; "shoppers_30d"; "shoppers_change"; "num_savings_24h";
   "num_savings_30d"; "avg_savings_24h"; "avg_savings_30d"; "metadata"; "affiliate_url";
   "affiliate_restrictions"; "ugc_allowed"; "free_shipping_threshold";
   "force_js_redirect"; "launchpad_pathname"; "raw_json"].

Definition coupons_columns : list string :=
  ["id"; "store_id"; "code"; "deal_id"; "description"; "created"; "expires"; "exclusive";
   "hidden"; "restrictions"; "rank"; "applied_acc_count"; "applied_acc_last_ts";
   "applied_acc_last_discount"; "url"; "meta_json"; "sources_json"; "tags_json"].

(** the columns that [where_sql] names, none of them with its table: those
    of the search, of the country and of [active_only], each when asked for *)
Definition where_columns (search country : string) (active_only : bool) : list string :=
  (if String.eqb search "" then [] else ["name"; "domain"; "url"])
  ++ (if String.eqb country "" then [] else ["country"])
  ++ (if active_only then ["active"] else []).

(** SQLite resolves a column named without its table when one table of the
    statement, and no more, has a column of that name; it refuses the
    statement otherwise (no such column, ambiguous column name). *)
Definition resolves (tables : list (list string)) (c : string) : bool :=
  Nat.eqb (List.length (filter (fun t => existsb (String.eqb c) t) tables)) 1.

Definition prepares (tables : list (list string)) (names : list string) : bool :=
  forallb (resolves tables) names.

Section Stores.

Variable E : env.

(** The rows of the listing query before [LIMIT] and [OFFSET], for the stores
    that its [WHERE] clause keeps and the coupons of the file: one row for
    each store id, with [COUNT(c.id)] over the coupons joined to it, in the
    order [ORDER BY s.updated DESC] puts them in, which SQLite leaves open
    among stores updated at the same time. *)
Variable listing : list store_row -> list child_row -> list (store_row * Z).

(** the [WHERE] clause without a search: [country = ?] and [active = 1],
    each when asked for *)
Definition kept_by (country : string) (active_only : bool) (r : store_row) : bool :=
  (if String.eqb country "" then true
   else Sql.eq (Sql.text E (store_column 4 r)) (Some country))
  && (if active_only then is_active r else true).

(** [api_stores], given what the query string comes to.  The count is taken
    from [stores] alone, the listing from [stores] joined to [coupons]; each
    statement runs when SQLite resolves the columns of [where_sql] in its
    tables, and any exception is answered with 500.  The number of pages is
    worked out last, in the reply.  What a search keeps is not modelled: the
    rows of a statement that is refused are never read. *)
Definition api_stores (page per_page : Z) (search country : string)
           (active_only : bool) (d : database) : stores_reply :=
  let names := where_columns search country active_only in
  let kept := filter (kept_by country active_only) (stores d) in
  (* Get total count *)
  let total := Z.of_nat (List.length kept) in
  (* Get stores *)
  let offset := ((page - 1) * per_page)%Z in
  if negb (prepares [stores_columns] names
           && prepares [stores_columns; coupons_columns] names)
  then StoresError500
  else if negb (Sql.in_int64 per_page && Sql.in_int64 offset) then StoresError500
  else
    let rows := limit_offset per_page offset (listing kept (coupons d)) in
    if (per_page =? 0)%Z then StoresError500
    else StoresPage rows page per_page total ((total + per_page - 1) / per_page)%Z.

End Stores.

(** a file with the two stores [S1] and [S2] *)
Definition two_stores_file : database :=
  Sql.replace_store {| store_id := Some "S2"; store_columns := [] |}
    (Sql.replace_store {| store_id := Some "S1"; store_columns := [] |} empty_db).

(** * Properties *)

(** ** The retry loop *)

Lemma Qle_bool_double (d : Q) : Qle_bool 0 d = true -> Qle_bool 0 (d * 2) = true.
Proof.
  rewrite !Qle_bool_iff. intros H.
  apply Qmult_le_0_compat; [assumption | discriminate].
Qed.

Lemma Qle_bool_half_more (d : Q) : Qle_bool 0 d = true -> Qle_bool 0 (d * (3 # 2)) = true.
Proof.
  rewrite !Qle_bool_iff. intros H.
  apply Qmult_le_0_compat; [assumption | discriminate].
Qed.

Lemma contains_exn (k : string) (j : json) (e : exn) :
  Py.contains k j = Exc e -> e = TypeError.
Proof. destruct j; cbn; congruence. Qed.

Lemma getitem_exn (j : json) (k : string) (e : exn) :
  Py.getitem j k = Exc e -> is_RequestException e = false.
Proof.
  destruct j; cbn; try (intros [= <-]; reflexivity).
  destruct (Py.assoc k fields); intros [= <-]; reflexivity.
Qed.

Lemma read_path_exn (path : string) (miss data : json) (e : exn) :
  HoneyScraper.read_path path miss data = Exc e -> is_RequestException e = false.
Proof.
  unfold HoneyScraper.read_path, and_then.
  destruct (Py.contains "data" data) as [[] | e1] eqn:H1.
  - destruct (Py.getitem data "data") as [inner | e2] eqn:H2.
    + destruct (Py.contains path inner) as [[] | e3] eqn:H3.
      * apply getitem_exn.
      * discriminate.
      * intros [= <-]. apply contains_exn in H3. subst. reflexivity.
    + intros [= <-]. eapply getitem_exn; eassumption.
  - discriminate.
  - intros [= <-]. apply contains_exn in H1. subst. reflexivity.
Qed.

Lemma raise_for_status_exn (r : response) (e : exn) :
  raise_for_status r = Exc e -> e = RequestException.
Proof. unfold raise_for_status. destruct (_ && _); congruence. Qed.

Lemma attempt_once_spec (E : env) (r : request) (path : string) (miss : json)
      (attempt : nat) (d : Q) (w : world) :
  Qle_bool 0 d = true ->
  HoneyScraper.attempt_once E r path miss attempt d w =
  (Val (attempt_turn d (verdict_of path miss (api E r attempt))),
   HoneyScraper.operator w,
   attempt_events r attempt d (verdict_of path miss (api E r attempt))).
Proof.
  intros Hd.
  pose proof (Qle_bool_double d Hd) as H2.
  pose proof (Qle_bool_half_more d Hd) as H3.
  unfold HoneyScraper.attempt_once, attempt_events, verdict_of.
  remember (attempt <? HoneyScraper.max_retries - 1)%nat as more.
  unfold try_except, bind, HoneyScraper.sleep,
    HoneyScraper.session_get, emit, modify, lift, ret, raise, attempt_turn.
  rewrite Hd. cbn.
  destruct (api E r attempt) as [resp | e]; cbn.
  - destruct (status_code resp =? 429)%Z eqn:H429; cbn.
    + rewrite H2. reflexivity.
    + destruct (raise_for_status resp) as [[] | e] eqn:Hs; cbn.
      * destruct (json_body resp) as [data | e]; cbn.
        -- destruct (HoneyScraper.read_path path miss data) as [v | e] eqn:Hp; cbn.
           ++ reflexivity.
           ++ rewrite (read_path_exn _ _ _ _ Hp). reflexivity.
        -- destruct (is_RequestException e); cbn; [| reflexivity].
           destruct more; cbn; [rewrite H3 |]; reflexivity.
      * apply raise_for_status_exn in Hs. subst e. cbn.
        destruct more; cbn; [rewrite H3 |]; reflexivity.
  - destruct (is_RequestException e); cbn; [| reflexivity].
    destruct more; cbn; [rewrite H3 |]; reflexivity.
Qed.

(** With a negative delay the first [time.sleep] raises and the loop breaks. *)
Lemma attempt_once_negative (E : env) (r : request) (path : string) (miss : json)
      (attempt : nat) (d : Q) (w : world) :
  Qle_bool 0 d = false ->
  HoneyScraper.attempt_once E r path miss attempt d w = (Val HoneyScraper.Broken, w, []).
Proof.
  intros Hd.
  unfold HoneyScraper.attempt_once, try_except, bind, HoneyScraper.sleep.
  rewrite Hd. reflexivity.
Qed.
Section RetryLoop.

Variables (E : env) (r : request) (path : string) (miss : json).


Lemma retry_loop_step (n a : nat) (d : Q) (w : world) :
  Qle_bool 0 d = true ->
  HoneyScraper.retry_loop E r path miss (S n) a d w =
  match attempt_turn d (verdict_at E r path miss a) with
  | HoneyScraper.Return v =>
      (Val v, HoneyScraper.operator w, attempt_events r a d (verdict_at E r path miss a))
  | HoneyScraper.Broken =>
      (Val miss, HoneyScraper.operator w, attempt_events r a d (verdict_at E r path miss a))
  | HoneyScraper.Continue d' =>
      let '(x, w', t) :=
        HoneyScraper.retry_loop E r path miss n (S a) d' (HoneyScraper.operator w) in
      (x, w', attempt_events r a d (verdict_at E r path miss a) ++ t)
  end.
Proof.
  intros Hd. cbn [HoneyScraper.retry_loop]. unfold bind at 1.
  rewrite attempt_once_spec by assumption. fold (verdict_at E r path miss a).
  destruct (attempt_turn d (verdict_at E r path miss a)); unfold ret;
    rewrite ?app_nil_r; reflexivity.
Qed.

Lemma retry_loop_negative (n a : nat) (d : Q) (w : world) :
  Qle_bool 0 d = false ->
  HoneyScraper.retry_loop E r path miss n a d w = (Val miss, w, []).
Proof.
  intros Hd. destruct n; [reflexivity |].
  cbn [HoneyScraper.retry_loop]. unfold bind.
  rewrite attempt_once_negative by assumption. reflexivity.
Qed.

(** The loop returns, whatever the transport does: it returns the miss, or
    what an attempt was answered after retried attempts only. *)
Lemma retry_loop_returns (n a : nat) (d : Q) (w : world) :
  exists v w' t,
    HoneyScraper.retry_loop E r path miss n a d w = (Val v, w', t)
    /\ (v = miss
        \/ exists k, k < n /\ verdict_at E r path miss (a + k) = Answered v
                     /\ forall j, j < k -> is_retry (verdict_at E r path miss (a + j)) = true).
Proof.
  revert a d w. induction n as [| n IH]; intros a d w.
  - exists miss, w, []. split; [reflexivity | now left].
  - destruct (Qle_bool 0 d) eqn:Hd.
    + rewrite retry_loop_step by assumption.
      destruct (verdict_at E r path miss a) eqn:Hv; cbn [attempt_turn].
      * destruct (IH (S a) (d * 2)%Q (HoneyScraper.operator w))
          as (v & w' & t & Heq & Hres).
        rewrite Heq. exists v, w', (attempt_events r a d RateLimited ++ t).
        split; [reflexivity |].
        destruct Hres as [-> | (k & Hk & Hans & Hpre)]; [now left | right].
        exists (S k). split; [lia |]. split.
        -- rewrite <- Hans. f_equal. lia.
        -- intros [| j] Hj.
           ++ rewrite Nat.add_0_r, Hv. reflexivity.
           ++ replace (a + S j) with (S a + j) by lia. apply Hpre. lia.
      * destruct (IH (S a) (d * (3 # 2))%Q (HoneyScraper.operator w))
          as (v & w' & t & Heq & Hres).
        rewrite Heq. exists v, w', (attempt_events r a d TransportError ++ t).
        split; [reflexivity |].
        destruct Hres as [-> | (k & Hk & Hans & Hpre)]; [now left | right].
        exists (S k). split; [lia |]. split.
        -- rewrite <- Hans. f_equal. lia.
        -- intros [| j] Hj.
           ++ rewrite Nat.add_0_r, Hv. reflexivity.
           ++ replace (a + S j) with (S a + j) by lia. apply Hpre. lia.
      * eexists _, _, _. split; [reflexivity | now left].
      * eexists _, _, _. split; [reflexivity | right].
        exists 0. split; [lia |]. split.
        -- rewrite Nat.add_0_r. assumption.
        -- intros j Hj. lia.
    + rewrite retry_loop_negative by assumption.
      exists miss, w, []. split; [reflexivity | now left].
Qed.

End RetryLoop.

(** ** The lookups keep their failures to themselves *)

Lemma lookup_returns (E : env) (r : request) (path : string) (miss : json) (w : world) :
  exists v w' t,
    HoneyScraper.retry_loop E r path miss HoneyScraper.max_retries 0 (self_delay w) w
    = (Val v, w', t)
    /\ ((forall n, n < HoneyScraper.max_retries ->
                   is_retry (verdict_at E r path miss n) = true) -> v = miss)
    /\ (forall k, k < HoneyScraper.max_retries ->
                  (forall j, j < k -> is_retry (verdict_at E r path miss j) = true) ->
                  verdict_at E r path miss k = Unexpected -> v = miss).
Proof.
  destruct (retry_loop_returns E r path miss HoneyScraper.max_retries 0 (self_delay w) w)
    as (v & w' & t & Heq & Hres).
  exists v, w', t. split; [assumption |]. cbn [Nat.add] in Hres.
  split.
  - intros Hall. destruct Hres as [-> | (k & Hk & Hans & _)]; [reflexivity |].
    specialize (Hall k Hk). rewrite Hans in Hall. discriminate.
  - intros k Hk Hpre Hun. destruct Hres as [-> | (k' & Hk' & Hans & Hpre')]; [reflexivity |].
    destruct (Nat.lt_trichotomy k k') as [Hlt | [-> | Hgt]].
    + specialize (Hpre' k Hlt). rewrite Hun in Hpre'. discriminate.
    + rewrite Hun in Hans. discriminate.
    + specialize (Hpre k' Hgt). rewrite Hans in Hpre. discriminate.
Qed.

Lemma get_store_ids_by_domain_unfold (E : env) (domain : json) (w : world) :
  HoneyScraper.get_store_ids_by_domain E domain w
  = HoneyScraper.retry_loop E (PartialsByDomain domain) "getPartialURLsByDomain"
                            (JArr []) HoneyScraper.max_retries 0 (self_delay w) w.
Proof.
  unfold HoneyScraper.get_store_ids_by_domain, bind, the_world.
  destruct (HoneyScraper.retry_loop _ _ _ _ _ _ _ _) as [[x w'] t]. reflexivity.
Qed.

Lemma get_store_details_unfold (E : env) (store_id : json) (max_ugc success_count : Z)
      (w : world) :
  HoneyScraper.get_store_details E store_id max_ugc success_count w
  = HoneyScraper.retry_loop E (StoreById store_id max_ugc success_count) "getStoreById"
                            JNull HoneyScraper.max_retries 0 (self_delay w) w.
Proof.
  unfold HoneyScraper.get_store_details, bind, the_world.
  destruct (HoneyScraper.retry_loop _ _ _ _ _ _ _ _) as [[x w'] t]. reflexivity.
Qed.

(** C4.  Whatever the domain or store id and whatever the transport does on
    each attempt, [get_store_ids_by_domain] and [get_store_details] return a
    value and raise nothing.  When all three attempts are rate limited or end
    in a transport error, and when an attempt meets an unexpected failure
    (such as a body that is not JSON) after retried attempts, the mapping
    lookup returns the empty list and the detail lookup returns [None]. *)
Theorem lookups_never_raise (E : env) (w : world) (domain store_id : json)
        (max_ugc success_count : Z) :
  (exists v w' t,
      HoneyScraper.get_store_ids_by_domain E domain w = (Val v, w', t)
      /\ ((forall n, n < 3 ->
             is_retry (verdict_at E (PartialsByDomain domain)
                                  "getPartialURLsByDomain" (JArr []) n) = true)
          -> v = JArr [])
      /\ (forall k, k < 3 ->
            (forall j, j < k ->
               is_retry (verdict_at E (PartialsByDomain domain)
                                    "getPartialURLsByDomain" (JArr []) j) = true) ->
            verdict_at E (PartialsByDomain domain)
                       "getPartialURLsByDomain" (JArr []) k = Unexpected ->
            v = JArr []))
  /\ (exists v w' t,
         HoneyScraper.get_store_details E store_id max_ugc success_count w
         = (Val v, w', t)
         /\ ((forall n, n < 3 ->
                is_retry (verdict_at E (StoreById store_id max_ugc success_count)
                                     "getStoreById" JNull n) = true)
             -> v = JNull)
         /\ (forall k, k < 3 ->
               (forall j, j < k ->
                  is_retry (verdict_at E (StoreById store_id max_ugc success_count)
                                       "getStoreById" JNull j) = true) ->
               verdict_at E (StoreById store_id max_ugc success_count)
                          "getStoreById" JNull k = Unexpected ->
               v = JNull)).
Proof.
  rewrite get_store_ids_by_domain_unfold, get_store_details_unfold.
  split.
  - destruct (lookup_returns E (PartialsByDomain domain) "getPartialURLsByDomain"
                             (JArr []) w) as (v & w' & t & Heq & H1 & H2).
    exists v, w', t. repeat split; assumption.
  - destruct (lookup_returns E (StoreById store_id max_ugc success_count)
                             "getStoreById" JNull w) as (v & w' & t & Heq & H1 & H2).
    exists v, w', t. repeat split; assumption.
Qed.

(** A body that is not JSON on the first attempt, and three timeouts. *)
Lemma lookups_never_raise_witness :
  fst (fst (HoneyScraper.get_store_ids_by_domain
              (env_of (fun _ _ => malformed)) (JStr "a.com") (initial_world (1 # 2))))
  = Val (JArr [])
  /\ fst (fst (HoneyScraper.get_store_details
                 (env_of (fun _ _ => Exc Timeout)) (JStr "S1") 3 1 (initial_world (1 # 2))))
     = Val JNull.
Proof.
  destruct (lookups_never_raise (env_of (fun _ _ => malformed)) (initial_world (1 # 2))
                                (JStr "a.com") (JStr "S1") 3 1)
    as [(v & w' & t & Heq & _ & Hun) _].
  destruct (lookups_never_raise (env_of (fun _ _ => Exc Timeout)) (initial_world (1 # 2))
                                (JStr "a.com") (JStr "S1") 3 1)
    as [_ (v2 & w2 & t2 & Heq2 & Hall & _)].
  split.
  - rewrite Heq. cbn. f_equal. apply (Hun 0).
    + lia.
    + intros j Hj. lia.
    + reflexivity.
  - rewrite Heq2. cbn. f_equal. apply Hall. intros n Hn. reflexivity.
Defined.

(** ** Backoff under rate limiting *)

Lemma rate_limited_verdict (E : env) (r : request) (path : string) (miss : json) (n : nat) :
  rate_limited_at E r n -> verdict_at E r path miss n = RateLimited.
Proof.
  intros (resp & Heq & Hs). unfold verdict_at, verdict_of.
  rewrite Heq, Hs. reflexivity.
Qed.

Lemma getitem_contains (j : json) (k : string) (v : json) :
  Py.getitem j k = Val v -> Py.contains k j = Val true.
Proof.
  destruct j; cbn; try discriminate.
  destruct (Py.assoc k fields); [reflexivity | discriminate].
Qed.

Lemma read_path_found (path : string) (miss data inner v : json) :
  Py.getitem data "data" = Val inner ->
  Py.getitem inner path = Val v ->
  HoneyScraper.read_path path miss data = Val v.
Proof.
  intros H1 H2. unfold HoneyScraper.read_path, and_then.
  rewrite (getitem_contains _ _ _ H1), H1, (getitem_contains _ _ _ H2), H2.
  reflexivity.
Qed.

Lemma succeeds_verdict (E : env) (r : request) (path : string) (miss v : json) (n : nat) :
  succeeds_at E r path v n -> verdict_at E r path miss n = Answered v.
Proof.
  intros (resp & data & inner & Heq & Hs & Hb & H1 & H2).
  unfold verdict_at, verdict_of. rewrite Heq.
  replace (status_code resp =? 429)%Z with false by (symmetry; apply Z.eqb_neq; lia).
  unfold raise_for_status.
  replace (400 <=? status_code resp)%Z with false by (symmetry; apply Z.leb_gt; lia).
  cbn. rewrite Hb, (read_path_found _ miss _ _ _ H1 H2). reflexivity.
Qed.

Lemma doubled_succ (k : nat) (d : Q) : doubled (S k) d = (doubled k d * 2)%Q.
Proof. reflexivity. Qed.

Lemma doubled_pos (k : nat) (d : Q) : (0 < d)%Q -> (0 < doubled k d)%Q.
Proof.
  intros Hd. induction k as [| k IH]; [assumption |].
  rewrite doubled_succ. lra.
Qed.

Lemma doubled_shift (k : nat) (d : Q) : doubled (S k) d = doubled k (d * 2)%Q.
Proof.
  induction k as [| k IH]; [reflexivity |].
  rewrite doubled_succ, IH. reflexivity.
Qed.

Lemma iter_operator_shift (k : nat) (w : world) :
  Nat.iter (S k) HoneyScraper.operator w
  = Nat.iter k HoneyScraper.operator (HoneyScraper.operator w).
Proof.
  induction k as [| k IH]; [reflexivity |].
  change (HoneyScraper.operator (Nat.iter (S k) HoneyScraper.operator w)
          = HoneyScraper.operator
              (Nat.iter k HoneyScraper.operator (HoneyScraper.operator w))).
  rewrite IH. reflexivity.
Qed.

Section RateLimited.

Variables (E : env) (r : request) (path : string) (miss : json).

(** [m] rate-limited attempts in a row use up [m] turns of the loop and
    leave the delay doubled [m] times. *)
Lemma retry_loop_rate_limited (m : nat) :
  forall (n a : nat) (d : Q) (w : world),
    Qle_bool 0 d = true ->
    (forall j, j < m -> verdict_at E r path miss (a + j) = RateLimited) ->
    m <= n ->
    HoneyScraper.retry_loop E r path miss n a d w =
    let '(x, w', t) :=
      HoneyScraper.retry_loop E r path miss (n - m) (a + m) (doubled m d)
                              (Nat.iter m HoneyScraper.operator w) in
    (x, w', rate_limited_events r a m d ++ t).
Proof.
  induction m as [| m IH]; intros n a d w Hd Hall Hle.
  - rewrite Nat.sub_0_r, Nat.add_0_r. cbn.
    destruct (HoneyScraper.retry_loop _ _ _ _ _ _ _ _) as [[x w'] t]. reflexivity.
  - destruct n as [| n]; [lia |].
    rewrite retry_loop_step by assumption.
    pose proof (Hall 0 ltac:(lia)) as H0. rewrite Nat.add_0_r in H0.
    rewrite H0. cbn [attempt_turn attempt_events].
    rewrite (IH n (S a) (d * 2)%Q (HoneyScraper.operator w)).
    + rewrite doubled_shift, iter_operator_shift.
      replace (S a + m) with (a + S m) by lia.
      replace (S n - S m) with (n - m) by lia.
      destruct (HoneyScraper.retry_loop _ _ _ _ _ _ _ _) as [[x w'] t]. reflexivity.
    + apply Qle_bool_double. assumption.
    + intros j Hj. replace (S a + j) with (a + S j) by lia. apply Hall. lia.
    + lia.
Qed.

End RateLimited.

Lemma total_slept_app (t1 t2 : list event) :
  (total_slept (t1 ++ t2) == total_slept t1 + total_slept t2)%Q.
Proof.
  induction t1 as [| [d | | | |] t1 IH]; cbn; try assumption; lra.
Qed.

Lemma total_slept_rate_limited (r : request) (k : nat) :
  forall (a : nat) (d : Q),
    (0 < d)%Q ->
    (total_slept (rate_limited_events r a k d)
     < total_slept (rate_limited_events r a (S k) d))%Q.
Proof.
  induction k as [| k IH]; intros a d Hd.
  - cbn. lra.
  - specialize (IH (S a) (d * 2)%Q ltac:(lra)).
    cbn [rate_limited_events total_slept] in *. lra.
Qed.

Lemma rate_limited_events_snoc (r : request) (k : nat) :
  forall (a : nat) (d : Q),
    rate_limited_events r a (S k) d
    = rate_limited_events r a k d
      ++ [Slept (doubled k d); Requested r (a + k); Slept (doubled k d * 2)%Q].
Proof.
  induction k as [| k IH]; intros a d.
  - cbn. rewrite Nat.add_0_r. reflexivity.
  - change (rate_limited_events r a (S (S k)) d)
      with (Slept d :: Requested r a :: Slept (d * 2)%Q
                  :: rate_limited_events r (S a) (S k) (d * 2)%Q).
    rewrite IH, doubled_shift. cbn [rate_limited_events app].
    replace (S a + k) with (a + S k) by lia. reflexivity.
Qed.

Lemma backoff (E : env) (r : request) (path : string) (miss v : json) (N : nat)
      (w : world) :
  (0 < self_delay w)%Q ->
  (forall n, n < N -> rate_limited_at E r n) ->
  succeeds_at E r path v N ->
  backs_off (fun w => HoneyScraper.retry_loop E r path miss HoneyScraper.max_retries 0
                                              (self_delay w) w)
            r miss v N w.
Proof.
  intros Hd Hlim Hok. unfold backs_off.
  assert (Hd0 : Qle_bool 0 (self_delay w) = true) by (apply Qle_bool_iff; lra).
  repeat split.
  - intros HN.
    rewrite (retry_loop_rate_limited E r path miss N) with (n := HoneyScraper.max_retries);
      [| assumption | | unfold HoneyScraper.max_retries; lia].
    + destruct (HoneyScraper.max_retries - N) as [| n] eqn:Hrem;
        [unfold HoneyScraper.max_retries in Hrem; lia |].
      rewrite retry_loop_step
        by (apply Qle_bool_iff; apply Qlt_le_weak; apply doubled_pos; assumption).
      cbn [Nat.add]. rewrite (succeeds_verdict E r path miss v N Hok).
      reflexivity.
    + intros j Hj. apply rate_limited_verdict. apply Hlim. cbn. assumption.
  - intros HN.
    rewrite (retry_loop_rate_limited E r path miss 3) with (n := HoneyScraper.max_retries);
      [| assumption | | unfold HoneyScraper.max_retries; lia].
    + cbn [HoneyScraper.max_retries Nat.sub HoneyScraper.retry_loop]. unfold ret.
      rewrite app_nil_r. reflexivity.
    + intros j Hj. apply rate_limited_verdict. apply Hlim. cbn. lia.
  - apply (rate_limited_events_snoc r k 0).
  - pose proof (doubled_pos k _ Hd). rewrite doubled_succ. lra.
  - apply total_slept_rate_limited. assumption.
  - rewrite total_slept_app. cbn [total_slept].
    pose proof (doubled_pos N _ Hd). lra.
Qed.

(** C8.  A wrapped call that receives [N] consecutive HTTP 429 responses and
    then a success, with a positive base delay: each 429 doubles the current
    delay and uses up one of the three attempts, the delays and the seconds
    slept after each attempt grow strictly, the call returns the payload when
    the success comes within three attempts, and returns the empty list (for
    mappings) or [None] (for details), not an exception, when it does not. *)
Theorem backoff_under_rate_limiting (E : env) (w : world) (N : nat)
        (domain store_id : json) (max_ugc success_count : Z) (v : json) :
  (0 < self_delay w)%Q ->
  ((forall n, n < N -> rate_limited_at E (PartialsByDomain domain) n) ->
   succeeds_at E (PartialsByDomain domain) "getPartialURLsByDomain" v N ->
   backs_off (HoneyScraper.get_store_ids_by_domain E domain)
             (PartialsByDomain domain) (JArr []) v N w)
  /\ ((forall n, n < N -> rate_limited_at E (StoreById store_id max_ugc success_count) n) ->
      succeeds_at E (StoreById store_id max_ugc success_count) "getStoreById" v N ->
      backs_off (HoneyScraper.get_store_details E store_id max_ugc success_count)
                (StoreById store_id max_ugc success_count) JNull v N w).
Proof.
  intros Hd. split; intros Hlim Hok.
  - pose proof (backoff E _ "getPartialURLsByDomain" (JArr []) v N w Hd Hlim Hok) as H.
    unfold backs_off in *. rewrite get_store_ids_by_domain_unfold. exact H.
  - pose proof (backoff E _ "getStoreById" JNull v N w Hd Hlim Hok) as H.
    unfold backs_off in *. rewrite get_store_details_unfold. exact H.
Qed.

(** Two 429 responses and then the answer, with the default delay of half a
    second: the sleeps are 1/2, 1, 1, 2, 2 and the third attempt returns. *)
Lemma backoff_under_rate_limiting_witness :
  HoneyScraper.get_store_details (env_of api_429_twice) (JStr "S1") 3 1
                                 (initial_world (1 # 2))
  = (Val (JObj [("name", JStr "A")]),
     initial_world (1 # 2),
     [Slept (1 # 2); Requested (StoreById (JStr "S1") 3 1) 0; Slept ((1 # 2) * 2)%Q;
      Slept ((1 # 2) * 2)%Q; Requested (StoreById (JStr "S1") 3 1) 1; Slept ((1 # 2) * 2 * 2)%Q;
      Slept ((1 # 2) * 2 * 2)%Q; Requested (StoreById (JStr "S1") 3 1) 2]).
Proof.
  pose proof (backoff_under_rate_limiting
                (env_of api_429_twice) (initial_world (1 # 2)) 2
                (JStr "a.com") (JStr "S1") 3 1 (JObj [("name", JStr "A")])) as H.
  destruct H as [_ H]; [reflexivity |].
  destruct H as [H _].
  - intros n Hn. exists {| status_code := 429; json_body := Exc OtherError |}.
    split; [| reflexivity].
    destruct n as [| [| n]]; [reflexivity | reflexivity | lia].
  - exists {| status_code := 200;
              json_body := Val (enveloped "getStoreById" (JObj [("name", JStr "A")])) |},
      (enveloped "getStoreById" (JObj [("name", JStr "A")])),
      (JObj [("getStoreById", JObj [("name", JStr "A")])]).
    repeat split; try reflexivity; cbn; lia.
  - rewrite H by lia. reflexivity.
Defined.

(** ** A well-formed body without the response path *)

Lemma read_path_lacking (path : string) (miss data : json) :
  has_path path data = false ->
  HoneyScraper.read_path path miss data = Val miss
  \/ exists e, HoneyScraper.read_path path miss data = Exc e.
Proof.
  intros H. unfold HoneyScraper.read_path, and_then.
  destruct data as [| b | z | q | s | items | fields]; cbn;
    try (right; eexists; reflexivity).
  - destruct (Py.substring_of "data" s); [right; eexists; reflexivity | now left].
  - destruct (existsb (Py.is_str "data") items);
      [right; eexists; reflexivity | now left].
  - cbn in H. destruct (Py.assoc "data" fields) as [inner |]; [| now left].
    destruct inner as [| b | z | q | s | items | inner]; cbn;
      try (right; eexists; reflexivity).
    + destruct (Py.substring_of path s); [right; eexists; reflexivity | now left].
    + destruct (existsb (Py.is_str path) items);
        [right; eexists; reflexivity | now left].
    + destruct (Py.assoc path inner); [discriminate | now left].
Qed.

Lemma lacking_verdict (E : env) (r : request) (path : string) (miss data : json) (n : nat) :
  body_at E r data n ->
  has_path path data = false ->
  verdict_at E r path miss n = Answered miss
  \/ verdict_at E r path miss n = Unexpected.
Proof.
  intros (resp & Heq & Hs & Hb) Hlack.
  unfold verdict_at, verdict_of. rewrite Heq.
  replace (status_code resp =? 429)%Z with false by (symmetry; apply Z.eqb_neq; lia).
  unfold raise_for_status.
  replace (400 <=? status_code resp)%Z with false by (symmetry; apply Z.leb_gt; lia).
  cbn. rewrite Hb.
  destruct (read_path_lacking path miss data Hlack) as [-> | [e ->]]; auto.
Qed.

Lemma requests_of_app (t1 t2 : list event) :
  requests_of (t1 ++ t2) = requests_of t1 ++ requests_of t2.
Proof.
  induction t1 as [| ev t1 IH]; [reflexivity |].
  destruct ev; cbn; rewrite ?IH; reflexivity.
Qed.

Lemma verdict_retry_events (r : request) (a : nat) (d : Q) (v : verdict) :
  is_retry v = true ->
  requests_of (attempt_events r a d v) = [(r, a)]
  /\ exists d', attempt_turn d v = HoneyScraper.Continue d'
                /\ (Qle_bool 0 d = true -> Qle_bool 0 d' = true).
Proof.
  destruct v; try discriminate; intros _; cbn [attempt_events attempt_turn].
  - split; [reflexivity |]. eexists. split; [reflexivity | apply Qle_bool_double].
  - split; [destruct (Nat.ltb a (HoneyScraper.max_retries - 1)); reflexivity |].
    eexists. split; [reflexivity | apply Qle_bool_half_more].
Qed.

Section RetriedPrefix.

Variables (E : env) (r : request) (path : string) (miss : json).

(** [m] retried attempts in a row use up [m] turns and make [m] requests. *)
Lemma retry_loop_retried (m : nat) :
  forall (n a : nat) (d : Q) (w : world),
    Qle_bool 0 d = true ->
    (forall j, j < m -> is_retry (verdict_at E r path miss (a + j)) = true) ->
    m <= n ->
    exists d' t0,
      Qle_bool 0 d' = true
      /\ requests_of t0 = map (fun j => (r, j)) (seq a m)
      /\ HoneyScraper.retry_loop E r path miss n a d w =
         let '(x, w', t) :=
           HoneyScraper.retry_loop E r path miss (n - m) (a + m) d'
                                   (Nat.iter m HoneyScraper.operator w) in
         (x, w', t0 ++ t).
Proof.
  induction m as [| m IH]; intros n a d w Hd Hall Hle.
  - exists d, []. rewrite Nat.sub_0_r, Nat.add_0_r. cbn.
    repeat split; [assumption |].
    destruct (HoneyScraper.retry_loop _ _ _ _ _ _ _ _) as [[x w'] t]. reflexivity.
  - destruct n as [| n]; [lia |].
    pose proof (Hall 0 ltac:(lia)) as H0. rewrite Nat.add_0_r in H0.
    destruct (verdict_retry_events r a d _ H0) as (Hreq & d1 & Hturn & Hd1).
    destruct (IH n (S a) d1 (HoneyScraper.operator w)) as (d' & t0 & Hd' & Ht0 & Heq).
    + auto.
    + intros j Hj. replace (S a + j) with (a + S j) by lia. apply Hall. lia.
    + lia.
    + exists d', (attempt_events r a d (verdict_at E r path miss a) ++ t0).
      split; [assumption |]. split.
      * rewrite requests_of_app, Hreq, Ht0. reflexivity.
      * rewrite retry_loop_step by assumption. rewrite Hturn. cbv beta iota.
        rewrite Heq, iter_operator_shift.
        replace (S a + m) with (a + S m) by lia.
        replace (S n - S m) with (n - m) by lia.
        clear Heq IH.
        destruct (HoneyScraper.retry_loop _ _ _ _ _ _ _ _) as [[x w'] t].
        rewrite List.app_assoc. reflexivity.
Qed.

(** A miss met at attempt [k], after retried attempts, ends the call. *)
Lemma retry_loop_misses_at_once (E' : env) (data : json) (k : nat) (w : world) :
  (0 <= self_delay w)%Q ->
  k < HoneyScraper.max_retries ->
  (forall j, j < k -> is_retry (verdict_at E r path miss j) = true) ->
  body_at E r data k ->
  has_path path data = false ->
  (forall n, n < HoneyScraper.max_retries ->
             is_retry (verdict_at E' r path miss n) = true) ->
  misses_at_once
    (fun w => HoneyScraper.retry_loop E r path miss HoneyScraper.max_retries 0
                                      (self_delay w) w)
    (fun w => HoneyScraper.retry_loop E' r path miss HoneyScraper.max_retries 0
                                      (self_delay w) w)
    r miss k w.
Proof.
  intros Hd Hk Hpre Hbody Hlack Hfail. unfold misses_at_once.
  apply Qle_bool_iff in Hd.
  destruct (retry_loop_retried k HoneyScraper.max_retries 0 (self_delay w) w Hd Hpre)
    as (d' & t0 & Hd' & Ht0 & Heq); [lia |].
  destruct (HoneyScraper.max_retries - k) as [| n] eqn:Hrem; [lia |].
  rewrite retry_loop_step in Heq by assumption. cbn [Nat.add] in Heq.
  destruct (lookup_returns E' r path miss w) as (v' & w2 & t2 & Heq' & Hall & _).
  assert (Hshape :
            attempt_turn d' (verdict_at E r path miss k) <> HoneyScraper.Broken ->
            attempt_turn d' (verdict_at E r path miss k) = HoneyScraper.Return miss).
  { destruct (lacking_verdict E r path miss data k Hbody Hlack) as [-> | ->];
      cbn; congruence. }
  assert (Hev : attempt_events r k d' (verdict_at E r path miss k)
                = [Slept d'; Requested r k]).
  { destruct (lacking_verdict E r path miss data k Hbody Hlack) as [-> | ->];
      reflexivity. }
  rewrite Hev in Heq.
  exists (Nat.iter (S k) HoneyScraper.operator w), (t0 ++ [Slept d']).
  rewrite <- List.app_assoc. cbn [app].
  assert (Hrun : HoneyScraper.retry_loop E r path miss HoneyScraper.max_retries 0
                                         (self_delay w) w
                 = (Val miss, Nat.iter (S k) HoneyScraper.operator w,
                    t0 ++ [Slept d'; Requested r k])).
  { rewrite Heq.
    destruct (attempt_turn d' (verdict_at E r path miss k)) eqn:Ht.
    - specialize (Hshape ltac:(discriminate)). injection Hshape as ->. reflexivity.
    - specialize (Hshape ltac:(discriminate)). discriminate.
    - reflexivity. }
  split; [exact Hrun |]. split.
  - rewrite requests_of_app, Ht0. unfold attempts_upto.
    rewrite seq_S, map_app. reflexivity.
  - rewrite Hrun, Heq'. cbn. f_equal. apply Hall. assumption.
Qed.

End RetriedPrefix.

(** C10.  When an attempt of a lookup (after retried attempts, if any) gets a
    2xx response whose body is JSON but has no [data.getPartialURLsByDomain]
    (for mappings) or [data.getStoreById] (for details), the lookup returns
    the empty list or [None] with the request of that attempt as its last
    step, so none of the remaining attempts is made; the value is the one a
    lookup with all its attempts failed returns. *)
Theorem well_formed_miss_returns_at_once (E E' : env) (w : world) (k : nat)
        (domain store_id : json) (max_ugc success_count : Z) (data : json) :
  (0 <= self_delay w)%Q ->
  k < 3 ->
  ((forall j, j < k ->
      is_retry (verdict_at E (PartialsByDomain domain)
                           "getPartialURLsByDomain" (JArr []) j) = true) ->
   body_at E (PartialsByDomain domain) data k ->
   has_path "getPartialURLsByDomain" data = false ->
   (forall n, n < 3 ->
      is_retry (verdict_at E' (PartialsByDomain domain)
                           "getPartialURLsByDomain" (JArr []) n) = true) ->
   misses_at_once (HoneyScraper.get_store_ids_by_domain E domain)
                  (HoneyScraper.get_store_ids_by_domain E' domain)
                  (PartialsByDomain domain) (JArr []) k w)
  /\ ((forall j, j < k ->
         is_retry (verdict_at E (StoreById store_id max_ugc success_count)
                              "getStoreById" JNull j) = true) ->
      body_at E (StoreById store_id max_ugc success_count) data k ->
      has_path "getStoreById" data = false ->
      (forall n, n < 3 ->
         is_retry (verdict_at E' (StoreById store_id max_ugc success_count)
                              "getStoreById" JNull n) = true) ->
      misses_at_once (HoneyScraper.get_store_details E store_id max_ugc success_count)
                     (HoneyScraper.get_store_details E' store_id max_ugc success_count)
                     (StoreById store_id max_ugc success_count) JNull k w).
Proof.
  intros Hd Hk. split; intros Hpre Hbody Hlack Hfail.
  - pose proof (retry_loop_misses_at_once E _ "getPartialURLsByDomain" (JArr []) E'
                                          data k w Hd Hk Hpre Hbody Hlack Hfail) as H.
    unfold misses_at_once in *.
    rewrite !get_store_ids_by_domain_unfold. exact H.
  - pose proof (retry_loop_misses_at_once E _ "getStoreById" JNull E'
                                          data k w Hd Hk Hpre Hbody Hlack Hfail) as H.
    unfold misses_at_once in *.
    rewrite !get_store_details_unfold. exact H.
Qed.

(** An empty JSON object on the first attempt, against three timeouts. *)
Lemma well_formed_miss_returns_at_once_witness :
  misses_at_once
    (HoneyScraper.get_store_ids_by_domain (env_of api_empty_object) (JStr "a.com"))
    (HoneyScraper.get_store_ids_by_domain (env_of (fun _ _ => Exc Timeout)) (JStr "a.com"))
    (PartialsByDomain (JStr "a.com")) (JArr []) 0 (initial_world (1 # 2)).
Proof.
  apply (well_formed_miss_returns_at_once
           (env_of api_empty_object) (env_of (fun _ _ => Exc Timeout))
           (initial_world (1 # 2)) 0 (JStr "a.com") (JStr "S1") 3 1 (JObj [])).
  - cbn. discriminate.
  - lia.
  - intros j Hj. lia.
  - exists {| status_code := 200; json_body := Val (JObj []) |}.
    repeat split; cbn; try reflexivity; lia.
  - reflexivity.
  - intros n Hn. reflexivity.
Defined.

(** ** Rules for invariants *)

Section Preserves.

Variables (I : world -> Prop) (T : event -> Prop).

Lemma preserves_ret {A : Type} (a : A) : preserves I T (ret a).
Proof. intros w Hw. split; [assumption | constructor]. Qed.

Lemma preserves_raise {A : Type} (e : exn) : preserves I T (@raise A e).
Proof. intros w Hw. split; [assumption | constructor]. Qed.

Lemma preserves_lift {A : Type} (r : result A) : preserves I T (lift r).
Proof. intros w Hw. split; [assumption | constructor]. Qed.

Lemma preserves_the_world : preserves I T the_world.
Proof. intros w Hw. split; [assumption | constructor]. Qed.

Lemma preserves_emit (ev : event) : T ev -> preserves I T (emit ev).
Proof. intros Hev w Hw. split; [assumption | repeat constructor; assumption]. Qed.

Lemma preserves_modify (f : world -> world) :
  (forall w, I w -> I (f w)) -> preserves I T (modify f).
Proof. intros Hf w Hw. split; [apply Hf; assumption | constructor]. Qed.

Lemma preserves_bind {A B : Type} (m : M A) (f : A -> M B) :
  preserves I T m -> (forall a, preserves I T (f a)) -> preserves I T (bind m f).
Proof.
  intros Hm Hf w Hw. unfold bind.
  specialize (Hm w Hw). destruct (m w) as [[[a | e] w1] t1]; cbn in *.
  - destruct Hm as [Hw1 Ht1].
    specialize (Hf a w1 Hw1). destruct (f a w1) as [[r w2] t2]; cbn in *.
    destruct Hf as [Hw2 Ht2]. split; [assumption |].
    apply Forall_app. split; assumption.
  - assumption.
Qed.

Lemma preserves_try_except {A : Type} (m : M A) (h : exn -> M A) :
  preserves I T m -> (forall e, preserves I T (h e)) -> preserves I T (try_except m h).
Proof.
  intros Hm Hh w Hw. unfold try_except.
  specialize (Hm w Hw). destruct (m w) as [[[a | e] w1] t1]; cbn in *.
  - assumption.
  - destruct Hm as [Hw1 Ht1].
    specialize (Hh e w1 Hw1). destruct (h e w1) as [[r w2] t2]; cbn in *.
    destruct Hh as [Hw2 Ht2]. split; [assumption |].
    apply Forall_app. split; assumption.
Qed.

Lemma preserves_try_finally {A : Type} (m : M A) (f : M unit) :
  preserves I T m -> preserves I T f -> preserves I T (try_finally m f).
Proof.
  intros Hm Hf w Hw. unfold try_finally.
  specialize (Hm w Hw). destruct (m w) as [[r w1] t1]; cbn in *.
  destruct Hm as [Hw1 Ht1].
  specialize (Hf w1 Hw1). destruct (f w1) as [[[[] | e] w2] t2]; cbn in *;
    destruct Hf as [Hw2 Ht2]; (split; [assumption |]);
    apply Forall_app; split; assumption.
Qed.

Lemma preserves_for_each {A S : Type} (body : A -> S -> M (flow * S)) (l : list A) :
  (forall x s, preserves I T (body x s)) ->
  forall s, preserves I T (for_each body l s).
Proof.
  intros Hbody. induction l as [| x l IH]; intros s; cbn [for_each].
  - apply preserves_ret.
  - apply preserves_bind; [apply Hbody |].
    intros [[] s']; cbn [fst snd]; [apply IH | apply preserves_ret].
Qed.

Lemma preserves_for_all {A : Type} (body : A -> M unit) (l : list A) :
  (forall x, preserves I T (body x)) -> preserves I T (HoneyScraper.for_all body l).
Proof.
  intros Hbody. induction l as [| x l IH]; cbn [HoneyScraper.for_all].
  - apply preserves_ret.
  - apply preserves_bind; [apply Hbody | intros _; apply IH].
Qed.

End Preserves.

(** the steps that go through the combinators of a computation *)
Ltac preserve_step :=
  match goal with
  | |- preserves _ _ (bind _ _) => apply preserves_bind; [| intros ?]
  | |- preserves _ _ (ret _) => apply preserves_ret
  | |- preserves _ _ (raise _) => apply preserves_raise
  | |- preserves _ _ (lift _) => apply preserves_lift
  | |- preserves _ _ the_world => apply preserves_the_world
  | |- preserves _ _ (try_except _ _) => apply preserves_try_except; [| intros ?]
  | |- preserves _ _ (try_finally _ _) => apply preserves_try_finally
  | |- preserves _ _ (for_each _ _ _) => apply preserves_for_each; intros ? ?
  | |- preserves _ _ (HoneyScraper.for_all _ _) => apply preserves_for_all; intros ?
  | |- preserves _ _ (if ?b then _ else _) => destruct b
  | |- preserves _ _ (match ?x with _ => _ end) => destruct x
  | |- preserves _ _ (let '(_, _) := ?x in _) => destruct x
  end.

(** ** A delay of zero *)

Lemma self_delay_operator (w : world) :
  self_delay (HoneyScraper.operator w) = self_delay w.
Proof.
  unfold HoneyScraper.operator.
  destruct (stop_request_in w) as [[| n] |]; reflexivity.
Qed.

Lemma zero_delay_operator (w : world) :
  zero_delay w -> zero_delay (HoneyScraper.operator w).
Proof. unfold zero_delay. rewrite self_delay_operator. trivial. Qed.

Lemma retry_loop_zero (E : env) (r : request) (path : string) (miss : json) (n : nat) :
  forall (a : nat) (d : Q),
    (d == 0)%Q ->
    preserves zero_delay sleepless (HoneyScraper.retry_loop E r path miss n a d).
Proof.
  induction n as [| n IH]; intros a d Hd w Hw.
  - cbn. split; [assumption | constructor].
  - assert (Hd0 : Qle_bool 0 d = true) by (apply Qle_bool_iff; lra).
    rewrite retry_loop_step by assumption.
    assert (Hev : forall v, Forall sleepless (attempt_events r a d v)).
    { intros [| | | v]; cbn [attempt_events];
        try destruct (Nat.ltb a (HoneyScraper.max_retries - 1));
        repeat constructor; cbn; lra. }
    apply zero_delay_operator in Hw.
    destruct (verdict_at E r path miss a) eqn:Hv; cbn [attempt_turn].
    + specialize (IH (S a) (d * 2)%Q ltac:(lra) _ Hw).
      rewrite <- Hv.
      destruct (HoneyScraper.retry_loop _ _ _ _ _ _ _ _) as [[x w'] t]; cbn in *.
      destruct IH as [Hw' Ht]. split; [assumption |].
      apply Forall_app. split; [apply Hev | assumption].
    + specialize (IH (S a) (d * (3 # 2))%Q ltac:(lra) _ Hw).
      rewrite <- Hv.
      destruct (HoneyScraper.retry_loop _ _ _ _ _ _ _ _) as [[x w'] t]; cbn in *.
      destruct IH as [Hw' Ht]. split; [assumption |].
      apply Forall_app. split; [apply Hev | assumption].
    + split; [assumption | apply (Hev Unexpected)].
    + split; [assumption | apply (Hev (Answered v))].
Qed.

Lemma get_store_ids_by_domain_zero (E : env) (domain : json) :
  preserves zero_delay sleepless (HoneyScraper.get_store_ids_by_domain E domain).
Proof.
  intros w Hw. rewrite get_store_ids_by_domain_unfold.
  apply retry_loop_zero; assumption.
Qed.

Lemma get_store_details_zero (E : env) (store_id : json) (max_ugc success_count : Z) :
  preserves zero_delay sleepless
            (HoneyScraper.get_store_details E store_id max_ugc success_count).
Proof.
  intros w Hw. rewrite get_store_details_unfold.
  apply retry_loop_zero; assumption.
Qed.

(** the steps of the run that neither sleep nor touch the delay *)
Ltac zero_leaf :=
  match goal with
  | |- preserves _ _ (HoneyScraper.get_store_ids_by_domain _ _) =>
      apply get_store_ids_by_domain_zero
  | |- preserves _ _ (HoneyScraper.get_store_details _ _ _ _) =>
      apply get_store_details_zero
  | |- preserves _ _ (modify HoneyScraper.operator) =>
      apply preserves_modify; exact zero_delay_operator
  | |- preserves _ _ (modify _) =>
      apply preserves_modify; intros ? ?; assumption
  | |- preserves _ _ (emit _) => apply preserves_emit; exact Logic.I
  end.

Ltac zero_run :=
  repeat first
         [ zero_leaf
         | preserve_step
         | progress unfold HoneyScraper.session_get, HoneyScraper.time_ms,
           HoneyScraper.connect, HoneyScraper.execute, HoneyScraper.commit,
           HoneyScraper.rollback, HoneyScraper.close, HoneyScraper.bind_text,
           HoneyScraper._store_exists, HoneyScraper._domain_scraped,
           HoneyScraper._mark_domain_scraped, HoneyScraper.insert_child,
           HoneyScraper._save_store_to_db, HoneyScraper.get_supported_domains,
           Dashboard.update_scraper_state, Dashboard.read ].

Lemma scrape_all_stores_zero (E : env) (max_domains : option Z) (skip_existing : bool) :
  preserves zero_delay sleepless (HoneyScraper.scrape_all_stores E max_domains skip_existing).
Proof.
  unfold HoneyScraper.scrape_all_stores, HoneyScraper.each_domain,
    HoneyScraper.each_mapping.
  zero_run.
Qed.

Lemma monitored_scrape_all_stores_zero (E : env) (max_domains : option Z)
      (skip_existing : bool) :
  preserves zero_delay sleepless
            (MonitoredScraper.scrape_all_stores E max_domains skip_existing).
Proof.
  unfold MonitoredScraper.scrape_all_stores, MonitoredScraper.scrape,
    MonitoredScraper.each_domain, MonitoredScraper.each_mapping,
    MonitoredScraper.count_scraped, MonitoredScraper.get_store_ids_by_domain,
    MonitoredScraper.get_store_details, MonitoredScraper.note_success,
    MonitoredScraper.count_error.
  zero_run.
Qed.

Lemma sleepless_total (t : list event) :
  Forall sleepless t -> (total_slept t == 0)%Q.
Proof.
  induction 1 as [| ev t Hev _ IH]; [reflexivity |].
  destruct ev; cbn in *; try assumption. lra.
Qed.

Lemma api_scraper_delay_zero (w : world) :
  api_scraper_delay 0 w
  = (Ok200 0,
     let w' := set_scraper_state (Dashboard.with_delay 0 (scraper_state w)) w in
     if scraper_instance w' then set_self_delay 0 w' else w').
Proof.
  unfold api_scraper_delay.
  destruct (Qlt_le_dec 0 0) as [H | _]; [discriminate H |].
  destruct (Qlt_le_dec 10 0) as [H | _]; [discriminate H |].
  reflexivity.
Qed.

(** C9.  [POST /api/scraper/delay] accepts a delay of exactly 0 and stores it
    in the dashboard's state and in the active scraper.  With a delay of 0
    every sleep of the two lookups and of a whole run, of the plain or the
    monitored scraper, has length 0 whatever the transport answers, rate
    limiting and transient errors included: nothing paces the requests and
    no backoff takes place. *)
Theorem zero_delay_is_accepted_and_inert (E : env) (w w1 : world)
        (domain store_id : json) (max_ugc success_count : Z)
        (max_domains : option Z) (skip_existing : bool) :
  zero_delay w1 ->
  (fst (api_scraper_delay 0 w) = Ok200 0
   /\ delay (scraper_state (snd (api_scraper_delay 0 w))) = 0%Q
   /\ (scraper_instance w = true -> self_delay (snd (api_scraper_delay 0 w)) = 0%Q))
  /\ (Forall sleepless (snd (HoneyScraper.get_store_ids_by_domain E domain w1))
      /\ total_slept (snd (HoneyScraper.get_store_ids_by_domain E domain w1)) == 0)%Q
  /\ (Forall sleepless
             (snd (HoneyScraper.get_store_details E store_id max_ugc success_count w1))
      /\ total_slept
           (snd (HoneyScraper.get_store_details E store_id max_ugc success_count w1))
         == 0)%Q
  /\ (zero_delay (snd (fst (HoneyScraper.scrape_all_stores E max_domains skip_existing w1)))
      /\ total_slept (snd (HoneyScraper.scrape_all_stores E max_domains skip_existing w1))
         == 0)%Q
  /\ (zero_delay
        (snd (fst (MonitoredScraper.scrape_all_stores E max_domains skip_existing w1)))
      /\ total_slept
           (snd (MonitoredScraper.scrape_all_stores E max_domains skip_existing w1))
         == 0)%Q.
Proof.
  intros Hw1. split; [| split; [| split; [| split]]].
  - rewrite api_scraper_delay_zero. cbn. repeat split.
    + destruct (scraper_instance w); reflexivity.
    + intros ->. reflexivity.
  - destruct (get_store_ids_by_domain_zero E domain w1 Hw1) as [_ H].
    split; [assumption | apply sleepless_total; assumption].
  - destruct (get_store_details_zero E store_id max_ugc success_count w1 Hw1) as [_ H].
    split; [assumption | apply sleepless_total; assumption].
  - destruct (scrape_all_stores_zero E max_domains skip_existing w1 Hw1) as [H1 H2].
    split; [assumption | apply sleepless_total; assumption].
  - destruct (monitored_scrape_all_stores_zero E max_domains skip_existing w1 Hw1)
      as [H1 H2].
    split; [assumption | apply sleepless_total; assumption].
Qed.

(** The delay set to 0 on the initial world, then a lookup that is rate
    limited twice: five sleeps, all of length 0. *)
Lemma zero_delay_is_accepted_and_inert_witness :
  (total_slept
     (snd (HoneyScraper.get_store_details
             (env_of api_429_twice) (JStr "S1") 3 1
             (snd (api_scraper_delay 0 (initial_world (1 # 2))))))
   == 0)%Q.
Proof.
  apply (zero_delay_is_accepted_and_inert
           (env_of api_429_twice) (initial_world (1 # 2))
           (snd (api_scraper_delay 0 (initial_world (1 # 2))))
           (JStr "a.com") (JStr "S1") 3 1 None true).
  reflexivity.
Defined.

(** ** The consecutive-error counter *)

(** The base lookups raise nothing, so the [except] branch of the overrides
    never runs. *)
Lemma monitored_lookup_handler_dead (E : env) (r : request) (path : string)
      (miss : json) (run : M json) (w : world) :
  (forall w, run w = HoneyScraper.retry_loop E r path miss HoneyScraper.max_retries 0
                                             (self_delay w) w) ->
  try_except (MonitoredScraper.note_success run) (MonitoredScraper.count_error miss) w
  = MonitoredScraper.note_success run w.
Proof.
  intros Hrun. unfold try_except, MonitoredScraper.note_success, bind.
  rewrite Hrun.
  destruct (lookup_returns E r path miss w) as (v & w' & t & -> & _).
  destruct (Py.truthy v); reflexivity.
Qed.

Lemma monitored_get_store_ids_by_domain_eq (E : env) (domain : json) (w : world) :
  MonitoredScraper.get_store_ids_by_domain E domain w
  = MonitoredScraper.note_success (HoneyScraper.get_store_ids_by_domain E domain) w.
Proof.
  apply (monitored_lookup_handler_dead E (PartialsByDomain domain)
                                       "getPartialURLsByDomain").
  apply get_store_ids_by_domain_unfold.
Qed.

Lemma monitored_get_store_details_eq (E : env) (store_id : json)
      (max_ugc success_count : Z) (w : world) :
  MonitoredScraper.get_store_details E store_id max_ugc success_count w
  = MonitoredScraper.note_success
      (HoneyScraper.get_store_details E store_id max_ugc success_count) w.
Proof.
  apply (monitored_lookup_handler_dead E (StoreById store_id max_ugc success_count)
                                       "getStoreById").
  apply get_store_details_unfold.
Qed.

Lemma never_tripped_operator (w : world) :
  never_tripped w -> never_tripped (HoneyScraper.operator w).
Proof.
  intros (H1 & H2 & H3). unfold HoneyScraper.operator. rewrite H1.
  repeat split; assumption.
Qed.

Lemma retry_loop_never_tripped (E : env) (r : request) (path : string) (miss : json)
      (n : nat) :
  forall (a : nat) (d : Q),
    preserves never_tripped (fun _ => True) (HoneyScraper.retry_loop E r path miss n a d).
Proof.
  induction n as [| n IH]; intros a d; cbn [HoneyScraper.retry_loop].
  - apply preserves_ret.
  - apply preserves_bind.
    + unfold HoneyScraper.attempt_once, HoneyScraper.sleep, HoneyScraper.session_get.
      repeat first
             [ preserve_step
             | apply preserves_emit; exact Logic.I
             | apply preserves_modify; exact never_tripped_operator ].
    + intros [v | d' |]; [apply preserves_ret | apply IH | apply preserves_ret].
Qed.

Ltac never_tripped_leaf :=
  match goal with
  | |- preserves _ _ (HoneyScraper.retry_loop _ _ _ _ _ _ _) =>
      apply retry_loop_never_tripped
  | |- preserves _ _ (modify HoneyScraper.operator) =>
      apply preserves_modify; exact never_tripped_operator
  | |- preserves _ _ (modify _) =>
      apply preserves_modify; intros ? ?; assumption
  | |- preserves _ _ (modify _) =>
      apply preserves_modify; intros ? (? & ? & ?); repeat split; assumption
  | |- preserves _ _ (emit _) => apply preserves_emit; exact Logic.I
  end.

Ltac never_tripped_run :=
  repeat first
         [ never_tripped_leaf
         | preserve_step
         | progress unfold HoneyScraper.session_get, HoneyScraper.time_ms,
           HoneyScraper.connect, HoneyScraper.execute, HoneyScraper.commit,
           HoneyScraper.rollback, HoneyScraper.close, HoneyScraper.bind_text,
           HoneyScraper._store_exists, HoneyScraper._domain_scraped,
           HoneyScraper._mark_domain_scraped, HoneyScraper.insert_child,
           HoneyScraper._save_store_to_db, HoneyScraper.get_supported_domains,
           HoneyScraper.get_store_ids_by_domain, HoneyScraper.get_store_details,
           Dashboard.update_scraper_state, Dashboard.read ].

Lemma note_success_never_tripped (run : M json) :
  preserves never_tripped (fun _ => True) run ->
  preserves never_tripped (fun _ => True) (MonitoredScraper.note_success run).
Proof.
  intros Hrun. unfold MonitoredScraper.note_success.
  never_tripped_run. assumption.
Qed.

Lemma monitored_lookups_never_tripped (E : env) :
  (forall domain,
      preserves never_tripped (fun _ => True)
                (MonitoredScraper.get_store_ids_by_domain E domain))
  /\ (forall store_id max_ugc success_count,
         preserves never_tripped (fun _ => True)
                   (MonitoredScraper.get_store_details E store_id max_ugc success_count)).
Proof.
  split; intros; intros w Hw.
  - rewrite monitored_get_store_ids_by_domain_eq. revert w Hw.
    apply note_success_never_tripped. never_tripped_run.
  - rewrite monitored_get_store_details_eq. revert w Hw.
    apply note_success_never_tripped. never_tripped_run.
Qed.

(** Without a stop request of the operator the stop signal is never set and
    the counter never leaves zero, whatever fails. *)
Lemma monitored_scrape_never_tripped (E : env) (max_domains : option Z)
      (skip_existing : bool) :
  preserves never_tripped (fun _ => True)
            (MonitoredScraper.scrape E max_domains skip_existing).
Proof.
  destruct (monitored_lookups_never_tripped E) as [Hids Hdetails].
  unfold MonitoredScraper.scrape, MonitoredScraper.each_domain,
    MonitoredScraper.each_mapping, MonitoredScraper.count_scraped.
  repeat first [ apply Hids | apply Hdetails | never_tripped_leaf | preserve_step
               | progress unfold HoneyScraper.session_get, HoneyScraper.time_ms,
                 HoneyScraper.connect, HoneyScraper.execute, HoneyScraper.commit,
                 HoneyScraper.rollback, HoneyScraper.close, HoneyScraper.bind_text,
                 HoneyScraper._store_exists, HoneyScraper._domain_scraped,
                 HoneyScraper._mark_domain_scraped, HoneyScraper.insert_child,
                 HoneyScraper._save_store_to_db, HoneyScraper.get_supported_domains,
                 Dashboard.update_scraper_state, Dashboard.read ].
Qed.

(** C1.  Ten detail fetches and two mapping lookups fail in a row: the
    counter of consecutive errors is still 0, the stop signal was never set,
    and the run went on to resolve [b.com] and [c.com] and to mark them. *)
Theorem failing_fetches_do_not_stop_the_run :
  let run := MonitoredScraper.scrape_all_stores (env_of api_failing) None true
                                                (initial_world (1 # 2)) in
  consecutive_errors (scraper_state (snd (fst run))) = 0
  /\ errors (scraper_state (snd (fst run))) = 10
  /\ mapping_lookups (snd run) = [JStr "a.com"; JStr "b.com"; JStr "c.com"]
  /\ markers (snd run) = [(Some "a.com", 10%Z); (Some "b.com", 0%Z); (Some "c.com", 0%Z)]
  /\ never_tripped
       (snd (fst (MonitoredScraper.scrape (env_of api_failing) None true
                                          (initial_world (1 # 2))))).
Proof.
  cbv zeta. repeat split; try (vm_compute; reflexivity).
Qed.

(** ** The store save *)

Lemma insert_child_run (E : env)
      (insert : key -> list sqlval -> database -> database)
      (fields : list HoneyScraper.column) (store_id : json) (v : sqlval) (item : json)
      (w : world) :
  Sql.bind_param store_id = Val v ->
  HoneyScraper.insert_child E insert fields store_id item w
  = match child_columns E fields store_id item with
    | Val cols =>
        (Val tt, set_txn (Some (insert (Sql.text E v) cols (HoneyScraper.view w))) w, [])
    | Exc e => (Exc e, w, [])
    end.
Proof.
  intros Hv.
  unfold HoneyScraper.insert_child, child_columns, HoneyScraper.bind_text,
    HoneyScraper.execute, bind, lift, modify, ret, and_then.
  rewrite Hv.
  destruct (HoneyScraper.arguments E item fields) as [args | e]; [| reflexivity].
  destruct (HoneyScraper.bind_params args) as [cols | e]; reflexivity.
Qed.

Lemma for_all_insert_child (E : env)
      (insert : key -> list sqlval -> database -> database)
      (fields : list HoneyScraper.column) (store_id : json) (v : sqlval)
      (items : list json) :
  Sql.bind_param store_id = Val v ->
  forall (w : world) (d : database),
    txn w = Some d ->
    match map_result (child_columns E fields store_id) items with
    | Val rows =>
        HoneyScraper.for_all (HoneyScraper.insert_child E insert fields store_id) items w
        = (Val tt, set_txn (Some (insert_all insert (Sql.text E v) rows d)) w, [])
    | Exc e =>
        exists d',
        HoneyScraper.for_all (HoneyScraper.insert_child E insert fields store_id) items w
        = (Exc e, set_txn (Some d') w, [])
    end.
Proof.
  intros Hv. induction items as [| item items IH]; intros w d Hw.
  - cbn. destruct w; cbn in *. subst. reflexivity.
  - cbn [map_result HoneyScraper.for_all]. unfold bind.
    rewrite (insert_child_run E insert fields store_id v item w Hv).
    unfold and_then at 1.
    destruct (child_columns E fields store_id item) as [cols | e].
    + specialize (IH (set_txn (Some (insert (Sql.text E v) cols (HoneyScraper.view w))) w)
                     (insert (Sql.text E v) cols (HoneyScraper.view w))
                     eq_refl).
      unfold and_then.
      destruct (map_result (child_columns E fields store_id) items) as [rows | e].
      * rewrite IH. cbn [app insert_all fold_left].
        unfold HoneyScraper.view. rewrite Hw. reflexivity.
      * destruct IH as [d' IH]. rewrite IH. exists d'. reflexivity.
    + exists d. destruct w; cbn in *. subst. reflexivity.
Qed.
Lemma save_run (E : env) (domain sid partial_url details : json) (w : world) :
  HoneyScraper._save_store_to_db E domain sid partial_url details w
  = match plan_of E domain sid partial_url details with
    | Val p =>
        (Val tt, set_txn None (set_db (write_plan p (db w)) w),
         [Saved (store_id (plan_store p))])
    | Exc e => (Val tt, set_txn None w, [SaveFailed sid e])
    end.
Proof.
  unfold HoneyScraper._save_store_to_db, plan_of.
  unfold bind at 1, HoneyScraper.connect at 1, modify at 1.
  unfold try_finally, try_except.
  unfold bind at 1, lift at 1, and_then at 1.
  destruct (HoneyScraper.arguments E details HoneyScraper.store_fields) as [args | e];
    [| reflexivity].
  unfold bind at 1, HoneyScraper.bind_text at 1, bind at 1, lift at 1, and_then at 1.
  destruct (Sql.bind_param sid) as [v | e] eqn:Hv; [| reflexivity].
  unfold ret at 1. cbn [app].
  unfold bind at 1, lift at 1, and_then at 1.
  destruct (HoneyScraper.bind_params _) as [cols | e]; [| reflexivity].
  unfold bind at 1, HoneyScraper.execute at 1, modify at 1.
  unfold bind at 1, HoneyScraper.bind_text at 1, bind at 1, lift at 1.
  rewrite Hv. unfold ret at 1. cbn [app].
  unfold bind at 1, HoneyScraper.execute at 1, modify at 1.
  unfold bind at 1, lift at 1, and_then at 1.
  destruct (Py.get_default details "publicCoupons" (JArr [])) as [cs | e]; [| reflexivity].
  unfold bind at 1, lift at 1, and_then at 1.
  destruct (Py.iter cs) as [coupons | e]; [| reflexivity].
  unfold bind at 1.
  match goal with
  | |- context [HoneyScraper.for_all _ coupons ?w1] =>
      pose proof (for_all_insert_child E Sql.insert_coupon HoneyScraper.coupon_fields
                                       sid v coupons Hv w1 _ eq_refl) as Hc
  end.
  unfold and_then at 1.
  destruct (map_result (child_columns E HoneyScraper.coupon_fields sid) coupons)
    as [coupon_rows | e].
  2:{ destruct Hc as [d' Hc]. rewrite Hc. reflexivity. }
  rewrite Hc. clear Hc.
  unfold bind at 1, HoneyScraper.bind_text at 1, bind at 1, lift at 1.
  rewrite Hv. unfold ret at 1. cbn [app].
  unfold bind at 1, HoneyScraper.execute at 1, modify at 1.
  unfold bind at 1, lift at 1, and_then at 1.
  destruct (Py.get_default details "partialUrls" (JArr [])) as [pus | e]; [| reflexivity].
  unfold bind at 1, lift at 1, and_then at 1.
  destruct (Py.iter pus) as [partials | e]; [| reflexivity].
  unfold bind at 1.
  match goal with
  | |- context [HoneyScraper.for_all _ partials ?w1] =>
      pose proof (for_all_insert_child E Sql.insert_partial_url
                                       HoneyScraper.partial_url_fields
                                       sid v partials Hv w1 _ eq_refl) as Hp
  end.
  unfold and_then at 1.
  destruct (map_result (child_columns E HoneyScraper.partial_url_fields sid) partials)
    as [partial_rows | e].
  2:{ destruct Hp as [d' Hp]. rewrite Hp. reflexivity. }
  rewrite Hp. clear Hp.
  reflexivity.
Qed.

(** ** A failed save and the counters *)






Lemma store_exists_run (E : env) (sid : json) (w : world) :
  HoneyScraper._store_exists E sid w
  = match Sql.bind_param sid with
    | Val v => (Val (Sql.store_found (Sql.text E v) (db w)), set_txn None w, [])
    | Exc e => (Exc e, set_txn None w, [])
    end.
Proof.
  unfold HoneyScraper._store_exists, HoneyScraper.connect, HoneyScraper.close,
    HoneyScraper.bind_text, bind, modify, lift, the_world, ret.
  destruct (Sql.bind_param sid); reflexivity.
Qed.





(** ** Saving a store twice *)

Lemma sql_eq_refl (s : string) : Sql.eq (Some s) (Some s) = true.
Proof. apply String.eqb_refl. Qed.

Lemma owned_app (k : key) (l1 l2 : list child_row) :
  owned k (l1 ++ l2) = owned k l1 ++ owned k l2.
Proof. apply filter_app. Qed.

Lemma owned_delete_owned (k : key) (rows : list child_row) :
  owned k (Sql.delete_owned k rows) = [].
Proof.
  unfold owned, Sql.delete_owned. induction rows as [| r rows IH]; [reflexivity |].
  cbn. destruct (Sql.eq (owner r) k) eqn:Hr; cbn; [assumption |].
  rewrite Hr. assumption.
Qed.

Lemma insert_all_coupons (k : key) (rows : list (list sqlval)) :
  forall d,
    stores (insert_all Sql.insert_coupon k rows d) = stores d
    /\ partial_urls (insert_all Sql.insert_coupon k rows d) = partial_urls d
    /\ scraped_domains (insert_all Sql.insert_coupon k rows d) = scraped_domains d
    /\ exists news,
        coupons (insert_all Sql.insert_coupon k rows d) = coupons d ++ news
        /\ map columns news = rows
        /\ Forall (fun r => owner r = k) news.
Proof.
  induction rows as [| cols rows IH]; intros d.
  - cbn. repeat split. exists []. rewrite app_nil_r. repeat split. constructor.
  - cbn [insert_all fold_left].
    destruct (IH (Sql.insert_coupon k cols d)) as (H1 & H2 & H3 & news & H4 & H5 & H6).
    unfold insert_all in *. rewrite H1, H2, H3, H4. cbn.
    repeat split.
    exists ({| row_id := (coupons_seq d + 1)%Z; owner := k; columns := cols |} :: news).
    rewrite <- List.app_assoc. cbn. repeat split.
    + rewrite H5. reflexivity.
    + constructor; [reflexivity | assumption].
Qed.

Lemma insert_all_partial_urls (k : key) (rows : list (list sqlval)) :
  forall d,
    stores (insert_all Sql.insert_partial_url k rows d) = stores d
    /\ coupons (insert_all Sql.insert_partial_url k rows d) = coupons d
    /\ scraped_domains (insert_all Sql.insert_partial_url k rows d) = scraped_domains d
    /\ exists news,
        partial_urls (insert_all Sql.insert_partial_url k rows d) = partial_urls d ++ news
        /\ map columns news = rows
        /\ Forall (fun r => owner r = k) news.
Proof.
  induction rows as [| cols rows IH]; intros d.
  - cbn. repeat split. exists []. rewrite app_nil_r. repeat split. constructor.
  - cbn [insert_all fold_left].
    destruct (IH (Sql.insert_partial_url k cols d)) as (H1 & H2 & H3 & news & H4 & H5 & H6).
    unfold insert_all in *. rewrite H1, H2, H3, H4. cbn.
    repeat split.
    exists ({| row_id := (partial_urls_seq d + 1)%Z; owner := k; columns := cols |} :: news).
    rewrite <- List.app_assoc. cbn. repeat split.
    + rewrite H5. reflexivity.
    + constructor; [reflexivity | assumption].
Qed.

Lemma owned_all (s : string) (news : list child_row) :
  Forall (fun r => owner r = Some s) news -> owned (Some s) news = news.
Proof.
  induction 1 as [| r news Hr _ IH]; [reflexivity |].
  unfold owned in *. cbn [filter]. rewrite Hr, sql_eq_refl, IH. reflexivity.
Qed.

(** What the file holds for a store right after its rows were written. *)
Lemma write_plan_rows (p : save_plan) (s : string) (d : database) :
  store_id (plan_store p) = Some s ->
  stores_with (Some s) (write_plan p d) = [plan_store p]
  /\ map columns (owned (Some s) (coupons (write_plan p d))) = plan_coupons p
  /\ map columns (owned (Some s) (partial_urls (write_plan p d))) = plan_partial_urls p.
Proof.
  intros Hk. unfold write_plan. rewrite Hk.
  set (d1 := Sql.replace_store (plan_store p) d).
  set (d2 := Sql.delete_coupons (Some s) d1).
  destruct (insert_all_coupons (Some s) (plan_coupons p) d2)
    as (Hs3 & Hp3 & _ & cnews & Hc3 & Hcm & Hco).
  set (d3 := insert_all Sql.insert_coupon (Some s) (plan_coupons p) d2) in *.
  set (d4 := Sql.delete_partial_urls (Some s) d3).
  destruct (insert_all_partial_urls (Some s) (plan_partial_urls p) d4)
    as (Hs5 & Hc5 & _ & pnews & Hp5 & Hpm & Hpo).
  set (d5 := insert_all Sql.insert_partial_url (Some s) (plan_partial_urls p) d4) in *.
  repeat split.
  - unfold stores_with. rewrite Hs5. cbn [d4 Sql.delete_partial_urls stores].
    rewrite Hs3. cbn [d2 d1 Sql.delete_coupons Sql.replace_store stores].
    rewrite filter_app. cbn [filter]. rewrite !Hk, sql_eq_refl.
    replace (filter _ (filter _ (stores d))) with (@nil store_row); [reflexivity |].
    induction (stores d) as [| r rows IH]; [reflexivity |].
    cbn. destruct (Sql.eq (store_id r) (Some s)) eqn:Hr; cbn; [assumption |].
    rewrite Hr. assumption.
  - rewrite Hc5. cbn [d4 Sql.delete_partial_urls coupons].
    rewrite Hc3. cbn [d2 Sql.delete_coupons coupons].
    rewrite owned_app, owned_delete_owned, (owned_all s cnews Hco). assumption.
  - rewrite Hp5. cbn [d4 Sql.delete_partial_urls partial_urls].
    rewrite owned_app, owned_delete_owned, (owned_all s pnews Hpo). assumption.
Qed.

Lemma plan_of_key (E : env) (domain purl details : json) (s : string) (p : save_plan) :
  plan_of E domain (JStr s) purl details = Val p ->
  store_id (plan_store p) = Some s.
Proof.
  unfold plan_of, and_then. cbn [Sql.bind_param].
  repeat match goal with
         | |- context [match ?x with Val _ => _ | Exc _ => _ end] =>
             destruct x; try discriminate
         end.
  intros [= <-]. reflexivity.
Qed.

(** Whatever was saved before for a store identifier, and in particular
    after a first save of any record for it, a save that goes through leaves
    exactly one store row with that identifier, the row of the record saved
    last, and the coupon and partial-url rows of that identifier are exactly
    the rows of that record, in its order: nothing of the earlier save is
    left and nothing is doubled. *)
Theorem second_save_replaces_first (E : env) (s : string)
        (domain1 partial_url1 details1 domain2 partial_url2 details2 : json)
        (w : world) (p2 : save_plan) :
  plan_of E domain2 (JStr s) partial_url2 details2 = Val p2 ->
  let w1 := snd (fst (HoneyScraper._save_store_to_db E domain1 (JStr s) partial_url1
                                                     details1 w)) in
  let d := db_after_save E domain2 (JStr s) partial_url2 details2 w1 in
  stores_with (Some s) d = [plan_store p2]
  /\ map columns (owned (Some s) (coupons d)) = plan_coupons p2
  /\ map columns (owned (Some s) (partial_urls d)) = plan_partial_urls p2.
Proof.
  intros Hp2 w1 d. subst d. unfold db_after_save.
  rewrite save_run, Hp2. cbn [fst snd db set_txn set_db].
  apply write_plan_rows. eapply plan_of_key. eassumption.
Qed.

(** A record with two coupons and a partial url, then one with one coupon
    and no partial url, for the store [S1]. *)
Lemma second_save_replaces_first_witness :
  let w1 := snd (fst (HoneyScraper._save_store_to_db
                        (env_of api_empty_object) (JStr "a.com") (JStr "S1")
                        (JStr "a.com") record_two_coupons (initial_world (1 # 2)))) in
  let d := db_after_save (env_of api_empty_object) (JStr "b.com") (JStr "S1")
                         (JStr "b.com") record_one_coupon w1 in
  List.length (stores_with (Some "S1") d) = 1
  /\ List.length (owned (Some "S1") (coupons d)) = 1
  /\ List.length (owned (Some "S1") (partial_urls d)) = 0.
Proof.
  cbv zeta.
  destruct (plan_of (env_of api_empty_object) (JStr "b.com") (JStr "S1") (JStr "b.com")
                    record_one_coupon) as [p2 | e] eqn:Hp; [| discriminate Hp].
  destruct (second_save_replaces_first
              (env_of api_empty_object) "S1"
              (JStr "a.com") (JStr "a.com") record_two_coupons
              (JStr "b.com") (JStr "b.com") record_one_coupon
              (initial_world (1 # 2)) p2 Hp) as (H1 & H2 & H3).
  rewrite H1.
  rewrite <- (length_map columns (owned (Some "S1") (coupons _))), H2.
  rewrite <- (length_map columns (owned (Some "S1") (partial_urls _))), H3.
  vm_compute in Hp. injection Hp as <-. repeat split.
Defined.

(** ** The lookups and the world *)

Lemma retry_loop_uniform (E : env) (r : request) (path : string) (miss : json) (n : nat) :
  forall (a : nat) (q : Q),
  exists v k t,
    Forall is_transport t
    /\ forall w, HoneyScraper.retry_loop E r path miss n a q w
                 = (Val v, Nat.iter k HoneyScraper.operator w, t).
Proof.
  induction n as [| n IH]; intros a q.
  - exists miss, 0, []. split; [constructor | reflexivity].
  - destruct (Qle_bool 0 q) eqn:Hq.
    + assert (Hev : Forall is_transport
                           (attempt_events r a q (verdict_at E r path miss a))).
      { destruct (verdict_at E r path miss a); cbn [attempt_events];
          try destruct (Nat.ltb a (HoneyScraper.max_retries - 1));
          repeat constructor. }
      destruct (attempt_turn q (verdict_at E r path miss a)) as [v | q' |] eqn:Hturn.
      * exists v, 1, (attempt_events r a q (verdict_at E r path miss a)).
        split; [assumption |]. intros w.
        rewrite retry_loop_step by assumption. rewrite Hturn. reflexivity.
      * destruct (IH (S a) q') as (v & k & t & Ht & Hrun).
        exists v, (S k), (attempt_events r a q (verdict_at E r path miss a) ++ t).
        split; [apply Forall_app; split; assumption |]. intros w.
        rewrite retry_loop_step by assumption. rewrite Hturn, Hrun.
        rewrite iter_operator_shift. reflexivity.
      * exists miss, 1, (attempt_events r a q (verdict_at E r path miss a)).
        split; [assumption |]. intros w.
        rewrite retry_loop_step by assumption. rewrite Hturn. reflexivity.
    + exists miss, 0, []. split; [constructor |]. intros w.
      apply retry_loop_negative. assumption.
Qed.

(** A lookup returns its value in every world, and only the time of its
    requests passes. *)
Lemma lookup_run (E : env) (r : request) (path : string) (miss : json) (q : Q) :
  exists k t,
    Forall is_transport t
    /\ forall w, HoneyScraper.retry_loop E r path miss HoneyScraper.max_retries 0 q w
                 = (Val (lookup_value E r path miss q),
                    Nat.iter k HoneyScraper.operator w, t).
Proof.
  destruct (retry_loop_uniform E r path miss HoneyScraper.max_retries 0 q)
    as (v & k & t & Ht & Hrun).
  exists k, t. split; [assumption |]. intros w.
  unfold lookup_value. rewrite (Hrun (initial_world q)). cbn [fst]. apply Hrun.
Qed.

Lemma get_store_ids_by_domain_run (E : env) (domain : json) (q : Q) :
  exists k t,
    Forall is_transport t
    /\ forall w, self_delay w = q ->
                 HoneyScraper.get_store_ids_by_domain E domain w
                 = (Val (mappings_of E domain q), Nat.iter k HoneyScraper.operator w, t).
Proof.
  destruct (lookup_run E (PartialsByDomain domain) "getPartialURLsByDomain" (JArr []) q)
    as (k & t & Ht & Hrun).
  exists k, t. split; [assumption |]. intros w <-.
  rewrite get_store_ids_by_domain_unfold. apply Hrun.
Qed.

Lemma get_store_details_run (E : env) (sid : json) (q : Q) :
  exists k t,
    Forall is_transport t
    /\ forall w, self_delay w = q ->
                 HoneyScraper.get_store_details E sid 3 1 w
                 = (Val (details_of E sid q), Nat.iter k HoneyScraper.operator w, t).
Proof.
  destruct (lookup_run E (StoreById sid 3 1) "getStoreById" JNull q)
    as (k & t & Ht & Hrun).
  exists k, t. split; [assumption |]. intros w <-.
  rewrite get_store_details_unfold. apply Hrun.
Qed.

(** With no stop request pending, the passing of time changes nothing. *)
Lemma operator_idle (w : world) :
  stop_request_in w = None -> HoneyScraper.operator w = w.
Proof. intros H. unfold HoneyScraper.operator. rewrite H. reflexivity. Qed.

Lemma iter_operator_idle (k : nat) (w : world) :
  stop_request_in w = None -> Nat.iter k HoneyScraper.operator w = w.
Proof.
  intros H. induction k as [| k IH]; [reflexivity |].
  change (HoneyScraper.operator (Nat.iter k HoneyScraper.operator w) = w).
  rewrite IH. apply operator_idle. assumption.
Qed.

Lemma domain_scraped_run (E : env) (dom : json) (w : world) :
  HoneyScraper._domain_scraped E dom w
  = match Sql.bind_param dom with
    | Val v => (Val (Sql.domain_found (Sql.text E v) (db w)), set_txn None w, [])
    | Exc e => (Exc e, set_txn None w, [])
    end.
Proof.
  unfold HoneyScraper._domain_scraped, HoneyScraper.connect, HoneyScraper.close,
    HoneyScraper.bind_text, bind, modify, lift, the_world, ret.
  destruct (Sql.bind_param dom); reflexivity.
Qed.

Lemma mark_domain_scraped_run (E : env) (dom : json) (n : nat) (w : world) :
  HoneyScraper._mark_domain_scraped E dom n w
  = match Sql.bind_param dom with
    | Val v =>
        (Val tt,
         set_txn None
           (set_db (Sql.replace_domain
                      {| domain := Sql.text E v; scraped_at := now E (clock w);
                         store_count := Z.of_nat n |} (db w))
                   (set_clock (S (clock w)) w)),
         [Marked (Sql.text E v) (Z.of_nat n)])
    | Exc e => (Exc e, set_clock (S (clock w)) (set_txn None w), [])
    end.
Proof.
  unfold HoneyScraper._mark_domain_scraped, HoneyScraper.connect, HoneyScraper.close,
    HoneyScraper.bind_text, HoneyScraper.time_ms, HoneyScraper.execute,
    HoneyScraper.commit, bind, modify, lift, the_world, ret, emit.
  destruct (Sql.bind_param dom); reflexivity.
Qed.

(** ** The plain scraper, one domain *)

Lemma lookup_value_answered (E : env) (r : request) (path : string) (miss : json) (q : Q) :
  lookup_value E r path miss q = miss
  \/ exists n, verdict_at E r path miss n = Answered (lookup_value E r path miss q).
Proof.
  destruct (retry_loop_returns E r path miss HoneyScraper.max_retries 0 q (initial_world q))
    as (v & w' & t & Heq & Hres).
  unfold lookup_value. rewrite Heq. cbn [fst].
  destruct Hres as [-> | (k & _ & Hans & _)]; [now left | right].
  exists k. assumption.
Qed.

Lemma mappings_of_shaped (E : env) (dom : json) (q : Q) :
  api_shaped E -> mappings_shaped (mappings_of E dom q).
Proof.
  intros [H _]. unfold mappings_of.
  destruct (lookup_value_answered E (PartialsByDomain dom) "getPartialURLsByDomain"
                                  (JArr []) q) as [-> | [n Hn]].
  - left. reflexivity.
  - eapply H. eassumption.
Qed.

Lemma details_of_shaped (E : env) (sid : json) (q : Q) :
  api_shaped E -> details_shaped (details_of E sid q).
Proof.
  intros [_ H]. unfold details_of.
  destruct (lookup_value_answered E (StoreById sid 3 1) "getStoreById" JNull q)
    as [-> | [n Hn]].
  - left. reflexivity.
  - eapply H. eassumption.
Qed.

Lemma markers_app (t1 t2 : list event) : markers (t1 ++ t2) = markers t1 ++ markers t2.
Proof. apply flat_map_app. Qed.

Lemma markers_transport (t : list event) : Forall is_transport t -> markers t = [].
Proof.
  induction 1 as [| ev t Hev _ IH]; [reflexivity |].
  destruct ev; cbn in *; try assumption; contradiction.
Qed.

Lemma write_plan_scraped_domains (p : save_plan) (d : database) :
  scraped_domains (write_plan p d) = scraped_domains d.
Proof.
  unfold write_plan.
  destruct (insert_all_partial_urls
              (store_id (plan_store p)) (plan_partial_urls p)
              (Sql.delete_partial_urls (store_id (plan_store p))
                 (insert_all Sql.insert_coupon (store_id (plan_store p))
                    (plan_coupons p)
                    (Sql.delete_coupons (store_id (plan_store p))
                       (Sql.replace_store (plan_store p) d)))))
    as (_ & _ & -> & _).
  cbn [Sql.delete_partial_urls scraped_domains].
  destruct (insert_all_coupons
              (store_id (plan_store p)) (plan_coupons p)
              (Sql.delete_coupons (store_id (plan_store p))
                 (Sql.replace_store (plan_store p) d)))
    as (_ & _ & -> & _).
  reflexivity.
Qed.

Arguments write_plan : simpl never.

(** One mapping of a well-formed answer: the body returns, and the store is
    counted for the domain or the fetch is counted as an error. *)
Lemma each_mapping_run (E : env) (skip_existing : bool) (dom mapping : json)
      (l : HoneyScraper.locals) (c : nat) (w : world) :
  api_shaped E ->
  mapping_shaped mapping ->
  exists l' c' w' t,
    HoneyScraper.each_mapping E skip_existing dom mapping (l, c) w
    = (Val (Next, (l', c')), w', t)
    /\ markers t = []
    /\ scraped_domains (db w') = scraped_domains (db w)
    /\ HoneyScraper.skipped l' = HoneyScraper.skipped l
    /\ ((c' = S c /\ HoneyScraper.errs l' = HoneyScraper.errs l)
        \/ (c' = c /\ HoneyScraper.errs l' = S (HoneyScraper.errs l))).
Proof.
  intros Hapi (fields & sid & v & -> & Hsid & Hv).
  unfold HoneyScraper.each_mapping.
  unfold bind at 1, lift at 1. rewrite Hsid.
  unfold bind at 1, lift at 1.
  change (Py.get (JObj fields) "partialURL")
    with (Val (match Py.assoc "partialURL" fields with Some x => x | None => JNull end)).
  cbn [app].
  set (purl := match Py.assoc "partialURL" fields with Some x => x | None => JNull end).
  assert (Hknown :
            exists b w0,
              (if skip_existing then HoneyScraper._store_exists E sid else ret false) w
              = (Val b, w0, [])
              /\ db w0 = db w).
  { destruct skip_existing.
    - rewrite store_exists_run, Hv. eexists _, _. split; reflexivity.
    - eexists _, _. split; reflexivity. }
  destruct Hknown as (b & w0 & Hknown & Hw0).
  unfold bind at 1. rewrite Hknown. cbn [app].
  destruct b.
  - eexists _, _, _, _. split; [reflexivity |].
    rewrite Hw0. repeat split. left. split; reflexivity.
  - destruct (get_store_details_run E sid (self_delay w0)) as (k & t1 & Ht1 & Hrun).
    unfold bind at 1. rewrite (Hrun w0 eq_refl).
    assert (Hdb1 : db (Nat.iter k HoneyScraper.operator w0) = db w).
    { rewrite <- Hw0. clear. induction k as [| k IH]; [reflexivity |].
      change (db (HoneyScraper.operator (Nat.iter k HoneyScraper.operator w0)) = db w0).
      rewrite <- IH. unfold HoneyScraper.operator.
      destruct (stop_request_in _) as [[| j] |]; reflexivity. }
    set (w1 := Nat.iter k HoneyScraper.operator w0) in *.
    assert (Hdb1' : scraped_domains (db w1) = scraped_domains (db w))
      by (rewrite Hdb1; reflexivity).
    destruct (details_of_shaped E sid (self_delay w0) Hapi) as [Hfalse | [dfields Hd]].
    + rewrite Hfalse. cbn.
      eexists _, _, _, _. split; [reflexivity |].
      rewrite app_nil_r, (markers_transport _ Ht1). repeat split.
      * exact Hdb1'.
      * right. split; reflexivity.
    + destruct (Py.truthy (details_of E sid (self_delay w0))) eqn:Htruthy.
      * unfold bind at 1. rewrite save_run. rewrite Hd.
        destruct (plan_of E dom sid purl (JObj dfields)) as [p | e].
        -- cbn. eexists _, _, _, _. split; [reflexivity |].
           rewrite markers_app, (markers_transport _ Ht1). repeat split.
           ++ cbn [db set_txn set_db]. rewrite write_plan_scraped_domains. exact Hdb1'.
           ++ left. split; reflexivity.
        -- cbn. eexists _, _, _, _. split; [reflexivity |].
           rewrite markers_app, (markers_transport _ Ht1). repeat split.
           ++ exact Hdb1'.
           ++ left. split; reflexivity.
      * cbn. eexists _, _, _, _. split; [reflexivity |].
        rewrite app_nil_r, (markers_transport _ Ht1). repeat split.
        -- exact Hdb1'.
        -- right. split; reflexivity.
Qed.

Lemma for_each_mapping_run (E : env) (skip_existing : bool) (dom : json)
      (items : list json) :
  api_shaped E ->
  Forall mapping_shaped items ->
  forall (l : HoneyScraper.locals) (c : nat) (w : world),
  exists l' c' w' t,
    for_each (HoneyScraper.each_mapping E skip_existing dom) items (l, c) w
    = (Val (l', c'), w', t)
    /\ markers t = []
    /\ scraped_domains (db w') = scraped_domains (db w)
    /\ HoneyScraper.skipped l' = HoneyScraper.skipped l
    /\ c' + HoneyScraper.errs l' = c + HoneyScraper.errs l + List.length items
    /\ c <= c'
    /\ HoneyScraper.errs l <= HoneyScraper.errs l'.
Proof.
  intros Hapi Hitems. induction Hitems as [| m items Hm _ IH]; intros l c w.
  - exists l, c, w, []. cbn. repeat split; lia.
  - cbn [for_each]. unfold bind.
    destruct (each_mapping_run E skip_existing dom m l c w Hapi Hm)
      as (l1 & c1 & w1 & t1 & Heq & Hm1 & Hd1 & Hs1 & Hc1).
    rewrite Heq. cbn [fst snd].
    destruct (IH l1 c1 w1) as (l2 & c2 & w2 & t2 & Heq2 & Hm2 & Hd2 & Hs2 & Hc2 & Hle & Hle').
    rewrite Heq2. exists l2, c2, w2, (t1 ++ t2).
    split; [reflexivity |].
    rewrite markers_app, Hm1, Hm2, Hd2, Hd1, Hs2, Hs1. cbn [List.length].
    repeat split; destruct Hc1 as [[-> Hc1] | [-> Hc1]]; lia.
Qed.

Lemma domain_found_replace_domain (s : string) (t n : Z) (d : database) :
  Sql.domain_found (Some s)
                   (Sql.replace_domain {| domain := Some s; scraped_at := t; store_count := n |} d)
  = true.
Proof.
  unfold Sql.domain_found, Sql.replace_domain. cbn [scraped_domains domain].
  rewrite existsb_app. cbn. rewrite String.eqb_refl, orb_true_r. reflexivity.
Qed.

(** One domain that is not skipped, with well-formed answers: the body
    returns, its last step writes the only marker, and the marker counts the
    mappings gone through less the fetches that failed. *)
Lemma each_domain_run (E : env) (skip_existing : bool) (d : string)
      (l : HoneyScraper.locals) (w : world) :
  api_shaped E ->
  (skip_existing = true -> Sql.domain_found (Some d) (db w) = false) ->
  exists l' w' t count ts,
    HoneyScraper.each_domain E skip_existing (JStr d) l w
    = (Val (Next, l'), w', t ++ [Marked (Some d) (Z.of_nat count)])
    /\ markers t = []
    /\ scraped_domains (db w')
       = scraped_domains
           (Sql.replace_domain {| domain := Some d; scraped_at := ts;
                                  store_count := Z.of_nat count |} (db w))
    /\ (Py.truthy (mappings_of E (JStr d) (self_delay w)) = false -> count = 0 /\ l' = l)
    /\ count + HoneyScraper.errs l'
       = HoneyScraper.errs l + mapping_count (mappings_of E (JStr d) (self_delay w))
    /\ HoneyScraper.errs l <= HoneyScraper.errs l'.
Proof.
  intros Hapi Hnew. unfold HoneyScraper.each_domain.
  assert (Hscraped :
            exists w0,
              (if skip_existing then HoneyScraper._domain_scraped E (JStr d) else ret false) w
              = (Val false, w0, [])
              /\ db w0 = db w /\ self_delay w0 = self_delay w /\ clock w0 = clock w).
  { destruct skip_existing.
    - rewrite domain_scraped_run. cbn [Sql.bind_param Sql.text].
      rewrite (Hnew eq_refl). eexists. repeat split.
    - eexists. repeat split. }
  destruct Hscraped as (w0 & Hscraped & Hdb0 & Hq0 & Hc0).
  unfold bind at 1. rewrite Hscraped. cbn [app].
  destruct (get_store_ids_by_domain_run E (JStr d) (self_delay w0)) as (k & t1 & Ht1 & Hrun).
  unfold bind at 1. rewrite (Hrun w0 eq_refl). rewrite Hq0.
  set (ms := mappings_of E (JStr d) (self_delay w)).
  assert (Hw1 : db (Nat.iter k HoneyScraper.operator w0) = db w
                /\ clock (Nat.iter k HoneyScraper.operator w0) = clock w).
  { rewrite <- Hdb0, <- Hc0. clear. induction k as [| k [IH1 IH2]]; [split; reflexivity |].
    change (Nat.iter (S k) HoneyScraper.operator w0)
      with (HoneyScraper.operator (Nat.iter k HoneyScraper.operator w0)).
    rewrite <- IH1, <- IH2. unfold HoneyScraper.operator.
    destruct (stop_request_in _) as [[| j] |]; split; reflexivity. }
  destruct Hw1 as [Hdb1 Hc1].
  set (w1 := Nat.iter k HoneyScraper.operator w0) in *.
  destruct (mappings_of_shaped E (JStr d) (self_delay w) Hapi) as [Hfalse | (items & Hms & Hitems)];
    fold ms in Hfalse || fold ms in Hms.
  - rewrite Hfalse. cbn [negb]. unfold bind at 1.
    rewrite mark_domain_scraped_run. cbn [Sql.bind_param Sql.text app].
    unfold ret. exists l. eexists. exists t1, 0. eexists.
    split; [reflexivity |]. split; [apply markers_transport; assumption |].
    split; [cbn [db set_txn set_db]; rewrite Hdb1; reflexivity |].
    split; [intros _; split; reflexivity |].
    unfold mapping_count.
    destruct ms as [| b | z | q | s | its | fs]; cbn in Hfalse |- *; try lia.
    + apply negb_false_iff, String.eqb_eq in Hfalse. subst. cbn. lia.
    + destruct its; [cbn; lia | discriminate].
    + destruct fs; [cbn; lia | discriminate].
  - rewrite Hms. destruct items as [| m items].
    + cbn [Py.truthy negb]. unfold bind at 1.
      rewrite mark_domain_scraped_run. cbn [Sql.bind_param Sql.text app].
      unfold ret. exists l. eexists. exists t1, 0. eexists.
      split; [reflexivity |]. split; [apply markers_transport; assumption |].
      split; [cbn [db set_txn set_db]; rewrite Hdb1; reflexivity |].
      split; [intros _; split; reflexivity |].
      unfold mapping_count. cbn. lia.
    + cbn [Py.truthy negb Py.len Py.iter].
      unfold bind at 1, lift at 1. unfold bind at 1, lift at 1. cbn [app].
      destruct (for_each_mapping_run E skip_existing (JStr d) (m :: items) Hapi Hitems l 0 w1)
        as (l2 & c2 & w2 & t2 & Heq2 & Hm2 & Hd2 & Hs2 & Hc2 & Hle & Hle').
      unfold bind at 1. rewrite Heq2. cbn [fst snd].
      unfold bind at 1. rewrite mark_domain_scraped_run.
      cbn [Sql.bind_param Sql.text app]. unfold ret.
      exists l2. eexists. exists (t1 ++ t2), c2. eexists.
      split; [rewrite <- List.app_assoc; reflexivity |].
      split; [rewrite markers_app, Hm2, (markers_transport _ Ht1); reflexivity |].
      split.
      { cbn [db set_txn set_db Sql.replace_domain scraped_domains domain].
        rewrite Hd2, Hdb1. reflexivity. }
      split; [discriminate |].
      unfold mapping_count. cbn [Py.iter]. split; lia.
Qed.

Lemma domain_found_scraped_domains (k : key) (d1 d2 : database) :
  scraped_domains d1 = scraped_domains d2 ->
  Sql.domain_found k d1 = Sql.domain_found k d2.
Proof. unfold Sql.domain_found. intros ->. reflexivity. Qed.

(** The marker of a domain.  A domain that [HoneyScraper.scrape_all_stores]
    reaches and does not skip, with answers of the API's shape: the body of
    the loop returns and its last step writes the marker of the domain, the
    only one it writes, whatever fetches failed.  The marker counts the
    mappings gone through less those whose detail fetch failed, each of
    which adds one to the errors; for a mapping call that returns nothing
    the count is 0. *)
Theorem domain_marked_after_mapping_stage (E : env) (skip_existing : bool) (d : string)
        (l : HoneyScraper.locals) (w : world) :
  api_shaped E ->
  (skip_existing = true -> Sql.domain_found (Some d) (db w) = false) ->
  exists l' w' t count ts,
    HoneyScraper.each_domain E skip_existing (JStr d) l w
    = (Val (Next, l'), w', t ++ [Marked (Some d) (Z.of_nat count)])
    /\ markers t = []
    /\ scraped_domains (db w')
       = scraped_domains
           (Sql.replace_domain {| domain := Some d; scraped_at := ts;
                                  store_count := Z.of_nat count |} (db w))
    /\ Sql.domain_found (Some d) (db w') = true
    /\ (Py.truthy (mappings_of E (JStr d) (self_delay w)) = false -> count = 0)
    /\ count + HoneyScraper.errs l'
       = HoneyScraper.errs l + mapping_count (mappings_of E (JStr d) (self_delay w))
    /\ HoneyScraper.errs l <= HoneyScraper.errs l'.
Proof.
  intros Hapi Hnew.
  destruct (each_domain_run E skip_existing d l w Hapi Hnew)
    as (l' & w' & t & count & ts & Heq & Hm & Hd & H0 & Hc & Hle).
  exists l', w', t, count, ts. repeat split; try assumption.
  - rewrite (domain_found_scraped_domains _ _ _ Hd). apply domain_found_replace_domain.
  - intros H. apply H0. assumption.
Qed.

Lemma api_failing_shaped : api_shaped (env_of api_failing).
Proof.
  split.
  - intros dom n v. unfold verdict_at. cbn [api env_of api_failing].
    destruct (Py.is_str "a.com" dom).
    + cbn. intros [= <-]. right. eexists. split; [reflexivity |].
      repeat constructor; eexists _, _, _; repeat split; reflexivity.
    + cbn. discriminate.
  - intros sid n v. unfold verdict_at. cbn. discriminate.
Qed.

(** [a.com] of [api_failing]: ten mappings, every fetch failing. *)
Lemma domain_marked_after_mapping_stage_witness :
  exists l' w' t count,
    HoneyScraper.each_domain (env_of api_failing) true (JStr "a.com")
                             HoneyScraper.no_locals (initial_world (1 # 2))
    = (Val (Next, l'), w', t ++ [Marked (Some "a.com") (Z.of_nat count)])
    /\ count + HoneyScraper.errs l' = 10.
Proof.
  destruct (domain_marked_after_mapping_stage
              (env_of api_failing) true "a.com" HoneyScraper.no_locals
              (initial_world (1 # 2)) api_failing_shaped)
    as (l' & w' & t & count & ts & Heq & _ & _ & _ & _ & Hc & _).
  - reflexivity.
  - exists l', w', t, count. split; [exact Heq | exact Hc].
Defined.

(** One domain of the base run: [a.com] of [api_failing] resolves to ten mappings and
    every one of them is gone through, but its marker says 0, since each
    fetch failed. *)
Lemma failed_fetches_are_left_out_of_the_count :
  let run := HoneyScraper.each_domain (env_of api_failing) true (JStr "a.com")
                                      HoneyScraper.no_locals (initial_world (1 # 2)) in
  mapping_count (mappings_of (env_of api_failing) (JStr "a.com") (1 # 2)) = 10
  /\ List.length (filter (fun p => match fst p with
                                   | StoreById _ _ _ => Nat.eqb (snd p) 0
                                   | _ => false
                                   end) (requests_of (snd run))) = 10
  /\ markers (snd run) = [(Some "a.com", 0%Z)].
Proof.
  cbv zeta. repeat split; vm_compute; reflexivity.
Qed.

(** ** The marker of a domain stopped halfway *)

(** C3.  The operator's stop arrives during the detail fetch of [S1], the
    first of the two stores of [a.com]: the monitored run breaks out of the
    mapping loop before [S2], and still writes the marker of [a.com], with
    count 1.  A restart with resume then skips [a.com], so [S2] is never
    fetched, where the run left alone saves both stores. *)
Theorem stopped_domain_is_marked_complete :
  let E := env_of api_two_stores in
  let stopped := MonitoredScraper.scrape_all_stores E None true stop_during_first_fetch in
  let resumed := MonitoredScraper.scrape_all_stores E None true (snd (fst stopped)) in
  let alone := MonitoredScraper.scrape_all_stores E None true (initial_world (1 # 2)) in
  (detail_lookups (snd stopped) = [JStr "S1"]
   /\ markers (snd stopped) = [(Some "a.com", 1%Z)])
  /\ (mapping_lookups (snd resumed) = [JStr "b.com"]
      /\ detail_lookups (snd resumed) = []
      /\ store_ids (db (snd (fst resumed))) = [Some "S1"])
  /\ (detail_lookups (snd alone) = [JStr "S1"; JStr "S2"]
      /\ markers (snd alone) = [(Some "a.com", 2%Z); (Some "b.com", 0%Z)]
      /\ store_ids (db (snd (fst alone))) = [Some "S1"; Some "S2"]).
Proof.
  cbv zeta. repeat split; vm_compute; reflexivity.
Qed.

(** ** Loops *)

Lemma for_each_blind {A S : Type} (body : A -> S -> M (flow * S)) (l : list A) :
  blind body ->
  forall s s' w, agree (fun _ _ => True) (for_each body l s w) (for_each body l s' w).
Proof.
  intros Hb. induction l as [| x l IH]; intros s s' w.
  - cbn. repeat split.
  - cbn [for_each]. unfold bind.
    destruct (Hb x s s' w) as (Hw & Ht & Hr).
    destruct (body x s w) as [[r1 w1] t1], (body x s' w) as [[r2 w2] t2].
    cbn [fst snd] in *. subst w2 t2.
    destruct r1 as [[f1 s1] | e1], r2 as [[f2 s2] | e2]; try contradiction.
    + unfold same_flow in Hr. cbn [fst snd] in *. subst f2.
      destruct f1.
      * specialize (IH s1 s2 w1). destruct IH as (Hw & Ht & Hr).
        destruct (for_each body l s1 w1) as [[r3 w3] t3],
                 (for_each body l s2 w1) as [[r4 w4] t4].
        cbn [fst snd] in *. subst. repeat split. assumption.
      * cbn. repeat split.
    + subst. repeat split.
Qed.

(** A loop whose body never breaks out goes through a list in two parts. *)
Lemma for_each_app {A S : Type} (body : A -> S -> M (flow * S)) (l1 l2 : list A) :
  (forall x s w f s' w' t, body x s w = (Val (f, s'), w', t) -> f = Next) ->
  forall s w,
    for_each body (l1 ++ l2) s w
    = match for_each body l1 s w with
      | (Val s1, w1, t1) =>
          let '(r, w2, t2) := for_each body l2 s1 w1 in (r, w2, t1 ++ t2)
      | (Exc e, w1, t1) => (Exc e, w1, t1)
      end.
Proof.
  intros Hnext. induction l1 as [| x l1 IH]; intros s w.
  - cbn. destruct (for_each body l2 s w) as [[r w2] t2]. reflexivity.
  - cbn [app for_each]. unfold bind.
    destruct (body x s w) as [[[[f s1] | e] w1] t1] eqn:Hx; [| reflexivity].
    rewrite (Hnext _ _ _ _ _ _ _ Hx). cbn [fst snd].
    rewrite IH.
    destruct (for_each body l1 s1 w1) as [[[s2 | e] w2] t2]; [| reflexivity].
    destruct (for_each body l2 s2 w2) as [[r w3] t3].
    rewrite List.app_assoc. reflexivity.
Qed.

(** ** The plain scraper: counters and control flow *)

Lemma agree_bind {A B : Type} (R : B -> B -> Prop) (m : M A) (k1 k2 : A -> M B) (w : world) :
  (forall a w1, agree R (k1 a w1) (k2 a w1)) ->
  agree R (bind m k1 w) (bind m k2 w).
Proof.
  intros Hk. unfold bind. destruct (m w) as [[[a | e] w1] t1].
  - specialize (Hk a w1). destruct Hk as (Hw & Ht & Hr).
    destruct (k1 a w1) as [[r2 w2] t2], (k2 a w1) as [[r3 w3] t3].
    cbn [fst snd] in *. subst. repeat split. assumption.
  - repeat split.
Qed.

Lemma agree_ret {A : Type} (R : A -> A -> Prop) (a b : A) (w : world) :
  R a b -> agree R (ret a w) (ret b w).
Proof. intros H. repeat split. assumption. Qed.

Ltac run_both :=
  repeat
    (cbv beta;
     match goal with
     | |- agree _ (ret _ _) (ret _ _) => apply agree_ret; repeat split
     | |- agree _ (bind ?m _ _) (bind ?m _ _) => apply agree_bind; intros ? ?
     | |- agree _ ((if ?b then _ else _) _) ((if ?b then _ else _) _) => destruct b
     end).

(** The body of the mapping loop does the same to the world, and counts the
    same for the domain, whatever the counters of the run. *)
Lemma each_mapping_agree (E : env) (skip_existing : bool) (dom m : json)
      (s s' : HoneyScraper.locals * nat) (w : world) :
  snd s = snd s' ->
  agree (fun a b => fst a = fst b /\ snd (snd a) = snd (snd b))
        (HoneyScraper.each_mapping E skip_existing dom m s w)
        (HoneyScraper.each_mapping E skip_existing dom m s' w).
Proof.
  destruct s as [l c], s' as [l' c']. cbn [snd]. intros <-.
  unfold HoneyScraper.each_mapping.
  run_both.
Qed.

Lemma for_each_agree {A S : Type} (body : A -> S -> M (flow * S)) (l : list A)
      (R : S -> S -> Prop) :
  (forall x s s' w, R s s' ->
                    agree (fun a b => fst a = fst b /\ R (snd a) (snd b))
                          (body x s w) (body x s' w)) ->
  forall s s' w, R s s' -> agree R (for_each body l s w) (for_each body l s' w).
Proof.
  intros Hb. induction l as [| x l IH]; intros s s' w Hs.
  - cbn. repeat split. assumption.
  - cbn [for_each]. unfold bind.
    destruct (Hb x s s' w Hs) as (Hw & Ht & Hr).
    destruct (body x s w) as [[r1 w1] t1], (body x s' w) as [[r2 w2] t2].
    cbn [fst snd] in *. subst w2 t2.
    destruct r1 as [[f1 s1] | e1], r2 as [[f2 s2] | e2]; try contradiction.
    + cbn [fst snd] in *. destruct Hr as [<- Hr].
      destruct f1.
      * specialize (IH s1 s2 w1 Hr). destruct IH as (Hw & Ht & Hr').
        destruct (for_each body l s1 w1) as [[r3 w3] t3],
                 (for_each body l s2 w1) as [[r4 w4] t4].
        cbn [fst snd] in *. subst. repeat split. assumption.
      * cbn. repeat split. assumption.
    + subst. repeat split.
Qed.

Lemma each_domain_blind (E : env) (skip_existing : bool) :
  blind (HoneyScraper.each_domain E skip_existing).
Proof.
  intros dom l l' w. unfold HoneyScraper.each_domain.
  run_both.
  pose proof (for_each_agree (HoneyScraper.each_mapping E skip_existing dom) a1
                             (fun a b => snd a = snd b)
                             (fun x s s' w => each_mapping_agree E skip_existing dom x s s' w)
                             (l, 0) (l', 0) w3 eq_refl) as (Hw & Ht & Hr).
  unfold bind at 1 3.
  destruct (for_each _ a1 (l, 0) w3) as [[r1 w5] t5],
           (for_each _ a1 (l', 0) w3) as [[r2 w6] t6].
  cbn [fst snd] in *. subst w6 t6.
  destruct r1 as [s1 | e1], r2 as [s2 | e2]; try contradiction.
  - rewrite Hr. unfold bind.
    destruct (HoneyScraper._mark_domain_scraped E dom (snd s2) w5) as [[[[] | e] w7] t7];
      cbn; repeat split.
  - subst. repeat split.
Qed.

Lemma mark_domain_scraped_found (E : env) (dom : json) (n : nat) (w w' : world)
      (t : list event) :
  HoneyScraper._mark_domain_scraped E dom n w = (Val tt, w', t) ->
  txn w' = None
  /\ forall d, dom = JStr d -> Sql.domain_found (Some d) (db w') = true.
Proof.
  rewrite mark_domain_scraped_run.
  destruct (Sql.bind_param dom) as [v | e] eqn:Hv; [| discriminate].
  intros [= <- <-]. split; [reflexivity |].
  intros d ->. cbn in Hv. injection Hv as <-.
  cbn [db set_txn set_db Sql.text]. apply domain_found_replace_domain.
Qed.

(** When the body of the domain loop returns, it goes on to the next domain,
    no transaction is open, and a domain that is a string is marked. *)
Lemma each_domain_returns (E : env) (skip_existing : bool) (dom : json)
      (l l' : HoneyScraper.locals) (f : flow) (w w' : world) (t : list event) :
  HoneyScraper.each_domain E skip_existing dom l w = (Val (f, l'), w', t) ->
  f = Next
  /\ txn w' = None
  /\ forall d, dom = JStr d -> Sql.domain_found (Some d) (db w') = true.
Proof.
  unfold HoneyScraper.each_domain. unfold bind at 1.
  destruct ((if skip_existing then HoneyScraper._domain_scraped E dom else ret false) w)
    as [[[b | e] w0] t0] eqn:H0; [| discriminate].
  destruct b.
  - cbn. intros [= <- <- <- <-].
    destruct skip_existing; [| discriminate].
    rewrite domain_scraped_run in H0.
    destruct (Sql.bind_param dom) as [v | e] eqn:Hv; [| discriminate].
    injection H0 as Hfound <- <-.
    repeat split. intros d ->. cbn in Hv. injection Hv as <-. exact Hfound.
  - unfold bind at 1.
    destruct (HoneyScraper.get_store_ids_by_domain E dom w0) as [[[ms | e] w1] t1];
      [| discriminate].
    destruct (negb (Py.truthy ms)).
    + unfold bind at 1.
      destruct (HoneyScraper._mark_domain_scraped E dom 0 w1) as [[[[] | e] w2] t2] eqn:Hm;
        [| discriminate].
      cbn. intros [= <- <- <- <-].
      destruct (mark_domain_scraped_found _ _ _ _ _ _ Hm). repeat split; assumption.
    + unfold bind at 1, lift at 1.
      destruct (Py.len ms); [| discriminate].
      unfold bind at 1, lift at 1.
      destruct (Py.iter ms) as [items | e]; [| discriminate].
      unfold bind at 1.
      destruct (for_each _ items (l, 0) w1) as [[[s | e] w2] t2]; [| discriminate].
      unfold bind at 1.
      destruct (HoneyScraper._mark_domain_scraped E dom (snd s) w2)
        as [[[[] | e] w3] t3] eqn:Hm; [| discriminate].
      cbn. intros [= <- <- <- <-].
      destruct (mark_domain_scraped_found _ _ _ _ _ _ Hm). repeat split; assumption.
Qed.

(** ** Markers stay through a run *)

Lemma retry_loop_frame (I : world -> Prop) (E : env) (r : request) (path : string)
      (miss : json) (n a : nat) (q : Q) :
  (forall w, I w -> I (HoneyScraper.operator w)) ->
  preserves I (fun _ => True) (HoneyScraper.retry_loop E r path miss n a q).
Proof.
  intros Hop w Hw.
  destruct (retry_loop_uniform E r path miss n a q) as (v & k & t & _ & Hrun).
  rewrite Hrun. cbn [fst snd]. split.
  - clear Hrun. induction k as [| k IH]; [assumption |].
    change (I (HoneyScraper.operator (Nat.iter k HoneyScraper.operator w))).
    apply Hop. assumption.
  - apply Forall_forall. intros; exact Logic.I.
Qed.

Lemma marked_view (k : key) (w : world) :
  marked k w -> Sql.domain_found k (HoneyScraper.view w) = true.
Proof.
  intros [H1 H2]. unfold HoneyScraper.view.
  destruct (txn w) as [d |]; [apply H2; reflexivity | assumption].
Qed.

Lemma marked_operator (k : key) (w : world) :
  marked k w -> marked k (HoneyScraper.operator w).
Proof.
  unfold marked, HoneyScraper.operator.
  destruct (stop_request_in w) as [[| n] |]; trivial.
Qed.

Lemma marked_execute (k : key) (f : database -> database) :
  (forall d, Sql.domain_found k d = true -> Sql.domain_found k (f d) = true) ->
  preserves (marked k) (fun _ => True) (HoneyScraper.execute f).
Proof.
  intros Hf. apply preserves_modify. intros w Hw. split.
  - exact (proj1 Hw).
  - cbn. intros d [= <-]. apply Hf. apply marked_view. assumption.
Qed.

Lemma marked_commit (k : key) :
  preserves (marked k) (fun _ => True) HoneyScraper.commit.
Proof.
  apply preserves_modify. intros w Hw. split.
  - cbn. apply marked_view. assumption.
  - cbn. discriminate.
Qed.

Lemma marked_close (k : key) :
  preserves (marked k) (fun _ => True) (modify (set_txn None)).
Proof.
  apply preserves_modify. intros w [H1 H2]. split; [exact H1 | cbn; discriminate].
Qed.

Lemma found_replace_domain (k : key) (r : domain_row) (d : database) :
  Sql.domain_found k d = true -> Sql.domain_found k (Sql.replace_domain r d) = true.
Proof.
  unfold Sql.domain_found, Sql.replace_domain. cbn [scraped_domains].
  intros H. rewrite existsb_app.
  apply existsb_exists in H. destruct H as (r0 & Hin & Hr0).
  destruct (Sql.eq (domain r0) (domain r)) eqn:Hsame.
  - apply orb_true_iff. right. cbn. rewrite orb_false_r.
    unfold Sql.eq in *.
    destruct (domain r0) as [a |], (domain r) as [b |], k as [c |]; try discriminate.
    apply String.eqb_eq in Hsame, Hr0. subst. apply String.eqb_refl.
  - apply orb_true_iff. left. apply existsb_exists. exists r0. split; [| assumption].
    apply filter_In. split; [assumption |]. rewrite Hsame. reflexivity.
Qed.

Lemma found_insert_all (k k' : key) (rows : list (list sqlval))
      (insert : key -> list sqlval -> database -> database) :
  (forall cols d, scraped_domains (insert k' cols d) = scraped_domains d) ->
  forall d, Sql.domain_found k (insert_all insert k' rows d) = Sql.domain_found k d.
Proof.
  intros Hins. unfold insert_all.
  induction rows as [| cols rows IH]; intros d; [reflexivity |].
  cbn [fold_left]. rewrite IH. apply domain_found_scraped_domains. apply Hins.
Qed.

Ltac marked_leaf :=
  match goal with
  | |- preserves _ _ (HoneyScraper.retry_loop _ _ _ _ _ _ _) =>
      apply retry_loop_frame; apply marked_operator
  | |- preserves _ _ (modify HoneyScraper.operator) =>
      apply preserves_modify; apply marked_operator
  | |- preserves _ _ HoneyScraper.commit => apply marked_commit
  | |- preserves _ _ (modify (set_txn None)) => apply marked_close
  | |- preserves _ _ (HoneyScraper.execute (Sql.replace_domain _)) =>
      apply marked_execute; intros ?; apply found_replace_domain
  | |- preserves _ _ (HoneyScraper.execute _) =>
      apply marked_execute; intros ? ?; assumption
  | |- preserves _ _ (modify _) =>
      apply preserves_modify; intros ? ?; assumption
  | |- preserves _ _ (emit _) => apply preserves_emit; exact Logic.I
  end.

Ltac marked_run :=
  repeat first
         [ marked_leaf
         | preserve_step
         | progress unfold HoneyScraper.session_get, HoneyScraper.time_ms,
           HoneyScraper.connect, HoneyScraper.rollback, HoneyScraper.close,
           HoneyScraper.bind_text,
           HoneyScraper._store_exists, HoneyScraper._domain_scraped,
           HoneyScraper._mark_domain_scraped, HoneyScraper.insert_child,
           HoneyScraper._save_store_to_db, HoneyScraper.get_supported_domains,
           HoneyScraper.get_store_ids_by_domain, HoneyScraper.get_store_details ].

Lemma each_domain_marked (E : env) (skip_existing : bool) (k : key) (dom : json)
      (l : HoneyScraper.locals) :
  preserves (marked k) (fun _ => True) (HoneyScraper.each_domain E skip_existing dom l).
Proof.
  unfold HoneyScraper.each_domain, HoneyScraper.each_mapping.
  marked_run.
Qed.

(** ** Resumption *)

Lemma set_txn_same (w : world) : txn w = None -> set_txn None w = w.
Proof. destruct w. cbn. intros ->. reflexivity. Qed.

(** Marked domains are skipped, and nothing is asked of the network. *)
Lemma marked_domains_skipped (E : env) (ds : list string) :
  forall (l : HoneyScraper.locals) (w : world),
    txn w = None ->
    Forall (fun d => Sql.domain_found (Some d) (db w) = true) ds ->
    for_each (HoneyScraper.each_domain E true) (map JStr ds) l w
    = (Val (skip_more (List.length ds) l), w, []).
Proof.
  induction ds as [| d ds IH]; intros l w Htxn Hall.
  - cbn. destruct l. reflexivity.
  - inversion Hall as [| ? ? Hd Hds]; subst.
    cbn [map for_each]. unfold bind.
    unfold HoneyScraper.each_domain at 1. unfold bind at 1.
    rewrite domain_scraped_run. cbn [Sql.bind_param Sql.text].
    rewrite Hd, (set_txn_same w Htxn). cbn [fst snd app ret].
    rewrite (IH _ w Htxn Hds). cbn.
    unfold skip_more. cbn. rewrite Nat.add_succ_r. reflexivity.
Qed.

Lemma for_each_domain_marked (E : env) (skip_existing : bool) (k : key)
      (doms : list json) (l : HoneyScraper.locals) :
  preserves (marked k) (fun _ => True)
            (for_each (HoneyScraper.each_domain E skip_existing) doms l).
Proof.
  revert l. apply preserves_for_each. intros dom l. apply each_domain_marked.
Qed.

(** After the loop has gone through them, the domains are all marked and no
    transaction is open. *)
Lemma for_each_domain_returns (E : env) (skip_existing : bool) (ds : list string) :
  forall (l l' : HoneyScraper.locals) (w w' : world) (t : list event),
    txn w = None ->
    for_each (HoneyScraper.each_domain E skip_existing) (map JStr ds) l w = (Val l', w', t) ->
    txn w' = None
    /\ Forall (fun d => Sql.domain_found (Some d) (db w') = true) ds.
Proof.
  induction ds as [| d ds IH]; intros l l' w w' t Htxn.
  - cbn. intros [= <- <- <-]. split; [assumption | constructor].
  - cbn [map for_each]. unfold bind.
    destruct (HoneyScraper.each_domain E skip_existing (JStr d) l w)
      as [[[[f l1] | e] w1] t1] eqn:Hd; [| discriminate].
    destruct (each_domain_returns _ _ _ _ _ _ _ _ _ Hd) as (-> & Htxn1 & Hfound).
    cbn [fst snd].
    destruct (for_each _ (map JStr ds) l1 w1) as [[[l2 | e] w2] t2] eqn:Hds;
      [| discriminate].
    intros [= <- <- <-].
    destruct (IH _ _ _ _ _ Htxn1 Hds) as [Htxn2 Hall]. split; [assumption |].
    constructor; [| assumption].
    pose proof (for_each_domain_marked E skip_existing (Some d) (map JStr ds) l1 w1) as Hkeep.
    rewrite Hds in Hkeep. cbn [fst snd] in Hkeep.
    assert (Hm : marked (Some d) w1).
    { split; [apply Hfound; reflexivity | rewrite Htxn1; discriminate]. }
    destruct (Hkeep Hm) as [[Hf _] _]. exact Hf.
Qed.

Lemma each_domain_next (E : env) (skip_existing : bool) :
  forall x s w f s' w' t,
    HoneyScraper.each_domain E skip_existing x s w = (Val (f, s'), w', t) -> f = Next.
Proof.
  intros x s w f s' w' t H. apply (each_domain_returns _ _ _ _ _ _ _ _ _ H).
Qed.

Lemma idle_operator (w : world) : idle w -> idle (HoneyScraper.operator w).
Proof. intros H. rewrite operator_idle; assumption. Qed.

Ltac idle_leaf :=
  match goal with
  | |- preserves _ _ (HoneyScraper.retry_loop _ _ _ _ _ _ _) =>
      apply retry_loop_frame; apply idle_operator
  | |- preserves _ _ (modify HoneyScraper.operator) =>
      apply preserves_modify; apply idle_operator
  | |- preserves _ _ (modify _) =>
      apply preserves_modify; intros ? ?; assumption
  | |- preserves _ _ (emit _) => apply preserves_emit; exact Logic.I
  end.

Ltac idle_run :=
  repeat first
         [ idle_leaf
         | preserve_step
         | progress unfold HoneyScraper.session_get, HoneyScraper.time_ms,
           HoneyScraper.connect, HoneyScraper.execute, HoneyScraper.commit,
           HoneyScraper.rollback, HoneyScraper.close, HoneyScraper.bind_text,
           HoneyScraper._store_exists, HoneyScraper._domain_scraped,
           HoneyScraper._mark_domain_scraped, HoneyScraper.insert_child,
           HoneyScraper._save_store_to_db, HoneyScraper.get_supported_domains,
           HoneyScraper.get_store_ids_by_domain, HoneyScraper.get_store_details ].

Lemma for_each_domain_idle (E : env) (skip_existing : bool) (doms : list json)
      (l : HoneyScraper.locals) :
  preserves idle (fun _ => True)
            (for_each (HoneyScraper.each_domain E skip_existing) doms l).
Proof.
  revert l. apply preserves_for_each. intros dom l.
  unfold HoneyScraper.each_domain, HoneyScraper.each_mapping.
  idle_run.
Qed.

(** The run with resumption is the fetch of the list and then the loop. *)
Lemma scrape_all_stores_resume (E : env) (ds : list string) (w : world) :
  api E SupportedDomains 0 = ok (JArr (map JStr ds)) ->
  ds <> [] ->
  idle w ->
  HoneyScraper.scrape_all_stores E None true w
  = let '(r, w', t) := resume_loop E ds w in
    (r, w', Requested SupportedDomains 0 :: t).
Proof.
  intros Hapi Hds Hidle.
  unfold HoneyScraper.scrape_all_stores, HoneyScraper.get_supported_domains,
    HoneyScraper.session_get, resume_loop.
  unfold bind at 1, try_except, bind at 1, bind at 1, emit, bind at 1, modify, lift at 1.
  rewrite Hapi, (operator_idle w Hidle).
  cbn -[for_each].
  destruct ds as [| d ds]; [contradiction |].
  cbn -[for_each].
  destruct (for_each _ _ _ w) as [[r w'] t]. reflexivity.
Qed.

(** X22.  A run of [HoneyScraper.scrape_all_stores] with
    resumption is cut when the loop has gone through the domains [ds1], the
    marker of the last of them written.  The restart with resumption skips
    [ds1] without a single request or sleep, then does on the rest of the
    list exactly what the run left alone does after [ds1]: the two end in the
    same world, so with the same stores, coupons, partial urls and markers,
    and the events of the restart after the fetch of the list are the events
    the run left alone has after those of the part that was cut. *)
Theorem resumed_run_ends_like_the_run_left_alone (E : env) (ds1 ds2 : list string)
        (w0 w1 : world) (l1 : HoneyScraper.locals) (t1 : list event) :
  api E SupportedDomains 0 = ok (JArr (map JStr (ds1 ++ ds2))) ->
  ds1 ++ ds2 <> [] ->
  idle w0 ->
  txn w0 = None ->
  resume_loop E ds1 w0 = (Val l1, w1, t1) ->
  resume_loop E ds1 w1 = (Val (skip_more (List.length ds1) HoneyScraper.no_locals), w1, [])
  /\ exists t2,
      snd (HoneyScraper.scrape_all_stores E None true w1)
      = Requested SupportedDomains 0 :: t2
      /\ snd (HoneyScraper.scrape_all_stores E None true w0)
         = Requested SupportedDomains 0 :: t1 ++ t2
      /\ agree (fun _ _ => True)
               (HoneyScraper.scrape_all_stores E None true w1)
               (let '(r, w, _) := HoneyScraper.scrape_all_stores E None true w0 in
                (r, w, Requested SupportedDomains 0 :: t2)).
Proof.
  intros Hapi Hds Hidle Htxn Hcut.
  destruct (for_each_domain_returns E true ds1 _ _ _ _ _ Htxn Hcut) as [Htxn1 Hmarked].
  pose proof (for_each_domain_idle E true (map JStr ds1) HoneyScraper.no_locals w0 Hidle)
    as [Hidle1 _].
  unfold resume_loop in Hcut. rewrite Hcut in Hidle1. cbn [fst snd] in Hidle1.
  pose proof (marked_domains_skipped E ds1 HoneyScraper.no_locals w1 Htxn1 Hmarked) as Hskip.
  split; [exact Hskip |].
  rewrite (scrape_all_stores_resume E (ds1 ++ ds2) w1 Hapi Hds Hidle1).
  rewrite (scrape_all_stores_resume E (ds1 ++ ds2) w0 Hapi Hds Hidle).
  unfold resume_loop. rewrite !map_app.
  rewrite !(for_each_app _ _ _ (each_domain_next E true)).
  rewrite Hcut, Hskip.
  pose proof (for_each_blind (HoneyScraper.each_domain E true) (map JStr ds2)
                             (each_domain_blind E true)
                             (skip_more (List.length ds1) HoneyScraper.no_locals) l1 w1)
    as (Hw & Ht & Hr).
  destruct (for_each _ (map JStr ds2) (skip_more _ _) w1) as [[r2 w2] t2],
           (for_each _ (map JStr ds2) l1 w1) as [[r3 w3] t3].
  cbn [fst snd app] in *. subst w3 t3.
  exists t2. repeat split. assumption.
Qed.

(** two runs that agree end in the same world *)
Lemma agree_same_world {A : Type} (R : A -> A -> Prop)
      (o1 o : result A * world * list event) (t : list event) :
  agree R o1 (let '(r, w, _) := o in (r, w, t)) ->
  snd (fst o1) = snd (fst o).
Proof.
  destruct o as [[r w] t']. intros (Hw & _). exact Hw.
Qed.

(** The crawl of [api_two_stores] cut after [a.com]: the restart ends with
    the file of the run left alone. *)
Lemma resumed_run_ends_like_the_run_left_alone_witness :
  let E := env_of api_two_stores in
  let w0 := initial_world (1 # 2) in
  resume_loop E ["a.com"] w0 = cut_after_a
  /\ db (snd (fst (HoneyScraper.scrape_all_stores E None true (snd (fst cut_after_a)))))
     = db (snd (fst (HoneyScraper.scrape_all_stores E None true w0))).
Proof.
  cbv zeta.
  assert (Hcut : resume_loop (env_of api_two_stores) ["a.com"] (initial_world (1 # 2))
                 = cut_after_a) by (vm_compute; reflexivity).
  split; [exact Hcut |].
  destruct (resumed_run_ends_like_the_run_left_alone
              (env_of api_two_stores) ["a.com"] ["b.com"] (initial_world (1 # 2))
              (snd (fst cut_after_a)) _ _
              eq_refl ltac:(discriminate) eq_refl eq_refl Hcut)
    as (_ & t2 & _ & _ & Hagree).
  exact (f_equal db
           (agree_same_world
              (fun _ _ => True) _
              (HoneyScraper.scrape_all_stores (env_of api_two_stores) None true
                                              (initial_world (1 # 2)))
              (Requested SupportedDomains 0 :: t2) Hagree)).
Defined.
(** A run without resumption, over a file that holds the marker of an earlier
    crawl, is not completed by a restart with resumption.  [b.com] was marked by
    an earlier crawl, when it had no store.  A fresh run left alone fetches
    and saves the store [S1] of [b.com].  The same run cut after [a.com] and
    restarted with resumption skips [b.com] too: it asks for no mapping and
    saves no store. *)
Lemma fresh_run_is_not_completed_by_resume :
  let E := env_of api_later_store in
  let alone := HoneyScraper.scrape_all_stores E None false b_marked_before in
  let cut := for_each (HoneyScraper.each_domain E false) [JStr "a.com"]
                      HoneyScraper.no_locals b_marked_before in
  let restart := HoneyScraper.scrape_all_stores E None true (snd (fst cut)) in
  markers (snd cut) = [(Some "a.com", 0%Z)]
  /\ store_ids (db (snd (fst alone))) = [Some "S1"]
  /\ mapping_lookups (snd restart) = []
  /\ store_ids (db (snd (fst restart))) = [].
Proof.
  cbv zeta. repeat split; vm_compute; reflexivity.
Qed.

(** ** A run stopped inside a domain and resumed *)

(** C2.  A monitored run with resumption is stopped by the operator while the
    mappings of [a.com] are looked up.  The run breaks out of the mapping
    loop at its first turn, writes the marker of [a.com] all the same, with
    count 0 and no store fetched, and halts before [b.com] starts: it is
    interrupted after the marker of [a.com] is written and before the next
    domain.  The restart with resumption skips [a.com] without a request and
    goes through [b.com], and it ends with no store in the file, where the
    run left alone over the same list and answers ends with [S1] and [S2].
    The base scraper on the same list and answers, cut at the same place and
    restarted, ends with both stores. *)
Theorem stop_inside_a_domain_breaks_resumption :
  let E := env_of api_two_stores in
  let stopped := MonitoredScraper.scrape_all_stores E None true stop_during_mapping_lookup in
  let resumed := MonitoredScraper.scrape_all_stores E None true (snd (fst stopped)) in
  let alone := MonitoredScraper.scrape_all_stores E None true (initial_world (1 # 2)) in
  let base_cut := resume_loop E ["a.com"] (initial_world (1 # 2)) in
  let base_resumed := HoneyScraper.scrape_all_stores E None true (snd (fst base_cut)) in
  (mapping_lookups (snd stopped) = [JStr "a.com"]
   /\ detail_lookups (snd stopped) = []
   /\ markers (snd stopped) = [(Some "a.com", 0%Z)])
  /\ (mapping_lookups (snd resumed) = [JStr "b.com"]
      /\ detail_lookups (snd resumed) = []
      /\ store_ids (db (snd (fst resumed))) = [])
  /\ store_ids (db (snd (fst alone))) = [Some "S1"; Some "S2"]
  /\ (markers (snd base_cut) = [(Some "a.com", 2%Z)]
      /\ mapping_lookups (snd base_resumed) = [JStr "b.com"]
      /\ store_ids (db (snd (fst base_resumed))) = [Some "S1"; Some "S2"]).
Proof.
  cbv zeta. repeat split; vm_compute; reflexivity.
Qed.

(** ** The count in the marker of a domain whose fetches fail *)

(** C5.  [a.com] of [api_failing] resolves to ten mappings, every one of them
    is gone through, and every detail fetch fails.  The base run marks
    [a.com] complete, as it marks [b.com] and [c.com], whose mapping lookups
    come back empty, with count 0; but the count it writes for [a.com] is 0
    too, not the ten mappings handled: [domain_store_count] is left as it is
    in the branch of a failed fetch.  The monitored run, on the same list
    and answers, counts every mapping handled and marks [a.com] with 10. *)
Theorem failed_fetches_are_missing_from_the_marker :
  let E := env_of api_failing in
  let base := HoneyScraper.scrape_all_stores E None true (initial_world (1 # 2)) in
  let monitored := MonitoredScraper.scrape_all_stores E None true (initial_world (1 # 2)) in
  mapping_count (mappings_of E (JStr "a.com") (1 # 2)) = 10
  /\ List.length (detail_lookups (snd base)) = 10
  /\ HoneyScraper.errs (match fst (fst base) with
                        | Val l => l
                        | Exc _ => HoneyScraper.no_locals
                        end) = 10
  /\ markers (snd base)
     = [(Some "a.com", 0%Z); (Some "b.com", 0%Z); (Some "c.com", 0%Z)]
  /\ markers (snd monitored)
     = [(Some "a.com", 10%Z); (Some "b.com", 0%Z); (Some "c.com", 0%Z)].
Proof.
  cbv zeta. repeat split; vm_compute; reflexivity.
Qed.

(** ** The rows of the payload saved last *)

Lemma bind_param_scalar (j : json) : scalar j -> Sql.bind_param j = Val (sql_of j).
Proof.
  destruct j; cbn; try reflexivity; try contradiction.
  intros ->. reflexivity.
Qed.

Lemma arguments_object (E : env) (fields : list (string * json))
      (cols : list HoneyScraper.column) :
  HoneyScraper.arguments E (JObj fields) cols = Val (map (argument_of E fields) cols).
Proof.
  induction cols as [| c cols IH]; cbn [HoneyScraper.arguments map]; [reflexivity |].
  rewrite IH. destruct c; cbn; unfold field; destruct (Py.assoc k fields); reflexivity.
Qed.

Lemma bind_params_scalars (js : list json) :
  Forall scalar js -> HoneyScraper.bind_params js = Val (map sql_of js).
Proof.
  induction 1 as [| j js Hj Hjs IH]; cbn [HoneyScraper.bind_params map]; [reflexivity |].
  rewrite (bind_param_scalar j Hj), IH. reflexivity.
Qed.

Lemma arguments_scalars (E : env) (fields : list (string * json)) (keys : list string)
      (cols : list HoneyScraper.column) :
  scalars keys fields ->
  (forall k, In (HoneyScraper.Plain k) cols -> In k keys) ->
  Forall scalar (map (argument_of E fields) cols).
Proof.
  intros Hkeys Hcols. apply Forall_forall. intros j Hj.
  apply in_map_iff in Hj. destruct Hj as (c & <- & Hc).
  destruct c as [k | k | k default]; cbn [argument_of].
  - unfold scalars in Hkeys. rewrite Forall_forall in Hkeys. apply Hkeys, Hcols, Hc.
  - destruct (Py.truthy (field fields k)); reflexivity.
  - exact Logic.I.
Qed.

Ltac plain_keys :=
  let k := fresh "k" in
  let H := fresh "H" in
  intros k H; cbn in H;
  repeat (destruct H as [H | H];
          [first [discriminate H | injection H as <-; cbn; tauto] |]);
  destruct H.

Lemma child_columns_coupon (E : env) (s : string) (c : list (string * json)) :
  scalars coupon_scalars c ->
  child_columns E HoneyScraper.coupon_fields (JStr s) (JObj c) = Val (coupon_row E c).
Proof.
  intros Hc. unfold child_columns, and_then.
  rewrite arguments_object. cbn [Sql.bind_param].
  rewrite bind_params_scalars.
  - reflexivity.
  - apply (arguments_scalars E c coupon_scalars); [assumption | plain_keys].
Qed.

Lemma child_columns_partial_url (E : env) (s : string) (pu : list (string * json)) :
  scalars partial_url_scalars pu ->
  child_columns E HoneyScraper.partial_url_fields (JStr s) (JObj pu)
  = Val (partial_url_row pu).
Proof.
  intros Hpu. unfold child_columns, and_then.
  rewrite arguments_object. cbn [Sql.bind_param].
  rewrite bind_params_scalars.
  - reflexivity.
  - apply (arguments_scalars E pu partial_url_scalars); [assumption | plain_keys].
Qed.

Lemma map_result_objects {B : Type} (f : json -> result B)
      (g : list (string * json) -> B) (P : list (string * json) -> Prop)
      (items : list (list (string * json))) :
  (forall x, P x -> f (JObj x) = Val (g x)) ->
  Forall P items ->
  map_result f (map JObj items) = Val (map g items).
Proof.
  intros Hf. induction 1 as [| x items Hx Hitems IH]; cbn [map map_result]; [reflexivity |].
  unfold and_then. rewrite (Hf x Hx), IH. reflexivity.
Qed.

(** the rows the save is to write for a payload are the rows the payload
    stands for *)
Lemma plan_of_payload (E : env) (s : string) (domain partial_url : json)
      (r : list (string * json)) (cs pus : list (list (string * json))) :
  payload domain partial_url r cs pus ->
  plan_of E domain (JStr s) partial_url (JObj r)
  = Val {| plan_store := store_row_of E s domain partial_url r;
           plan_coupons := map (coupon_row E) cs;
           plan_partial_urls := map partial_url_row pus |}.
Proof.
  intros (Hd & Hp & Hr & Hcs & Hcs' & Hpus & Hpus').
  unfold plan_of, and_then.
  rewrite arguments_object. cbn [Sql.bind_param].
  rewrite bind_params_scalars.
  - rewrite Hcs, Hpus. cbn [Py.iter].
    rewrite (map_result_objects _ (coupon_row E) (scalars coupon_scalars) cs
                                (child_columns_coupon E s) Hcs').
    rewrite (map_result_objects _ partial_url_row (scalars partial_url_scalars) pus
                                (child_columns_partial_url E s) Hpus').
    reflexivity.
  - constructor; [assumption |]. constructor; [assumption |].
    apply Forall_app. split; [| repeat constructor].
    apply (arguments_scalars E r store_scalars); [assumption | plain_keys].
Qed.

(** C7.  Whatever was saved before for a store identifier, and in particular
    after a first save of any payload for it, a save of a payload for the
    identifier leaves one store row for it, the row of the store record of
    this payload, and the coupons and the partial urls of the identifier in
    the file are, row for row and column for column, the coupons and the
    partial urls of this payload: none twice, none of the earlier save. *)
Theorem second_save_leaves_the_last_payload (E : env) (s : string)
        (domain1 partial_url1 details1 domain2 partial_url2 : json)
        (r2 : list (string * json)) (cs2 pus2 : list (list (string * json)))
        (w : world) :
  payload domain2 partial_url2 r2 cs2 pus2 ->
  let w1 := snd (fst (HoneyScraper._save_store_to_db E domain1 (JStr s) partial_url1
                                                     details1 w)) in
  let d := db_after_save E domain2 (JStr s) partial_url2 (JObj r2) w1 in
  stores_with (Some s) d = [store_row_of E s domain2 partial_url2 r2]
  /\ map columns (owned (Some s) (coupons d)) = map (coupon_row E) cs2
  /\ map columns (owned (Some s) (partial_urls d)) = map partial_url_row pus2.
Proof.
  intros Hpayload w1 d.
  pose proof (plan_of_payload E s domain2 partial_url2 r2 cs2 pus2 Hpayload) as Hplan.
  unfold d, db_after_save. rewrite save_run, Hplan.
  cbn [fst snd db set_txn set_db].
  exact (write_plan_rows
           {| plan_store := store_row_of E s domain2 partial_url2 r2;
              plan_coupons := map (coupon_row E) cs2;
              plan_partial_urls := map partial_url_row pus2 |}
           s (db w1) eq_refl).
Qed.

(** The store [S1] saved with two coupons [X] and [Y] and a partial url, then
    with the one coupon [Z] and no partial url. *)
Lemma second_save_leaves_the_last_payload_witness :
  payload (JStr "b.com") (JStr "b.com")
          [("name", JStr "B"); ("publicCoupons", JArr [JObj [("code", JStr "Z")]])]
          [[("code", JStr "Z")]] []
  /\ let w1 := snd (fst (HoneyScraper._save_store_to_db
                           (env_of api_empty_object) (JStr "a.com") (JStr "S1")
                           (JStr "a.com") record_two_coupons (initial_world (1 # 2)))) in
     let d := db_after_save (env_of api_empty_object) (JStr "b.com") (JStr "S1")
                            (JStr "b.com") record_one_coupon w1 in
     stores_with (Some "S1") d
     = [store_row_of (env_of api_empty_object) "S1" (JStr "b.com") (JStr "b.com")
                     [("name", JStr "B");
                      ("publicCoupons", JArr [JObj [("code", JStr "Z")]])]]
     /\ map columns (owned (Some "S1") (coupons d))
        = [coupon_row (env_of api_empty_object) [("code", JStr "Z")]]
     /\ map columns (owned (Some "S1") (partial_urls d)) = [].
Proof.
  assert (Hpayload : payload (JStr "b.com") (JStr "b.com")
                       [("name", JStr "B");
                        ("publicCoupons", JArr [JObj [("code", JStr "Z")]])]
                       [[("code", JStr "Z")]] []).
  { unfold payload, scalars. cbn. repeat split; repeat constructor. }
  split; [exact Hpayload |].
  exact (second_save_leaves_the_last_payload
           (env_of api_empty_object) "S1"
           (JStr "a.com") (JStr "a.com") record_two_coupons
           (JStr "b.com") (JStr "b.com")
           [("name", JStr "B"); ("publicCoupons", JArr [JObj [("code", JStr "Z")]])]
           [[("code", JStr "Z")]] []
           (initial_world (1 # 2)) Hpayload).
Defined.

(** The same two saves, with the rows written out: after the first the file
    holds the coupons [X] and [Y] of [S1]; after the second one store row, of
    name [B] under [b.com], the one coupon [Z], and no partial url. *)
Lemma second_save_leaves_the_last_payload_run :
  let E := env_of api_empty_object in
  let w1 := snd (fst (HoneyScraper._save_store_to_db
                        E (JStr "a.com") (JStr "S1") (JStr "a.com") record_two_coupons
                        (initial_world (1 # 2)))) in
  let d := db_after_save E (JStr "b.com") (JStr "S1") (JStr "b.com")
                         record_one_coupon w1 in
  map (fun r => nth 0 (columns r) SqlNull) (owned (Some "S1") (coupons (db w1)))
  = [SqlText "X"; SqlText "Y"]
  /\ map (fun r => firstn 3 (store_columns r)) (stores_with (Some "S1") d)
     = [[SqlText "b.com"; SqlText "b.com"; SqlText "B"]]
  /\ map (fun r => nth 0 (columns r) SqlNull) (owned (Some "S1") (coupons d))
     = [SqlText "Z"]
  /\ owned (Some "S1") (partial_urls d) = [].
Proof.
  vm_compute. repeat split.
Qed.

(** ** The fetch of the domain list *)

(** X1.  [get_supported_domains] never raises, whatever the transport does.
    It issues one request, with no sleep before or after and no second
    attempt, and leaves the file alone.  It returns the empty list when the
    transport raises, when the status is a 4xx or a 5xx (a 429 among them),
    when the body is not JSON and when the body has no length; otherwise it
    returns the decoded body as it is. *)
Theorem supported_domains_are_fetched_once (E : env) (w : world) :
  exists v,
    HoneyScraper.get_supported_domains E w
    = (Val v, HoneyScraper.operator w, [Requested SupportedDomains 0])
    /\ (forall e, api E SupportedDomains 0 = Exc e -> v = JArr [])
    /\ (forall resp,
           api E SupportedDomains 0 = Val resp ->
           ((400 <= status_code resp < 600)%Z -> v = JArr [])
           /\ (forall e, json_body resp = Exc e -> v = JArr [])
           /\ (forall body,
                  ~ (400 <= status_code resp < 600)%Z ->
                  json_body resp = Val body ->
                  v = match Py.len body with
                      | Val _ => body
                      | Exc _ => JArr []
                      end)).
Proof.
  unfold HoneyScraper.get_supported_domains, HoneyScraper.session_get,
    try_except, bind, emit, modify, lift, ret.
  destruct (api E SupportedDomains 0) as [resp | e] eqn:Hapi; cbn.
  - unfold raise_for_status.
    destruct ((400 <=? status_code resp) && (status_code resp <? 600))%Z eqn:Hs; cbn.
    + eexists. split; [reflexivity |].
      split; [discriminate |]. intros resp' [= <-].
      apply andb_true_iff in Hs. destruct Hs as [H1 H2].
      apply Z.leb_le in H1. apply Z.ltb_lt in H2.
      repeat split; try reflexivity. intros body Hn. exfalso. apply Hn. lia.
    + assert (Hn : ~ (400 <= status_code resp < 600)%Z).
      { intros [H1 H2]. apply Z.leb_le in H1. apply Z.ltb_lt in H2.
        rewrite H1, H2 in Hs. discriminate. }
      destruct (json_body resp) as [body | e] eqn:Hb; cbn.
      * destruct (Py.len body) as [n | e] eqn:Hl; cbn;
          (eexists; split; [reflexivity |]);
          (split; [discriminate |]); intros resp' [= <-];
          (split; [intros H; contradiction |]);
          (split; [intros e'; rewrite Hb; discriminate |]);
          intros body' _; rewrite Hb; intros [= <-]; rewrite Hl; reflexivity.
      * eexists. split; [reflexivity |].
        split; [discriminate |]. intros resp' [= <-].
        split; [intros H; contradiction |].
        split; [reflexivity |].
        intros body' _. rewrite Hb. discriminate.
  - eexists. split; [reflexivity |].
    split; [reflexivity |]. discriminate.
Qed.


Lemma get_supported_domains_none (E : env) (w : world) :
  list_fetch_fails E \/ api E SupportedDomains 0 = ok (JArr []) ->
  HoneyScraper.get_supported_domains E w
  = (Val (JArr []), HoneyScraper.operator w, [Requested SupportedDomains 0]).
Proof.
  unfold list_fetch_fails, HoneyScraper.get_supported_domains,
    HoneyScraper.session_get, try_except, bind, emit, modify, lift, ret.
  destruct (api E SupportedDomains 0) as [resp | e] eqn:Hapi; cbn;
    [| reflexivity].
  intros [[H | [e H]] | H].
  - unfold raise_for_status.
    destruct H as [H1 H2]. apply Z.leb_le in H1. apply Z.ltb_lt in H2.
    rewrite H1, H2. reflexivity.
  - rewrite H. destruct (raise_for_status resp); reflexivity.
  - unfold ok in H. injection H as H. subst resp. reflexivity.
Qed.

(** X2.  When the list fetch fails, or the list is empty, the run ends at
    once: [scrape_all_stores] has issued the one request of the list, it has
    not slept, the file is as it was and the counters are zero.  The
    monitored run does the same, records that no domain was found and is no
    longer running. *)
Theorem failed_list_fetch_ends_the_run (E : env) (max_domains : option Z)
        (skip_existing : bool) (w : world) :
  list_fetch_fails E \/ api E SupportedDomains 0 = ok (JArr []) ->
  HoneyScraper.scrape_all_stores E max_domains skip_existing w
  = (Val HoneyScraper.no_locals, HoneyScraper.operator w, [Requested SupportedDomains 0])
  /\ exists w',
      MonitoredScraper.scrape_all_stores E max_domains skip_existing w
      = (Val MonitoredScraper.no_locals, w', [Requested SupportedDomains 0])
      /\ db w' = db w
      /\ last_error (scraper_state w') = Some "No domains found in domains list"
      /\ running (scraper_state w') = false.
Proof.
  intros H. split.
  - unfold HoneyScraper.scrape_all_stores, bind.
    rewrite (get_supported_domains_none E w H). reflexivity.
  - unfold MonitoredScraper.scrape_all_stores, MonitoredScraper.scrape,
      try_finally, bind, Dashboard.update_scraper_state, modify, the_world, ret.
    cbn -[HoneyScraper.get_supported_domains].
    rewrite (get_supported_domains_none E _ H). cbn.
    eexists. split; [reflexivity |].
    unfold HoneyScraper.operator. cbn.
    destruct (stop_request_in w) as [[| n] |]; cbn; repeat split; reflexivity.
Qed.

Lemma failed_list_fetch_ends_the_run_witness :
  HoneyScraper.scrape_all_stores (env_of (fun _ _ => Exc Timeout)) None true
                                 (initial_world (1 # 2))
  = (Val HoneyScraper.no_locals, initial_world (1 # 2), [Requested SupportedDomains 0]).
Proof.
  exact (proj1 (failed_list_fetch_ends_the_run
                  (env_of (fun _ _ => Exc Timeout)) None true (initial_world (1 # 2))
                  (or_introl Logic.I))).
Defined.

(** ** The effort of one lookup *)

Lemma sleep_bound_nonneg (n : nat) : (0 <= sleep_bound n)%Q.
Proof. induction n as [| n IH]; cbn [sleep_bound]; lra. Qed.

Lemma retry_loop_effort (E : env) (r : request) (path : string) (miss : json) (n : nat) :
  forall (a : nat) (d : Q) (w : world),
    (0 <= d)%Q ->
    List.length (requests_of (snd (HoneyScraper.retry_loop E r path miss n a d w))) <= n
    /\ (total_slept (snd (HoneyScraper.retry_loop E r path miss n a d w))
        <= sleep_bound n * d)%Q.
Proof.
  induction n as [| n IH]; intros a d w Hd.
  - cbn. split; [lia | lra].
  - assert (Hd0 : Qle_bool 0 d = true) by (apply Qle_bool_iff; assumption).
    pose proof (sleep_bound_nonneg n) as Hn.
    rewrite retry_loop_step by assumption.
    destruct (verdict_at E r path miss a) eqn:Hv; cbn [attempt_turn attempt_events].
    + specialize (IH (S a) (d * 2)%Q (HoneyScraper.operator w) ltac:(lra)).
      destruct (HoneyScraper.retry_loop _ _ _ _ _ _ _ _) as [[x w'] t].
      cbn [fst snd app requests_of total_slept List.length sleep_bound] in *.
      destruct IH as [IH1 IH2]. split; [lia | nra].
    + specialize (IH (S a) (d * (3 # 2))%Q (HoneyScraper.operator w) ltac:(lra)).
      destruct (HoneyScraper.retry_loop _ _ _ _ _ _ _ _) as [[x w'] t].
      destruct (Nat.ltb a (HoneyScraper.max_retries - 1));
        cbn [fst snd app requests_of total_slept List.length sleep_bound] in *;
        destruct IH as [IH1 IH2]; (split; [lia | nra]).
    + cbn [fst snd app requests_of total_slept List.length sleep_bound].
      split; [lia | nra].
    + cbn [fst snd app requests_of total_slept List.length sleep_bound].
      split; [lia | nra].
Qed.

(** X3.  A lookup, of the mappings of a domain or of the record of a store,
    never issues more than three requests, and with a delay [d] that is not
    negative it never sleeps more than [21 * d] seconds in all, whatever the
    transport answers. *)
Theorem lookup_effort_is_bounded (E : env) (w : world) (domain store_id : json)
        (max_ugc success_count : Z) :
  (0 <= self_delay w)%Q ->
  (List.length (requests_of (snd (HoneyScraper.get_store_ids_by_domain E domain w))) <= 3
   /\ (total_slept (snd (HoneyScraper.get_store_ids_by_domain E domain w))
       <= 21 * self_delay w)%Q)
  /\ (List.length
        (requests_of
           (snd (HoneyScraper.get_store_details E store_id max_ugc success_count w))) <= 3
      /\ (total_slept
            (snd (HoneyScraper.get_store_details E store_id max_ugc success_count w))
          <= 21 * self_delay w)%Q).
Proof.
  intros Hd.
  rewrite get_store_ids_by_domain_unfold, get_store_details_unfold.
  split.
  - destruct (retry_loop_effort E (PartialsByDomain domain) "getPartialURLsByDomain"
                                (JArr []) HoneyScraper.max_retries 0 (self_delay w) w Hd)
      as [H1 H2].
    split; [exact H1 |]. cbn [sleep_bound HoneyScraper.max_retries] in H2. lra.
  - destruct (retry_loop_effort E (StoreById store_id max_ugc success_count)
                                "getStoreById" JNull HoneyScraper.max_retries 0
                                (self_delay w) w Hd)
      as [H1 H2].
    split; [exact H1 |]. cbn [sleep_bound HoneyScraper.max_retries] in H2. lra.
Qed.

Lemma lookup_effort_is_bounded_witness :
  List.length
    (requests_of
       (snd (HoneyScraper.get_store_details (env_of api_always_429) (JStr "S1") 3 1
                                            (initial_world (1 # 2))))) <= 3
  /\ (total_slept
        (snd (HoneyScraper.get_store_details (env_of api_always_429) (JStr "S1") 3 1
                                             (initial_world (1 # 2))))
      <= 21 * (1 # 2))%Q.
Proof.
  exact (proj2 (lookup_effort_is_bounded
                  (env_of api_always_429) (initial_world (1 # 2)) (JStr "a.com")
                  (JStr "S1") 3 1 ltac:(cbn; lra))).
Defined.

(** the allowance is used up when every attempt is rate limited *)
Lemma lookup_effort_attained :
  let t := snd (HoneyScraper.get_store_details (env_of api_always_429) (JStr "S1") 3 1
                                               (initial_world (1 # 2))) in
  List.length (requests_of t) = 3 /\ (total_slept t == 21 * (1 # 2))%Q.
Proof. cbv zeta. split; vm_compute; reflexivity. Qed.

(** ** Rules for properties of the trace *)

Section Keeps.

Variables (I : world -> Prop) (P : list event -> Prop).
Hypothesis P_nil : P [].
Hypothesis P_app : forall t1 t2, P t1 -> P t2 -> P (t1 ++ t2).

Lemma keeps_ret {A : Type} (a : A) : keeps I P (ret a).
Proof. intros w Hw. split; [assumption | exact P_nil]. Qed.

Lemma keeps_raise {A : Type} (e : exn) : keeps I P (@raise A e).
Proof. intros w Hw. split; [assumption | exact P_nil]. Qed.

Lemma keeps_lift {A : Type} (r : result A) : keeps I P (lift r).
Proof. intros w Hw. split; [assumption | exact P_nil]. Qed.

Lemma keeps_the_world : keeps I P the_world.
Proof. intros w Hw. split; [assumption | exact P_nil]. Qed.

Lemma keeps_emit (ev : event) : P [ev] -> keeps I P (emit ev).
Proof. intros Hev w Hw. split; assumption. Qed.

Lemma keeps_modify (f : world -> world) :
  (forall w, I w -> I (f w)) -> keeps I P (modify f).
Proof. intros Hf w Hw. split; [apply Hf; assumption | exact P_nil]. Qed.

Lemma keeps_bind {A B : Type} (m : M A) (f : A -> M B) :
  keeps I P m -> (forall a, keeps I P (f a)) -> keeps I P (bind m f).
Proof.
  intros Hm Hf w Hw. unfold bind.
  specialize (Hm w Hw). destruct (m w) as [[[a | e] w1] t1]; cbn in *.
  - destruct Hm as [Hw1 Ht1].
    specialize (Hf a w1 Hw1). destruct (f a w1) as [[r w2] t2]; cbn in *.
    destruct Hf as [Hw2 Ht2]. split; [assumption |].
    apply P_app; assumption.
  - assumption.
Qed.

Lemma keeps_try_except {A : Type} (m : M A) (h : exn -> M A) :
  keeps I P m -> (forall e, keeps I P (h e)) -> keeps I P (try_except m h).
Proof.
  intros Hm Hh w Hw. unfold try_except.
  specialize (Hm w Hw). destruct (m w) as [[[a | e] w1] t1]; cbn in *.
  - assumption.
  - destruct Hm as [Hw1 Ht1].
    specialize (Hh e w1 Hw1). destruct (h e w1) as [[r w2] t2]; cbn in *.
    destruct Hh as [Hw2 Ht2]. split; [assumption |].
    apply P_app; assumption.
Qed.

Lemma keeps_try_finally {A : Type} (m : M A) (f : M unit) :
  keeps I P m -> keeps I P f -> keeps I P (try_finally m f).
Proof.
  intros Hm Hf w Hw. unfold try_finally.
  specialize (Hm w Hw). destruct (m w) as [[r w1] t1]; cbn in *.
  destruct Hm as [Hw1 Ht1].
  specialize (Hf w1 Hw1). destruct (f w1) as [[[[] | e] w2] t2]; cbn in *;
    destruct Hf as [Hw2 Ht2]; (split; [assumption |]);
    apply P_app; assumption.
Qed.

Lemma keeps_for_each {A S : Type} (body : A -> S -> M (flow * S)) (l : list A) :
  (forall x s, keeps I P (body x s)) ->
  forall s, keeps I P (for_each body l s).
Proof.
  intros Hbody. induction l as [| x l IH]; intros s; cbn [for_each].
  - apply keeps_ret.
  - apply keeps_bind; [apply Hbody |].
    intros [[] s']; cbn [fst snd]; [apply IH | apply keeps_ret].
Qed.

Lemma keeps_for_all {A : Type} (body : A -> M unit) (l : list A) :
  (forall x, keeps I P (body x)) -> keeps I P (HoneyScraper.for_all body l).
Proof.
  intros Hbody. induction l as [| x l IH]; cbn [HoneyScraper.for_all].
  - apply keeps_ret.
  - apply keeps_bind; [apply Hbody | intros _; apply IH].
Qed.

End Keeps.

(** the steps that go through the combinators of a computation; the two
    side conditions on the property of the trace come first *)
Ltac keep_step Hnil Happ :=
  match goal with
  | |- keeps _ _ (bind _ _) => apply (keeps_bind _ _ Happ); [| intros ?]
  | |- keeps _ _ (ret _) => apply (keeps_ret _ _ Hnil)
  | |- keeps _ _ (raise _) => apply (keeps_raise _ _ Hnil)
  | |- keeps _ _ (lift _) => apply (keeps_lift _ _ Hnil)
  | |- keeps _ _ the_world => apply (keeps_the_world _ _ Hnil)
  | |- keeps _ _ (try_except _ _) => apply (keeps_try_except _ _ Happ); [| intros ?]
  | |- keeps _ _ (try_finally _ _) => apply (keeps_try_finally _ _ Happ)
  | |- keeps _ _ (for_each _ _ _) => apply (keeps_for_each _ _ Hnil Happ); intros ? ?
  | |- keeps _ _ (HoneyScraper.for_all _ _) =>
      apply (keeps_for_all _ _ Hnil Happ); intros ?
  | |- keeps _ _ (if ?b then _ else _) => destruct b
  | |- keeps _ _ (match ?x with _ => _ end) => destruct x
  | |- keeps _ _ (let '(_, _) := ?x in _) => destruct x
  end.

(** ** Requests that follow a sleep *)

Lemma paced_after_weaken (d : Q) (prev : option event) (t : list event) :
  paced d t -> paced_after d prev t.
Proof.
  unfold paced. destruct t as [| ev t]; cbn; [trivial |].
  intros [Hev Ht]. split; [| assumption].
  destruct ev; try exact Logic.I.
  destruct (is_lookup r); [contradiction | exact Logic.I].
Qed.

Lemma paced_after_app (d : Q) (t1 t2 : list event) :
  forall prev, paced_after d prev t1 -> paced d t2 -> paced_after d prev (t1 ++ t2).
Proof.
  induction t1 as [| ev t1 IH]; intros prev H1 H2; cbn [app].
  - apply paced_after_weaken. assumption.
  - cbn in H1 |- *. destruct H1 as [Hev H1]. split; [assumption |].
    apply IH; assumption.
Qed.

Lemma paced_nil (d : Q) : paced d [].
Proof. exact Logic.I. Qed.

Lemma paced_app (d : Q) (t1 t2 : list event) :
  paced d t1 -> paced d t2 -> paced d (t1 ++ t2).
Proof. apply paced_after_app. Qed.

Lemma paced_after_spec (d : Q) (t : list event) :
  forall prev t1 r a t2,
    paced_after d prev t ->
    t = t1 ++ Requested r a :: t2 ->
    is_lookup r = true ->
    match t1 with
    | [] => exists q, prev = Some (Slept q) /\ (d <= q)%Q
    | _ => exists t0 q, t1 = t0 ++ [Slept q] /\ (d <= q)%Q
    end.
Proof.
  induction t as [| ev t IH]; intros prev t1 r a t2 Hp Ht Hr.
  - destruct t1; discriminate.
  - cbn in Hp. destruct Hp as [Hev Hp].
    destruct t1 as [| ev1 t1]; cbn [app] in Ht; injection Ht as -> ->.
    + rewrite Hr in Hev. destruct prev as [[q | | | |] |]; try contradiction.
      exists q. split; [reflexivity | assumption].
    + specialize (IH (Some ev1) t1 r a t2 Hp eq_refl Hr).
      destruct t1 as [| ev2 t1].
      * destruct IH as (q & [= ->] & Hq). exists [], q. split; [reflexivity | assumption].
      * destruct IH as (t0 & q & -> & Hq). exists (ev1 :: t0), q.
        split; [reflexivity | assumption].
Qed.

Lemma paced_spec (d : Q) (t : list event) : paced d t -> lookups_follow_sleeps d t.
Proof.
  intros Hp t1 r a t2 Ht Hr.
  pose proof (paced_after_spec d t None t1 r a t2 Hp Ht Hr) as H.
  destruct t1 as [| ev t1]; [| assumption].
  destruct H as (q & Hq & _). discriminate.
Qed.

Lemma retry_loop_paced (d : Q) (E : env) (r : request) (path : string) (miss : json)
      (n : nat) :
  forall (a : nat) (q : Q) (w : world),
    (d <= q)%Q ->
    paced d (snd (HoneyScraper.retry_loop E r path miss n a q w)).
Proof.
  induction n as [| n IH]; intros a q w Hq.
  - exact Logic.I.
  - destruct (Qle_bool 0 q) eqn:Hq0.
    + rewrite retry_loop_step by assumption.
      assert (Hev : forall v t, paced d t -> paced d (attempt_events r a q v ++ t)).
      { intros v t Ht. apply paced_app; [| assumption].
        destruct v; cbn [attempt_events];
          try destruct (Nat.ltb a (HoneyScraper.max_retries - 1));
          unfold paced; cbn; destruct (is_lookup r); repeat split; assumption. }
      destruct (verdict_at E r path miss a) eqn:Hv; cbn [attempt_turn].
      * specialize (IH (S a) (q * 2)%Q (HoneyScraper.operator w)).
        rewrite <- Hv.
        destruct (HoneyScraper.retry_loop _ _ _ _ _ _ _ _) as [[x w'] t]; cbn [snd] in *.
        apply Hev, IH. apply Qle_bool_iff in Hq0. lra.
      * specialize (IH (S a) (q * (3 # 2))%Q (HoneyScraper.operator w)).
        rewrite <- Hv.
        destruct (HoneyScraper.retry_loop _ _ _ _ _ _ _ _) as [[x w'] t]; cbn [snd] in *.
        apply Hev, IH. apply Qle_bool_iff in Hq0. lra.
      * cbn [snd]. rewrite <- (app_nil_r (attempt_events _ _ _ _)).
        apply Hev, paced_nil.
      * cbn [snd]. rewrite <- (app_nil_r (attempt_events _ _ _ _)).
        apply Hev, paced_nil.
    + rewrite retry_loop_negative by assumption. exact Logic.I.
Qed.

Lemma self_delay_iter_operator (k : nat) (w : world) :
  self_delay (Nat.iter k HoneyScraper.operator w) = self_delay w.
Proof.
  induction k as [| k IH]; [reflexivity |].
  rewrite Nat.iter_succ, self_delay_operator. assumption.
Qed.

Lemma get_store_ids_by_domain_paced (d : Q) (E : env) (domain : json) :
  keeps (fun w => self_delay w = d) (paced d) (HoneyScraper.get_store_ids_by_domain E domain).
Proof.
  intros w Hw. rewrite get_store_ids_by_domain_unfold. split.
  - destruct (retry_loop_uniform E (PartialsByDomain domain) "getPartialURLsByDomain"
                                 (JArr []) HoneyScraper.max_retries 0 (self_delay w))
      as (v & k & t & _ & Hrun).
    rewrite Hrun. cbn [fst snd]. rewrite self_delay_iter_operator. assumption.
  - apply retry_loop_paced. rewrite Hw. lra.
Qed.

Lemma get_store_details_paced (d : Q) (E : env) (store_id : json)
      (max_ugc success_count : Z) :
  keeps (fun w => self_delay w = d) (paced d)
        (HoneyScraper.get_store_details E store_id max_ugc success_count).
Proof.
  intros w Hw. rewrite get_store_details_unfold. split.
  - destruct (retry_loop_uniform E (StoreById store_id max_ugc success_count)
                                 "getStoreById" JNull HoneyScraper.max_retries 0
                                 (self_delay w))
      as (v & k & t & _ & Hrun).
    rewrite Hrun. cbn [fst snd]. rewrite self_delay_iter_operator. assumption.
  - apply retry_loop_paced. rewrite Hw. lra.
Qed.

(** the steps of the run outside the lookups: they issue no request of a
    lookup and leave the delay alone *)
Ltac paced_leaf :=
  match goal with
  | |- keeps _ _ (HoneyScraper.get_store_ids_by_domain _ _) =>
      apply get_store_ids_by_domain_paced
  | |- keeps _ _ (HoneyScraper.get_store_details _ _ _ _) =>
      apply get_store_details_paced
  | |- keeps _ _ (modify HoneyScraper.operator) =>
      apply (keeps_modify _ _ (paced_nil _)); intros ? ?;
      rewrite self_delay_operator; assumption
  | |- keeps _ _ (modify _) =>
      apply (keeps_modify _ _ (paced_nil _)); intros ? ?; assumption
  | |- keeps _ _ (emit _) => apply keeps_emit; repeat split
  end.

Ltac paced_run :=
  repeat first
         [ paced_leaf
         | match goal with
           | |- keeps _ (paced ?d) _ => keep_step (paced_nil d) (paced_app d)
           end
         | progress unfold HoneyScraper.session_get, HoneyScraper.time_ms,
           HoneyScraper.connect, HoneyScraper.execute, HoneyScraper.commit,
           HoneyScraper.rollback, HoneyScraper.close, HoneyScraper.bind_text,
           HoneyScraper._store_exists, HoneyScraper._domain_scraped,
           HoneyScraper._mark_domain_scraped, HoneyScraper.insert_child,
           HoneyScraper._save_store_to_db, HoneyScraper.get_supported_domains,
           Dashboard.update_scraper_state, Dashboard.read ].

Lemma scrape_all_stores_paced (d : Q) (E : env) (max_domains : option Z)
      (skip_existing : bool) :
  keeps (fun w => self_delay w = d) (paced d)
        (HoneyScraper.scrape_all_stores E max_domains skip_existing).
Proof.
  unfold HoneyScraper.scrape_all_stores, HoneyScraper.each_domain,
    HoneyScraper.each_mapping.
  paced_run.
Qed.

Lemma monitored_scrape_all_stores_paced (d : Q) (E : env) (max_domains : option Z)
      (skip_existing : bool) :
  keeps (fun w => self_delay w = d) (paced d)
        (MonitoredScraper.scrape_all_stores E max_domains skip_existing).
Proof.
  unfold MonitoredScraper.scrape_all_stores, MonitoredScraper.scrape,
    MonitoredScraper.each_domain, MonitoredScraper.each_mapping,
    MonitoredScraper.count_scraped, MonitoredScraper.get_store_ids_by_domain,
    MonitoredScraper.get_store_details, MonitoredScraper.note_success,
    MonitoredScraper.count_error.
  paced_run.
Qed.

(** X4.  In a whole run, of the base scraper or of the monitored one, every
    request of a lookup (for the mappings of a domain, for the record of a
    store) comes directly after a sleep at least as long as the scraper's
    delay: whatever precedes the request in the trace ends with such a sleep.
    The run leaves the delay as it found it. *)
Theorem every_lookup_request_follows_a_sleep (E : env) (max_domains : option Z)
        (skip_existing : bool) (w : world) :
  (lookups_follow_sleeps (self_delay w)
     (snd (HoneyScraper.scrape_all_stores E max_domains skip_existing w))
   /\ self_delay (snd (fst (HoneyScraper.scrape_all_stores E max_domains skip_existing w)))
      = self_delay w)
  /\ (lookups_follow_sleeps (self_delay w)
        (snd (MonitoredScraper.scrape_all_stores E max_domains skip_existing w))
      /\ self_delay
           (snd (fst (MonitoredScraper.scrape_all_stores E max_domains skip_existing w)))
         = self_delay w).
Proof.
  destruct (scrape_all_stores_paced (self_delay w) E max_domains skip_existing w eq_refl)
    as [Hd1 Hp1].
  destruct (monitored_scrape_all_stores_paced (self_delay w) E max_domains skip_existing
                                              w eq_refl)
    as [Hd2 Hp2].
  repeat split; try assumption; apply paced_spec; assumption.
Qed.

(** ** A run with a limit *)

Lemma preserves_weaken {A : Type} (I : world -> Prop) (T T' : event -> Prop) (m : M A) :
  (forall ev, T ev -> T' ev) -> preserves I T m -> preserves I T' m.
Proof.
  intros HT Hm w Hw. destruct (Hm w Hw) as [Hw' Ht].
  split; [assumption |]. revert Ht. apply Forall_impl. exact HT.
Qed.

Lemma preserves_for_each_in {A S : Type} (I : world -> Prop) (T : event -> Prop)
      (body : A -> S -> M (flow * S)) (l : list A) :
  (forall x s, In x l -> preserves I T (body x s)) ->
  forall s, preserves I T (for_each body l s).
Proof.
  induction l as [| x l IH]; intros Hbody s; cbn [for_each].
  - apply preserves_ret.
  - apply preserves_bind; [apply Hbody; left; reflexivity |].
    intros [[] s']; cbn [fst snd]; [| apply preserves_ret].
    apply IH. intros y s0 Hy. apply Hbody. right. assumption.
Qed.

Lemma preserves_bind_run {A B : Type} (I : world -> Prop) (T : event -> Prop)
      (m : M A) (f : A -> M B) (a : A) :
  (forall w, I w -> exists w1 t1, m w = (Val a, w1, t1) /\ I w1 /\ Forall T t1) ->
  preserves I T (f a) ->
  preserves I T (bind m f).
Proof.
  intros Hm Hf w Hw. unfold bind.
  destruct (Hm w Hw) as (w1 & t1 & -> & Hw1 & Ht1).
  specialize (Hf w1 Hw1). destruct (f a w1) as [[r w2] t2]; cbn in *.
  destruct Hf as [Hw2 Ht2]. split; [assumption |].
  apply Forall_app. split; assumption.
Qed.

Lemma preserves_bind_lift {A B : Type} (I : world -> Prop) (T : event -> Prop)
      (f : A -> M B) (a : A) :
  preserves I T (f a) -> preserves I T (bind (lift (Val a)) f).
Proof.
  intros Hf. apply (preserves_bind_run _ _ _ _ a); [| assumption].
  intros w Hw. exists w, []. repeat split; [assumption | constructor].
Qed.

Lemma retry_loop_own_transport (E : env) (r : request) (path : string) (miss : json)
      (n : nat) :
  forall (a : nat) (q : Q),
    preserves (fun _ => True) (own_transport r) (HoneyScraper.retry_loop E r path miss n a q).
Proof.
  induction n as [| n IH]; intros a q w _.
  - cbn. split; [exact Logic.I | constructor].
  - split; [exact Logic.I |].
    destruct (Qle_bool 0 q) eqn:Hq0.
    + rewrite retry_loop_step by assumption.
      assert (Hev : forall v, Forall (own_transport r) (attempt_events r a q v)).
      { intros v. destruct v; cbn [attempt_events];
          try destruct (Nat.ltb a (HoneyScraper.max_retries - 1));
          repeat constructor. }
      destruct (verdict_at E r path miss a) eqn:Hv; cbn [attempt_turn].
      * destruct (IH (S a) (q * 2)%Q (HoneyScraper.operator w) Logic.I) as [_ IH'].
        rewrite <- Hv.
        destruct (HoneyScraper.retry_loop _ _ _ _ _ _ _ _) as [[x w'] t]; cbn [snd] in *.
        apply Forall_app. split; [apply Hev | assumption].
      * destruct (IH (S a) (q * (3 # 2))%Q (HoneyScraper.operator w) Logic.I) as [_ IH'].
        rewrite <- Hv.
        destruct (HoneyScraper.retry_loop _ _ _ _ _ _ _ _) as [[x w'] t]; cbn [snd] in *.
        apply Forall_app. split; [apply Hev | assumption].
      * apply (Hev Unexpected).
      * apply (Hev (Answered v)).
    + rewrite retry_loop_negative by assumption. constructor.
Qed.

Lemma get_store_ids_by_domain_touches (E : env) (allowed : list json) (d : json) :
  In d allowed ->
  preserves (fun _ => True) (touches_only E allowed) (HoneyScraper.get_store_ids_by_domain E d).
Proof.
  intros Hd w Hw. rewrite get_store_ids_by_domain_unfold.
  apply (preserves_weaken (fun _ => True) (own_transport (PartialsByDomain d))
                          (touches_only E allowed));
    [| apply retry_loop_own_transport | exact Hw].
  intros [q | r a | | |]; cbn; try contradiction; try (intros _; exact Logic.I).
  intros ->. assumption.
Qed.

Lemma get_store_details_touches (E : env) (allowed : list json) (store_id : json)
      (max_ugc success_count : Z) :
  preserves (fun _ => True) (touches_only E allowed)
            (HoneyScraper.get_store_details E store_id max_ugc success_count).
Proof.
  intros w Hw. rewrite get_store_details_unfold.
  apply (preserves_weaken (fun _ => True)
                          (own_transport (StoreById store_id max_ugc success_count))
                          (touches_only E allowed));
    [| apply retry_loop_own_transport | exact Hw].
  intros [q | r a | | |]; cbn; try contradiction; try (intros _; exact Logic.I).
  intros ->. exact Logic.I.
Qed.

Lemma mark_domain_scraped_touches (E : env) (allowed : list json) (d : json) (n : nat) :
  In d allowed ->
  preserves (fun _ => True) (touches_only E allowed) (HoneyScraper._mark_domain_scraped E d n).
Proof.
  intros Hd w _. rewrite mark_domain_scraped_run.
  destruct (Sql.bind_param d) as [v | e] eqn:Hv; cbn [fst snd];
    (split; [exact Logic.I |]); repeat constructor.
  exists d, v. repeat split; assumption.
Qed.

Ltac touches_leaf :=
  match goal with
  | |- preserves _ _ (HoneyScraper.get_store_ids_by_domain _ _) =>
      apply get_store_ids_by_domain_touches; assumption
  | |- preserves _ _ (HoneyScraper.get_store_details _ _ _ _) =>
      apply get_store_details_touches
  | |- preserves _ _ (HoneyScraper._mark_domain_scraped _ _ _) =>
      apply mark_domain_scraped_touches; assumption
  | |- preserves _ _ (modify _) =>
      apply preserves_modify; intros ? ?; exact Logic.I
  | |- preserves _ _ (emit _) => apply preserves_emit; exact Logic.I
  end.

Ltac touches_run :=
  repeat first
         [ touches_leaf
         | preserve_step
         | progress unfold HoneyScraper.session_get, HoneyScraper.time_ms,
           HoneyScraper.connect, HoneyScraper.execute, HoneyScraper.commit,
           HoneyScraper.rollback, HoneyScraper.close, HoneyScraper.bind_text,
           HoneyScraper._store_exists, HoneyScraper._domain_scraped,
           HoneyScraper.insert_child,
           HoneyScraper._save_store_to_db, HoneyScraper.get_supported_domains,
           Dashboard.update_scraper_state, Dashboard.read ].

Lemma get_supported_domains_list (E : env) (items : list json) (w : world) :
  api E SupportedDomains 0 = ok (JArr items) ->
  HoneyScraper.get_supported_domains E w
  = (Val (JArr items), HoneyScraper.operator w, [Requested SupportedDomains 0]).
Proof.
  intros Hapi.
  unfold HoneyScraper.get_supported_domains, HoneyScraper.session_get,
    try_except, bind, emit, modify, lift, ret.
  rewrite Hapi. reflexivity.
Qed.

(** X5.  A run with the limit [n], a number other than zero, on a list of
    domains concerns none but the domains [domains[:n]], the first [n] of the
    list when [n] is positive: every request for mappings asks for one of
    them, and every marker is written under the key of one of them.  The same
    holds of the monitored run. *)
Theorem limited_run_stays_within_the_limit (E : env) (items : list json) (n : Z)
        (skip_existing : bool) (w : world) :
  api E SupportedDomains 0 = ok (JArr items) ->
  n <> 0%Z ->
  Forall (touches_only E (Py.take n items))
         (snd (HoneyScraper.scrape_all_stores E (Some n) skip_existing w))
  /\ Forall (touches_only E (Py.take n items))
            (snd (MonitoredScraper.scrape_all_stores E (Some n) skip_existing w)).
Proof.
  intros Hapi Hn.
  assert (Hlimit : HoneyScraper.limit (Some n) = Some n).
  { unfold HoneyScraper.limit. apply Z.eqb_neq in Hn. rewrite Hn. reflexivity. }
  split.
  - unfold HoneyScraper.scrape_all_stores. unfold bind at 1.
    rewrite (get_supported_domains_list E items w Hapi), Hlimit.
    destruct (negb (Py.truthy (JArr items))); [repeat constructor |].
    cbn -[for_each Py.take].
    pose proof (preserves_for_each_in (fun _ => True) (touches_only E (Py.take n items))
                  (HoneyScraper.each_domain E skip_existing) (Py.take n items)) as H.
    destruct (H ltac:(intros x s Hx; unfold HoneyScraper.each_domain,
                        HoneyScraper.each_mapping; touches_run)
                HoneyScraper.no_locals (HoneyScraper.operator w) Logic.I) as [_ Ht].
    destruct (for_each _ _ _ _) as [[r w'] t]. cbn [snd] in *.
    repeat constructor. assumption.
  - assert (Hloop : forall l,
               preserves (fun _ => True) (touches_only E (Py.take n items))
                         (for_each (MonitoredScraper.each_domain E skip_existing)
                                   (Py.take n items) l)).
    { apply preserves_for_each_in. intros x s Hx.
      unfold MonitoredScraper.each_domain, MonitoredScraper.each_mapping,
        MonitoredScraper.get_store_ids_by_domain, MonitoredScraper.get_store_details,
        MonitoredScraper.note_success, MonitoredScraper.count_error.
      touches_run. }
    assert (Hscrape : preserves (fun _ => True) (touches_only E (Py.take n items))
                                (MonitoredScraper.scrape E (Some n) skip_existing)).
    { unfold MonitoredScraper.scrape.
      apply (preserves_bind_run _ _ _ _ (JArr items)).
      { intros w0 _. exists (HoneyScraper.operator w0), [Requested SupportedDomains 0].
        split; [apply get_supported_domains_list; assumption |].
        split; [exact Logic.I | repeat constructor]. }
      destruct (negb (Py.truthy (JArr items))); [touches_run |].
      apply preserves_bind; [touches_run | intros _].
      rewrite Hlimit. cbn [Py.slice_to].
      apply preserves_bind_lift. cbn [Py.iter]. apply preserves_bind_lift.
      apply preserves_bind.
      { destruct skip_existing; [| touches_run].
        unfold MonitoredScraper.count_scraped. touches_run. }
      intros [|]; [touches_run |].
      apply preserves_bind; [touches_run | intros ?].
      apply preserves_bind; [touches_run | intros ?].
      apply Hloop. }
    assert (Hrun : preserves (fun _ => True) (touches_only E (Py.take n items))
                             (MonitoredScraper.scrape_all_stores E (Some n) skip_existing)).
    { unfold MonitoredScraper.scrape_all_stores. touches_run. apply Hscrape. }
    apply (Hrun w Logic.I).
Qed.

Lemma limited_run_stays_within_the_limit_witness :
  Forall (touches_only (env_of api_failing) [JStr "a.com"; JStr "b.com"])
         (snd (HoneyScraper.scrape_all_stores (env_of api_failing) (Some 2%Z) true
                                              (initial_world (1 # 2)))).
Proof.
  exact (proj1 (limited_run_stays_within_the_limit
                  (env_of api_failing) [JStr "a.com"; JStr "b.com"; JStr "c.com"] 2 true
                  (initial_world (1 # 2)) eq_refl ltac:(discriminate))).
Defined.

(** the limit is reached: the two domains are looked up and marked, the third
    is not *)
Lemma limited_run_reaches_the_limit :
  let t := snd (HoneyScraper.scrape_all_stores (env_of api_failing) (Some 2%Z) true
                                               (initial_world (1 # 2))) in
  mapping_lookups t = [JStr "a.com"; JStr "b.com"]
  /\ map fst (markers t) = [Some "a.com"; Some "b.com"].
Proof. cbv zeta. split; vm_compute; reflexivity. Qed.

(** ** The state the monitored run leaves *)

(** X6.  However a monitored run ends, by returning or by raising, it leaves
    the dashboard's state not running, with no current domain and with the
    stop flag cleared. *)
Theorem monitored_run_ends_not_running (E : env) (max_domains : option Z)
        (skip_existing : bool) (w : world) :
  let s := scraper_state
             (snd (fst (MonitoredScraper.scrape_all_stores E max_domains skip_existing w))) in
  running s = false /\ current_domain s = None /\ should_stop s = false.
Proof.
  unfold MonitoredScraper.scrape_all_stores, try_finally, bind,
    Dashboard.update_scraper_state, modify, the_world, ret.
  cbn -[MonitoredScraper.scrape].
  destruct (MonitoredScraper.scrape E max_domains skip_existing _) as [[r w1] t1].
  cbn. repeat split.
Qed.

(** a run that raises: the mappings of [a.com] are not objects *)
Lemma monitored_run_can_raise :
  fst (fst (MonitoredScraper.scrape_all_stores
              (env_of (fun r _ =>
                         match r with
                         | SupportedDomains => ok (JArr [JStr "a.com"])
                         | _ => ok (enveloped "getPartialURLsByDomain" (JArr [JStr "S1"]))
                         end))
              None true (initial_world (1 # 2))))
  = Exc AttributeError.
Proof. vm_compute. reflexivity. Qed.

(** X7.  A stop request that arrives while no run is in progress is
    forgotten: the next monitored run clears the flag before it looks at it,
    and does what it would have done without the request. *)
Theorem stop_before_the_run_is_forgotten (E : env) (max_domains : option Z)
        (skip_existing : bool) (w : world) :
  MonitoredScraper.scrape_all_stores E max_domains skip_existing (api_scraper_stop w)
  = MonitoredScraper.scrape_all_stores E max_domains skip_existing w.
Proof.
  unfold MonitoredScraper.scrape_all_stores.
  unfold bind at 1 2. unfold bind at 2 3.
  unfold Dashboard.update_scraper_state at 1 2 8 9, modify.
  unfold api_scraper_stop. destruct w as [d tx s q inst c stop]. cbn [scraper_state set_scraper_state db txn self_delay scraper_instance clock stop_request_in].
  destruct s. reflexivity.
Qed.

(** ** The start endpoint *)

(** X8.  A delay that the delay endpoint accepts is the delay of the run that
    is started next, whether or not a scraper existed when it was posted: the
    start endpoint creates the scraper with the delay of the state
    dictionary, and every lookup request of its run follows a sleep of at
    least that many seconds. *)
Theorem posted_delay_is_the_delay_of_the_next_run
        (int_of_str : string -> option Z) (E : env) (d : Q) (data : json)
        (w w1 : world) (max_domains : option Z) (skip_existing : bool) :
  (0 <= d <= 10)%Q ->
  api_scraper_start int_of_str data (snd (api_scraper_delay d w))
  = (Started max_domains skip_existing, w1) ->
  fst (api_scraper_delay d w) = Ok200 d
  /\ self_delay w1 = d
  /\ lookups_follow_sleeps
       d (snd (MonitoredScraper.scrape_all_stores E max_domains skip_existing w1)).
Proof.
  intros [Hd0 Hd10] Hstart.
  assert (Hdelay : fst (api_scraper_delay d w) = Ok200 d
                   /\ delay (scraper_state (snd (api_scraper_delay d w))) = d).
  { unfold api_scraper_delay.
    destruct (Qlt_le_dec d 0) as [H | _]; [lra |].
    destruct (Qlt_le_dec 10 d) as [H | _]; [lra |].
    destruct (scraper_instance _); split; reflexivity. }
  destruct Hdelay as [Hreply Hstate]. split; [assumption |].
  assert (Hself : self_delay w1 = d).
  { revert Hstart. unfold api_scraper_start.
    destruct (running _); [discriminate |].
    destruct (Py.get_default _ "max_domains" _) as [m | e]; [| discriminate].
    destruct (Py.get_default _ "skip_existing" _) as [s | e]; [| discriminate].
    destruct (if Py.truthy m then _ else _) as [md | []]; try discriminate.
    intros [= _ _ <-]. cbn. assumption. }
  split; [assumption |].
  apply paced_spec.
  apply (monitored_scrape_all_stores_paced d E max_domains skip_existing w1 Hself).
Qed.

Lemma posted_delay_is_the_delay_of_the_next_run_witness :
  let w := set_scraper_instance false (initial_world (1 # 2)) in
  let data := JObj [("max_domains", JInt 1)] in
  let w1 := snd (api_scraper_start (fun _ => None) data (snd (api_scraper_delay 2 w))) in
  fst (api_scraper_delay 2 w) = Ok200 2
  /\ self_delay w1 = 2%Q
  /\ lookups_follow_sleeps
       2 (snd (MonitoredScraper.scrape_all_stores (env_of api_two_stores)
                                                  (Some 1%Z) true w1)).
Proof.
  cbv zeta.
  apply (posted_delay_is_the_delay_of_the_next_run
           (fun _ => None) (env_of api_two_stores) 2 (JObj [("max_domains", JInt 1)])
           (set_scraper_instance false (initial_world (1 # 2)))).
  - split; discriminate.
  - reflexivity.
Defined.

(** X9.  A start request that is not accepted changes nothing: not when a run
    is in progress, not when the body or the limit is not what the endpoint
    can read.  A start request that is accepted touches neither the file nor
    the running flag, which stays false until the run itself sets it. *)
Theorem refused_start_changes_nothing (int_of_str : string -> option Z) (data : json)
        (w : world) :
  match api_scraper_start int_of_str data w with
  | (Started _ _, w') =>
      running (scraper_state w) = false
      /\ running (scraper_state w') = false
      /\ db w' = db w
      /\ self_delay w' = delay (scraper_state w)
  | (_, w') => w' = w
  end
  /\ (running (scraper_state w) = true ->
      fst (api_scraper_start int_of_str data w)
      = StartError400 "Scraper is already running").
Proof.
  unfold api_scraper_start.
  destruct (running (scraper_state w)) eqn:Hrun; [split; reflexivity |].
  split; [| discriminate].
  destruct (Py.get_default _ "max_domains" _) as [m | e]; [| reflexivity].
  destruct (Py.get_default _ "skip_existing" _) as [s | e]; [| reflexivity].
  destruct (if Py.truthy m then _ else _) as [md | []]; try reflexivity.
  cbn. rewrite Hrun. repeat split.
Qed.

(** ** The file a save leaves *)

Lemma insert_all_coupon_rows (k : key) (rows : list (list sqlval)) :
  forall d,
    insert_all Sql.insert_coupon k rows d
    = {| stores := stores d;
         coupons := coupons d ++ new_rows k (coupons_seq d) rows;
         coupons_seq := coupons_seq d + Z.of_nat (List.length rows);
         partial_urls := partial_urls d; partial_urls_seq := partial_urls_seq d;
         scraped_domains := scraped_domains d |}.
Proof.
  unfold insert_all.
  induction rows as [| cols rows IH]; intros d; cbn [fold_left new_rows List.length].
  - rewrite List.app_nil_r, Z.add_0_r. destruct d; reflexivity.
  - rewrite IH. unfold Sql.insert_coupon at 2 3 4 5 6 7; cbn [stores coupons coupons_seq partial_urls partial_urls_seq scraped_domains].
    rewrite <- List.app_assoc. cbn [app].
    f_equal. lia.
Qed.

Lemma insert_all_partial_url_rows (k : key) (rows : list (list sqlval)) :
  forall d,
    insert_all Sql.insert_partial_url k rows d
    = {| stores := stores d;
         coupons := coupons d; coupons_seq := coupons_seq d;
         partial_urls := partial_urls d ++ new_rows k (partial_urls_seq d) rows;
         partial_urls_seq := partial_urls_seq d + Z.of_nat (List.length rows);
         scraped_domains := scraped_domains d |}.
Proof.
  unfold insert_all.
  induction rows as [| cols rows IH]; intros d; cbn [fold_left new_rows List.length].
  - rewrite List.app_nil_r, Z.add_0_r. destruct d; reflexivity.
  - rewrite IH. unfold Sql.insert_partial_url at 2 3 4 5 6 7; cbn [stores coupons coupons_seq partial_urls partial_urls_seq scraped_domains].
    rewrite <- List.app_assoc. cbn [app].
    f_equal. lia.
Qed.

(** the file after the statements of one save *)
Lemma write_plan_file (p : save_plan) (d : database) :
  write_plan p d
  = let k := store_id (plan_store p) in
    {| stores := filter (fun r => negb (Sql.eq (store_id r) k)) (stores d) ++ [plan_store p];
       coupons := Sql.delete_owned k (coupons d)
                  ++ new_rows k (coupons_seq d) (plan_coupons p);
       coupons_seq := coupons_seq d + Z.of_nat (List.length (plan_coupons p));
       partial_urls := Sql.delete_owned k (partial_urls d)
                       ++ new_rows k (partial_urls_seq d) (plan_partial_urls p);
       partial_urls_seq :=
         partial_urls_seq d + Z.of_nat (List.length (plan_partial_urls p));
       scraped_domains := scraped_domains d |}.
Proof.
  unfold write_plan. rewrite insert_all_partial_url_rows, insert_all_coupon_rows.
  reflexivity.
Qed.

(** ** What the crawl keeps true of the file *)

Section FileInvariant.

(** a property of the file that every save and every marker keeps *)
Variable P : database -> Prop.
Hypothesis P_save : forall p d, P d -> P (write_plan p d).
Hypothesis P_mark : forall r d, P d -> P (Sql.replace_domain r d).

Variable E : env.

Lemma file_operator (w : world) : P (db w) -> P (db (HoneyScraper.operator w)).
Proof.
  unfold HoneyScraper.operator.
  destruct (stop_request_in w) as [[| n] |]; trivial.
Qed.

Lemma file_save (domain sid partial_url details : json) :
  preserves (fun w => P (db w)) (fun _ => True)
            (HoneyScraper._save_store_to_db E domain sid partial_url details).
Proof.
  intros w Hw. rewrite save_run.
  destruct (plan_of E domain sid partial_url details) as [p | e]; cbn [fst snd];
    (split; [| repeat constructor]); cbn; auto.
Qed.

Lemma file_mark (dom : json) (n : nat) :
  preserves (fun w => P (db w)) (fun _ => True) (HoneyScraper._mark_domain_scraped E dom n).
Proof.
  intros w Hw. rewrite mark_domain_scraped_run.
  destruct (Sql.bind_param dom) as [v | e]; cbn [fst snd];
    (split; [| repeat constructor]); cbn; auto.
Qed.

Lemma file_store_exists (sid : json) :
  preserves (fun w => P (db w)) (fun _ => True) (HoneyScraper._store_exists E sid).
Proof.
  intros w Hw. rewrite store_exists_run.
  destruct (Sql.bind_param sid) as [v | e]; cbn [fst snd];
    (split; [| repeat constructor]); cbn; auto.
Qed.

Lemma file_domain_scraped (dom : json) :
  preserves (fun w => P (db w)) (fun _ => True) (HoneyScraper._domain_scraped E dom).
Proof.
  intros w Hw. rewrite domain_scraped_run.
  destruct (Sql.bind_param dom) as [v | e]; cbn [fst snd];
    (split; [| repeat constructor]); cbn; auto.
Qed.

End FileInvariant.

Ltac file_leaf Hsave Hmark :=
  match goal with
  | |- preserves _ _ (HoneyScraper._save_store_to_db _ _ _ _ _) =>
      apply (file_save _ Hsave)
  | |- preserves _ _ (HoneyScraper._mark_domain_scraped _ _ _) =>
      apply (file_mark _ Hmark)
  | |- preserves _ _ (HoneyScraper._store_exists _ _) => apply file_store_exists
  | |- preserves _ _ (HoneyScraper._domain_scraped _ _) => apply file_domain_scraped
  | |- preserves _ _ (HoneyScraper.retry_loop _ _ _ _ _ _ _) =>
      apply retry_loop_frame; apply file_operator
  | |- preserves _ _ (modify HoneyScraper.operator) =>
      apply preserves_modify; apply file_operator
  | |- preserves _ _ (modify _) =>
      apply preserves_modify; intros ? ?; assumption
  | |- preserves _ _ (emit _) => apply preserves_emit; exact Logic.I
  end.

Ltac file_run Hsave Hmark :=
  repeat first
         [ file_leaf Hsave Hmark
         | preserve_step
         | progress unfold HoneyScraper.session_get,
           HoneyScraper.get_supported_domains,
           HoneyScraper.get_store_ids_by_domain, HoneyScraper.get_store_details,
           Dashboard.update_scraper_state, Dashboard.read ].

(** Both crawls keep every property of the file that a save and a marker
    keep. *)
Lemma crawl_keeps_the_file (P : database -> Prop) (E : env) (max_domains : option Z)
      (skip_existing : bool) :
  (forall p d, P d -> P (write_plan p d)) ->
  (forall r d, P d -> P (Sql.replace_domain r d)) ->
  preserves (fun w => P (db w)) (fun _ => True)
            (HoneyScraper.scrape_all_stores E max_domains skip_existing)
  /\ preserves (fun w => P (db w)) (fun _ => True)
               (MonitoredScraper.scrape_all_stores E max_domains skip_existing).
Proof.
  intros Hsave Hmark. split.
  - unfold HoneyScraper.scrape_all_stores, HoneyScraper.each_domain,
      HoneyScraper.each_mapping.
    file_run Hsave Hmark.
  - unfold MonitoredScraper.scrape_all_stores, MonitoredScraper.scrape,
      MonitoredScraper.each_domain, MonitoredScraper.each_mapping,
      MonitoredScraper.count_scraped, MonitoredScraper.get_store_ids_by_domain,
      MonitoredScraper.get_store_details, MonitoredScraper.note_success,
      MonitoredScraper.count_error.
    file_run Hsave Hmark.
Qed.

Lemma sql_eq_true (a b : key) : Sql.eq a b = true -> a = b /\ a <> None.
Proof.
  destruct a as [x |], b as [y |]; cbn; try discriminate.
  intros H. apply String.eqb_eq in H. subst. split; [reflexivity | discriminate].
Qed.

Lemma store_ids_replace_store (r : store_row) (d : database) (k : key) :
  In k (store_ids d) -> In k (store_ids (Sql.replace_store r d)).
Proof.
  unfold store_ids, Sql.replace_store. cbn [stores].
  rewrite map_app, in_app_iff. intros H.
  apply in_map_iff in H. destruct H as (r0 & <- & Hr0).
  destruct (Sql.eq (store_id r0) (store_id r)) eqn:Heq.
  - right. apply sql_eq_true in Heq. destruct Heq as [-> _]. left. reflexivity.
  - left. apply in_map. apply filter_In. split; [assumption |].
    rewrite Heq. reflexivity.
Qed.

Lemma store_ids_write_plan (p : save_plan) (d : database) (k : key) :
  In k (store_ids d) -> In k (store_ids (write_plan p d)).
Proof.
  intros H. rewrite write_plan_file. cbv zeta.
  apply (store_ids_replace_store (plan_store p)) in H. exact H.
Qed.

Lemma store_ids_write_plan_own (p : save_plan) (d : database) :
  In (store_id (plan_store p)) (store_ids (write_plan p d)).
Proof.
  rewrite write_plan_file. cbv zeta. unfold store_ids. cbn [stores].
  rewrite map_app, in_app_iff. right. left. reflexivity.
Qed.

Lemma new_rows_owner (k : key) (rows : list (list sqlval)) :
  forall seq r, In r (new_rows k seq rows) -> owner r = k.
Proof.
  induction rows as [| cols rows IH]; intros seq r; cbn [new_rows].
  - intros [].
  - intros [<- | H]; [reflexivity | apply (IH _ _ H)].
Qed.

Lemma new_rows_ids (k : key) (rows : list (list sqlval)) :
  forall seq r,
    In r (new_rows k seq rows) ->
    (seq < row_id r <= seq + Z.of_nat (List.length rows))%Z.
Proof.
  induction rows as [| cols rows IH]; intros seq r; cbn [new_rows List.length].
  - intros [].
  - intros [<- | H]; [cbn; lia |].
    specialize (IH _ _ H). lia.
Qed.

Lemma new_rows_nodup (k : key) (rows : list (list sqlval)) :
  forall seq, NoDup (map row_id (new_rows k seq rows)).
Proof.
  induction rows as [| cols rows IH]; intros seq; cbn [new_rows map].
  - constructor.
  - constructor; [| apply IH].
    rewrite in_map_iff. intros (r & Hid & Hr).
    apply new_rows_ids in Hr. cbn in Hid. lia.
Qed.

Lemma delete_owned_in (k : key) (rows : list child_row) (r : child_row) :
  In r (Sql.delete_owned k rows) -> In r rows /\ Sql.eq (owner r) k = false.
Proof.
  unfold Sql.delete_owned. rewrite filter_In. intros [H1 H2].
  split; [assumption |]. apply negb_true_iff. assumption.
Qed.

(** *** No orphans *)

Lemma store_found_replace_store (k : key) (r : store_row) (d : database) :
  Sql.store_found k d = true -> Sql.store_found k (Sql.replace_store r d) = true.
Proof.
  unfold Sql.store_found, Sql.replace_store. cbn [stores].
  rewrite existsb_app, !existsb_exists. intros (r0 & Hin & Heq).
  apply orb_true_iff.
  destruct (Sql.eq (store_id r0) (store_id r)) eqn:Hsame.
  - right. cbn [existsb]. apply sql_eq_true in Hsame. destruct Hsame as [<- _].
    rewrite Heq. reflexivity.
  - left. apply existsb_exists. exists r0. split; [| assumption].
    apply filter_In. split; [assumption |]. rewrite Hsame. reflexivity.
Qed.

Lemma store_found_write_plan (k : key) (p : save_plan) (d : database) :
  Sql.store_found k d = true -> Sql.store_found k (write_plan p d) = true.
Proof.
  intros H. rewrite write_plan_file. cbv zeta.
  apply (store_found_replace_store k (plan_store p)) in H. exact H.
Qed.

Lemma store_found_write_plan_key (p : save_plan) (d : database) :
  store_id (plan_store p) <> None ->
  Sql.store_found (store_id (plan_store p)) (write_plan p d) = true.
Proof.
  intros Hk. rewrite write_plan_file. cbv zeta.
  unfold Sql.store_found. cbn [stores].
  rewrite existsb_app. cbn [existsb].
  destruct (store_id (plan_store p)) as [s |]; [| contradiction].
  rewrite (sql_eq_refl s), orb_true_r. reflexivity.
Qed.

Lemma no_orphans_write_plan (p : save_plan) (d : database) :
  no_orphans d -> no_orphans (write_plan p d).
Proof.
  intros [Hc Hp].
  assert (Hrows : forall old seq rows r,
             (forall r, In r old -> owner r <> None -> Sql.store_found (owner r) d = true) ->
             In r (Sql.delete_owned (store_id (plan_store p)) old
                   ++ new_rows (store_id (plan_store p)) seq rows) ->
             owner r <> None ->
             Sql.store_found (owner r) (write_plan p d) = true).
  { intros old seq rows r Hold Hr Hn. apply in_app_iff in Hr. destruct Hr as [Hr | Hr].
    - apply store_found_write_plan, Hold; [| assumption].
      apply delete_owned_in in Hr. tauto.
    - rewrite (new_rows_owner _ _ _ _ Hr) in Hn |- *.
      apply store_found_write_plan_key. assumption. }
  split; intros r Hr Hn.
  - rewrite write_plan_file in Hr. cbv zeta in Hr. cbn [coupons] in Hr.
    apply (Hrows _ _ _ _ Hc Hr Hn).
  - rewrite write_plan_file in Hr. cbv zeta in Hr. cbn [partial_urls] in Hr.
    apply (Hrows _ _ _ _ Hp Hr Hn).
Qed.

Lemma no_orphans_replace_domain (r : domain_row) (d : database) :
  no_orphans d -> no_orphans (Sql.replace_domain r d).
Proof. intros H. exact H. Qed.

(** X10.  Neither crawl leaves an orphan in the file: when every coupon and
    every partial url whose [store_id] is not NULL has its store in the file
    before the run, by the comparison [store_id = ?] of the file itself, so
    it is after the run, however the run ends. *)
Theorem crawl_leaves_no_orphans (E : env) (max_domains : option Z)
        (skip_existing : bool) (w : world) :
  no_orphans (db w) ->
  no_orphans (db (snd (fst (HoneyScraper.scrape_all_stores E max_domains skip_existing w))))
  /\ no_orphans
       (db (snd (fst (MonitoredScraper.scrape_all_stores E max_domains skip_existing w)))).
Proof.
  intros Hw.
  destruct (crawl_keeps_the_file no_orphans E max_domains skip_existing
                                 no_orphans_write_plan no_orphans_replace_domain)
    as [Hbase Hmon].
  split; [apply (Hbase w Hw) | apply (Hmon w Hw)].
Qed.

Lemma crawl_leaves_no_orphans_witness :
  no_orphans (db (snd (fst (HoneyScraper.scrape_all_stores
                              (env_of api_with_coupons) None false file_with_a_coupon))))
  /\ no_orphans
       (db (snd (fst (MonitoredScraper.scrape_all_stores
                        (env_of api_with_coupons) None false file_with_a_coupon)))).
Proof.
  apply (crawl_leaves_no_orphans (env_of api_with_coupons) None false file_with_a_coupon).
  split.
  - intros r [<- | []] _. reflexivity.
  - intros r [].
Defined.

(** the run of the witness saves [S1] again: the coupon of id 1 goes, two
    coupons and a partial url come, all rows of [S1] *)
Lemma crawl_with_coupons_run :
  let d := db (snd (fst (HoneyScraper.scrape_all_stores
                           (env_of api_with_coupons) None false file_with_a_coupon))) in
  store_ids d = [Some "S1"]
  /\ map (fun r => (row_id r, owner r)) (coupons d) = [(2, Some "S1"); (3, Some "S1")]%Z
  /\ map (fun r => (row_id r, owner r)) (partial_urls d) = [(1, Some "S1")]%Z
  /\ coupons_seq d = 3%Z.
Proof. cbv zeta. repeat split; vm_compute; reflexivity. Qed.

(** *** One row for a key *)

Lemma text_keys_app (l1 l2 : list key) : text_keys (l1 ++ l2) = text_keys l1 ++ text_keys l2.
Proof. apply flat_map_app. Qed.

Lemma text_keys_in (s : string) (ks : list key) : In s (text_keys ks) <-> In (Some s) ks.
Proof.
  unfold text_keys. rewrite in_flat_map. split.
  - intros ([x |] & Hk & Hs); cbn in Hs; [| contradiction].
    destruct Hs as [-> | []]. assumption.
  - intros H. exists (Some s). split; [assumption | left; reflexivity].
Qed.

Lemma text_keys_cons (k : key) (ks : list key) :
  text_keys (k :: ks)
  = match k with
    | Some s => s :: text_keys ks
    | None => text_keys ks
    end.
Proof. destruct k; reflexivity. Qed.

Lemma filtered_keys_unique {A : Type} (key_of : A -> key) (f : A -> bool) (rows : list A) :
  NoDup (text_keys (map key_of rows)) ->
  NoDup (text_keys (map key_of (filter f rows))).
Proof.
  induction rows as [| r0 rows IH]; cbn [filter map]; [trivial |].
  rewrite text_keys_cons. intros H.
  assert (Hrows : NoDup (text_keys (map key_of rows))).
  { destruct (key_of r0); [apply NoDup_cons_iff in H; tauto | assumption]. }
  destruct (f r0); [| apply IH; assumption].
  cbn [map]. rewrite text_keys_cons.
  destruct (key_of r0) as [s |]; [| apply IH; assumption].
  apply NoDup_cons_iff in H. destruct H as [Hnot _].
  constructor; [| apply IH; assumption].
  intros Hin. apply Hnot.
  apply text_keys_in, in_map_iff in Hin. destruct Hin as (r1 & Hr1 & Hin).
  apply filter_In in Hin.
  apply text_keys_in, in_map_iff. exists r1. tauto.
Qed.

(** [INSERT OR REPLACE] on a table with a TEXT primary key, seen on the keys
    of its rows *)
Lemma replaced_keys_unique {A : Type} (key_of : A -> key) (rows : list A) (r : A) :
  NoDup (text_keys (map key_of rows)) ->
  NoDup (text_keys (map key_of
                        (filter (fun r' => negb (Sql.eq (key_of r') (key_of r))) rows
                         ++ [r]))).
Proof.
  intros H. rewrite map_app, text_keys_app.
  apply (filtered_keys_unique key_of (fun r' => negb (Sql.eq (key_of r') (key_of r))))
    in H.
  cbn [map]. rewrite text_keys_cons.
  destruct (key_of r) as [s |] eqn:Hk; [| rewrite List.app_nil_r; assumption].
  apply NoDup_app; [assumption | repeat constructor; intros [] |].
  intros x Hx [<- | []].
  apply text_keys_in, in_map_iff in Hx. destruct Hx as (r1 & Hr1 & Hin).
  apply filter_In in Hin. destruct Hin as [_ Hneq].
  rewrite Hr1 in Hneq. cbn in Hneq. rewrite String.eqb_refl in Hneq. discriminate.
Qed.

Lemma keys_unique_write_plan (p : save_plan) (d : database) :
  keys_unique d -> keys_unique (write_plan p d).
Proof.
  intros [Hs Hm]. rewrite write_plan_file. cbv zeta. split; [| exact Hm].
  unfold store_ids. cbn [stores]. apply replaced_keys_unique. exact Hs.
Qed.

Lemma keys_unique_replace_domain (r : domain_row) (d : database) :
  keys_unique d -> keys_unique (Sql.replace_domain r d).
Proof.
  intros [Hs Hm]. split; [exact Hs |].
  unfold marked_domains, Sql.replace_domain. cbn [scraped_domains].
  apply replaced_keys_unique. exact Hm.
Qed.

(** X11.  Neither crawl ever leaves two stores with the same key in the file,
    or two markers for the same domain: a file without such duplicates
    before the run has none after it, however often a store is saved or a
    domain marked. *)
Theorem crawl_keeps_one_row_for_a_key (E : env) (max_domains : option Z)
        (skip_existing : bool) (w : world) :
  keys_unique (db w) ->
  keys_unique (db (snd (fst (HoneyScraper.scrape_all_stores E max_domains skip_existing w))))
  /\ keys_unique
       (db (snd (fst (MonitoredScraper.scrape_all_stores E max_domains skip_existing w)))).
Proof.
  intros Hw.
  destruct (crawl_keeps_the_file keys_unique E max_domains skip_existing
                                 keys_unique_write_plan keys_unique_replace_domain)
    as [Hbase Hmon].
  split; [apply (Hbase w Hw) | apply (Hmon w Hw)].
Qed.

Lemma crawl_keeps_one_row_for_a_key_witness :
  keys_unique (db (snd (fst (HoneyScraper.scrape_all_stores
                               (env_of api_later_store) None false b_marked_before))))
  /\ keys_unique
       (db (snd (fst (MonitoredScraper.scrape_all_stores
                        (env_of api_later_store) None false b_marked_before)))).
Proof.
  apply (crawl_keeps_one_row_for_a_key (env_of api_later_store) None false b_marked_before).
  split; repeat constructor. intros [].
Defined.

(** *** Row ids *)

Lemma ids_in_sequence_rewritten (k : key) (old : list child_row) (seq : Z)
      (rows : list (list sqlval)) :
  ids_in_sequence old seq ->
  ids_in_sequence (Sql.delete_owned k old ++ new_rows k seq rows)
                  (seq + Z.of_nat (List.length rows)).
Proof.
  intros [Hnodup Hbound]. split.
  - rewrite map_app. apply NoDup_app.
    + unfold Sql.delete_owned.
      clear Hbound. induction old as [| r old IH]; cbn [filter map]; [constructor |].
      cbn [map] in Hnodup. apply NoDup_cons_iff in Hnodup. destruct Hnodup as [Hnot Hold].
      destruct (negb (Sql.eq (owner r) k)); [| apply IH; assumption].
      cbn [map]. constructor; [| apply IH; assumption].
      intros Hin. apply Hnot. apply in_map_iff in Hin. destruct Hin as (r1 & Hr1 & Hin).
      apply filter_In in Hin. apply in_map_iff. exists r1. tauto.
    + apply new_rows_nodup.
    + intros x Hx Hx'. apply in_map_iff in Hx, Hx'.
      destruct Hx as (r1 & <- & Hr1), Hx' as (r2 & Heq & Hr2).
      apply delete_owned_in in Hr1. destruct Hr1 as [Hr1 _].
      apply Hbound in Hr1. apply new_rows_ids in Hr2. lia.
  - intros r Hr. apply in_app_iff in Hr. destruct Hr as [Hr | Hr].
    + apply delete_owned_in in Hr. destruct Hr as [Hr _]. apply Hbound in Hr. lia.
    + apply new_rows_ids in Hr. lia.
Qed.

Lemma autoincrement_write_plan (p : save_plan) (d : database) :
  autoincrement_kept d -> autoincrement_kept (write_plan p d).
Proof.
  intros [Hc Hp]. rewrite write_plan_file. cbv zeta.
  split; cbn [coupons coupons_seq partial_urls partial_urls_seq];
    apply ids_in_sequence_rewritten; assumption.
Qed.

Lemma autoincrement_replace_domain (r : domain_row) (d : database) :
  autoincrement_kept d -> autoincrement_kept (Sql.replace_domain r d).
Proof. intros H. exact H. Qed.

(** X12.  Neither crawl ever uses a row id twice: when the ids of the coupons
    and of the partial urls in the file are distinct and not beyond the
    sequences of their tables before the run, so they are after it. *)
Theorem crawl_never_reuses_a_row_id (E : env) (max_domains : option Z)
        (skip_existing : bool) (w : world) :
  autoincrement_kept (db w) ->
  autoincrement_kept
    (db (snd (fst (HoneyScraper.scrape_all_stores E max_domains skip_existing w))))
  /\ autoincrement_kept
       (db (snd (fst (MonitoredScraper.scrape_all_stores E max_domains skip_existing w)))).
Proof.
  intros Hw.
  destruct (crawl_keeps_the_file autoincrement_kept E max_domains skip_existing
                                 autoincrement_write_plan autoincrement_replace_domain)
    as [Hbase Hmon].
  split; [apply (Hbase w Hw) | apply (Hmon w Hw)].
Qed.

Lemma crawl_never_reuses_a_row_id_witness :
  autoincrement_kept
    (db (snd (fst (HoneyScraper.scrape_all_stores
                     (env_of api_with_coupons) None false file_with_a_coupon))))
  /\ autoincrement_kept
       (db (snd (fst (MonitoredScraper.scrape_all_stores
                        (env_of api_with_coupons) None false file_with_a_coupon)))).
Proof.
  apply (crawl_never_reuses_a_row_id (env_of api_with_coupons) None false
                                     file_with_a_coupon).
  split; split.
  - repeat constructor. intros [].
  - intros r [<- | []]. cbn. lia.
  - constructor.
  - intros r [].
Defined.

(** X13.  A save gives the coupons of its store new ids.  After a save that
    succeeds, every coupon of the store has an id beyond the sequence the
    table had before, so none of the ids under which the coupons of the
    store were known before the save is the id of a coupon any more. *)
Theorem save_renumbers_the_coupons (E : env) (domain sid partial_url details : json)
        (w : world) (p : save_plan) :
  autoincrement_kept (db w) ->
  plan_of E domain sid partial_url details = Val p ->
  let d' := db_after_save E domain sid partial_url details w in
  (forall r, In r (owned (store_id (plan_store p)) (coupons d')) ->
             (coupons_seq (db w) < row_id r)%Z)
  /\ (forall r, In r (owned (store_id (plan_store p)) (coupons (db w))) ->
                ~ In (row_id r) (map row_id (coupons d'))).
Proof.
  intros [[Hnodup Hbound] _] Hplan d'.
  assert (Hd' : coupons d'
                = Sql.delete_owned (store_id (plan_store p)) (coupons (db w))
                  ++ new_rows (store_id (plan_store p)) (coupons_seq (db w))
                              (plan_coupons p)).
  { unfold d', db_after_save. rewrite save_run, Hplan. cbn [fst snd db set_txn set_db].
    rewrite write_plan_file. reflexivity. }
  rewrite Hd'. split.
  - intros r Hr. unfold owned in Hr. apply filter_In in Hr. destruct Hr as [Hr Hown].
    apply in_app_iff in Hr. destruct Hr as [Hr | Hr].
    + apply delete_owned_in in Hr. destruct Hr as [_ Hr]. congruence.
    + apply new_rows_ids in Hr. lia.
  - intros r Hr Hid. unfold owned in Hr. apply filter_In in Hr. destruct Hr as [Hr Hown].
    apply in_map_iff in Hid. destruct Hid as (r' & Heq & Hr').
    apply in_app_iff in Hr'. destruct Hr' as [Hr' | Hr'].
    + apply delete_owned_in in Hr'. destruct Hr' as [Hr' Hother].
      assert (r' = r); [| congruence].
      clear - Hnodup Hr Hr' Heq.
      induction (coupons (db w)) as [| r0 rows IH]; [contradiction |].
      cbn [map] in Hnodup. apply NoDup_cons_iff in Hnodup. destruct Hnodup as [Hnot Hrows].
      destruct Hr as [-> | Hr], Hr' as [-> | Hr']; try reflexivity.
      * exfalso. apply Hnot. rewrite <- Heq. apply in_map. assumption.
      * exfalso. apply Hnot. rewrite Heq. apply in_map. assumption.
      * apply IH; assumption.
    + apply new_rows_ids in Hr'. apply Hbound in Hr. lia.
Qed.

Lemma save_renumbers_the_coupons_witness :
  let E := env_of api_empty_object in
  let w1 := snd (fst (HoneyScraper._save_store_to_db
                        E (JStr "a.com") (JStr "S1") (JStr "a.com") record_two_coupons
                        (initial_world (1 # 2)))) in
  let d' := db_after_save E (JStr "b.com") (JStr "S1") (JStr "b.com") record_one_coupon w1 in
  Forall (fun r => ~ In (row_id r) (map row_id (coupons d')))
         (owned (Some "S1") (coupons (db w1))).
Proof.
  cbv zeta. apply Forall_forall.
  refine (proj2 (save_renumbers_the_coupons
                   (env_of api_empty_object) (JStr "b.com") (JStr "S1") (JStr "b.com")
                   record_one_coupon _ _ _ eq_refl)).
  apply (file_save autoincrement_kept autoincrement_write_plan).
  split; (split; [constructor | intros r []]).
Defined.

(** the first save gave the coupons the ids 1 and 2, the second gives the one
    coupon the id 3 *)
Lemma save_renumbers_the_coupons_run :
  let E := env_of api_empty_object in
  let w1 := snd (fst (HoneyScraper._save_store_to_db
                        E (JStr "a.com") (JStr "S1") (JStr "a.com") record_two_coupons
                        (initial_world (1 # 2)))) in
  let d' := db_after_save E (JStr "b.com") (JStr "S1") (JStr "b.com") record_one_coupon w1 in
  map row_id (coupons (db w1)) = [1; 2]%Z /\ map row_id (coupons d') = [3]%Z.
Proof. cbv zeta. split; vm_compute; reflexivity. Qed.

(** *** Nothing is taken out *)

Lemma marked_domains_replace_domain (r : domain_row) (d : database) (k : key) :
  In k (marked_domains d) -> In k (marked_domains (Sql.replace_domain r d)).
Proof.
  unfold marked_domains, Sql.replace_domain. cbn [scraped_domains].
  rewrite map_app, in_app_iff. intros H.
  apply in_map_iff in H. destruct H as (r0 & <- & Hr0).
  destruct (Sql.eq (domain r0) (domain r)) eqn:Heq.
  - right. apply sql_eq_true in Heq. destruct Heq as [-> _]. left. reflexivity.
  - left. apply in_map. apply filter_In. split; [assumption |].
    rewrite Heq. reflexivity.
Qed.

Lemma holds_write_plan (ks ms : list key) (p : save_plan) (d : database) :
  holds ks ms d -> holds ks ms (write_plan p d).
Proof.
  intros [Hs Hm]. split.
  - intros k Hk. apply store_ids_write_plan, Hs, Hk.
  - unfold marked_domains. rewrite write_plan_scraped_domains. exact Hm.
Qed.

Lemma holds_replace_domain (ks ms : list key) (r : domain_row) (d : database) :
  holds ks ms d -> holds ks ms (Sql.replace_domain r d).
Proof.
  intros [Hs Hm]. split; [exact Hs |].
  intros k Hk. apply marked_domains_replace_domain, Hm, Hk.
Qed.

(** X14.  Neither crawl takes a store or a marker out of the file: a store
    key and a marked domain that are in the file before the run are in it
    after the run, however the run ends. *)
Theorem crawl_takes_nothing_out (E : env) (max_domains : option Z)
        (skip_existing : bool) (w : world) (ks ms : list key) :
  holds ks ms (db w) ->
  holds ks ms (db (snd (fst (HoneyScraper.scrape_all_stores E max_domains skip_existing w))))
  /\ holds ks ms
           (db (snd (fst (MonitoredScraper.scrape_all_stores E max_domains skip_existing w)))).
Proof.
  intros Hw.
  destruct (crawl_keeps_the_file (holds ks ms) E max_domains skip_existing
                                 (holds_write_plan ks ms) (holds_replace_domain ks ms))
    as [Hbase Hmon].
  split; [apply (Hbase w Hw) | apply (Hmon w Hw)].
Qed.

Lemma crawl_takes_nothing_out_witness :
  holds [] [Some "b.com"]
        (db (snd (fst (HoneyScraper.scrape_all_stores
                         (env_of api_later_store) None false b_marked_before))))
  /\ holds [] [Some "b.com"]
           (db (snd (fst (MonitoredScraper.scrape_all_stores
                            (env_of api_later_store) None false b_marked_before)))).
Proof.
  apply (crawl_takes_nothing_out (env_of api_later_store) None false b_marked_before).
  split; [intros k [] | intros k [<- | []]; left; reflexivity].
Defined.

(** *** One store at a time *)

Lemma owned_new_rows_other (k k' : key) (rows : list (list sqlval)) :
  Sql.eq k' k = false ->
  forall seq, owned k' (new_rows k seq rows) = [].
Proof.
  intros Hk. induction rows as [| cols rows IH]; intros seq; cbn [new_rows owned filter];
    [reflexivity |].
  cbn [owner].
  assert (Sql.eq k k' = false) as ->.
  { destruct k, k'; cbn in *; try reflexivity. rewrite String.eqb_sym. assumption. }
  apply IH.
Qed.

Lemma owned_delete_other (k k' : key) (rows : list child_row) :
  Sql.eq k' k = false ->
  owned k' (Sql.delete_owned k rows) = owned k' rows.
Proof.
  intros Hk. unfold owned, Sql.delete_owned.
  induction rows as [| r rows IH]; cbn [filter]; [reflexivity |].
  destruct (Sql.eq (owner r) k) eqn:H1; cbn [negb filter].
  - destruct (Sql.eq (owner r) k') eqn:H2; [| assumption].
    exfalso. apply sql_eq_true in H1, H2. destruct H1 as [H1 _], H2 as [H2 Hn].
    rewrite <- H1, <- H2 in Hk. destruct (owner r) as [s |]; [| congruence].
    cbn in Hk. rewrite String.eqb_refl in Hk. discriminate.
  - rewrite IH. reflexivity.
Qed.

(** X15.  A save is the business of one store.  Whether it succeeds or fails,
    [_save_store_to_db] leaves the rows of every other store as they were:
    its row in the table of stores, its coupons and its partial urls; and it
    leaves the markers alone. *)
Theorem save_leaves_the_other_stores_alone (E : env)
        (domain sid partial_url details : json) (w : world) (k' : key) :
  (forall v, Sql.bind_param sid = Val v -> Sql.eq k' (Sql.text E v) = false) ->
  let d' := db_after_save E domain sid partial_url details w in
  stores_with k' d' = stores_with k' (db w)
  /\ owned k' (coupons d') = owned k' (coupons (db w))
  /\ owned k' (partial_urls d') = owned k' (partial_urls (db w))
  /\ scraped_domains d' = scraped_domains (db w).
Proof.
  intros Hother d'. unfold d', db_after_save. rewrite save_run.
  destruct (plan_of E domain sid partial_url details) as [p | e] eqn:Hplan;
    cbn [fst snd db set_txn set_db]; [| repeat split].
  assert (Hk : Sql.eq k' (store_id (plan_store p)) = false).
  { revert Hplan. unfold plan_of, and_then.
    destruct (HoneyScraper.arguments _ _ _); [| discriminate].
    destruct (Sql.bind_param sid) as [v |] eqn:Hv; [| discriminate].
    repeat match goal with
           | |- match ?x with _ => _ end = _ -> _ => destruct x; [| discriminate]
           end.
    intros [= <-]. cbn [plan_store store_id]. apply Hother. reflexivity. }
  rewrite write_plan_file. cbv zeta.
  cbn [stores coupons partial_urls scraped_domains].
  repeat split.
  - unfold stores_with. cbn [stores]. rewrite filter_app. cbn [filter].
    assert (Sql.eq (store_id (plan_store p)) k' = false) as ->.
    { destruct (store_id (plan_store p)), k'; cbn in *; try reflexivity.
      rewrite String.eqb_sym. assumption. }
    rewrite List.app_nil_r.
    induction (stores (db w)) as [| r rows IH]; cbn [filter]; [reflexivity |].
    destruct (Sql.eq (store_id r) (store_id (plan_store p))) eqn:H1; cbn [negb filter].
    + destruct (Sql.eq (store_id r) k') eqn:H2; [| assumption].
      exfalso. apply sql_eq_true in H1, H2. destruct H1 as [H1 _], H2 as [H2 Hn].
      rewrite <- H1, <- H2 in Hk. destruct (store_id r) as [s |]; [| congruence].
      cbn in Hk. rewrite String.eqb_refl in Hk. discriminate.
    + rewrite IH. reflexivity.
  - rewrite owned_app, owned_delete_other, owned_new_rows_other by assumption.
    apply List.app_nil_r.
  - rewrite owned_app, owned_delete_other, owned_new_rows_other by assumption.
    apply List.app_nil_r.
Qed.

Lemma save_leaves_the_other_stores_alone_witness :
  let E := env_of api_empty_object in
  let w1 := snd (fst (HoneyScraper._save_store_to_db
                        E (JStr "a.com") (JStr "S1") (JStr "a.com") record_two_coupons
                        (initial_world (1 # 2)))) in
  let d' := db_after_save E (JStr "b.com") (JStr "S2") (JStr "b.com") record_one_coupon w1 in
  stores_with (Some "S1") d' = stores_with (Some "S1") (db w1)
  /\ owned (Some "S1") (coupons d') = owned (Some "S1") (coupons (db w1))
  /\ owned (Some "S1") (partial_urls d') = owned (Some "S1") (partial_urls (db w1))
  /\ scraped_domains d' = scraped_domains (db w1).
Proof.
  cbv zeta.
  apply (save_leaves_the_other_stores_alone
           (env_of api_empty_object) (JStr "b.com") (JStr "S2") (JStr "b.com")
           record_one_coupon).
  intros v [= <-]. reflexivity.
Defined.

(** ** A monitored run with nothing left to do *)

Lemma take_map {A B : Type} (f : A -> B) (n : Z) (l : list A) :
  Py.take n (map f l) = map f (Py.take n l).
Proof.
  unfold Py.take. rewrite length_map.
  destruct (0 <=? n)%Z; apply firstn_map.
Qed.

Lemma count_scraped_all (E : env) (ds : list string) :
  forall (c : nat) (w : world),
    txn w = None ->
    Forall (fun d => Sql.domain_found (Some d) (db w) = true) ds ->
    for_each (MonitoredScraper.count_scraped E) (map JStr ds) c w
    = (Val (c + List.length ds), w, []).
Proof.
  induction ds as [| d ds IH]; intros c w Htxn Hall; cbn [map for_each List.length].
  - rewrite Nat.add_0_r. reflexivity.
  - apply Forall_cons_iff in Hall. destruct Hall as [Hd Hall].
    unfold bind at 1. unfold MonitoredScraper.count_scraped at 1. unfold bind at 1.
    rewrite domain_scraped_run. cbn [Sql.bind_param Sql.text].
    rewrite Hd, (set_txn_same w Htxn). cbn [ret fst snd app].
    rewrite (IH (S c) w Htxn Hall). cbn [app]. f_equal. f_equal. f_equal. lia.
Qed.

(** X16.  A monitored run with resumption whose selected domains are all
    marked does nothing after the fetch of the list: it issues no other
    request, does not sleep, leaves the file as it was, and ends not running
    with the last error set to [All selected domains already scraped]. *)
Theorem monitored_run_with_nothing_left (E : env) (ds : list string)
        (max_domains : option Z) (w : world) :
  api E SupportedDomains 0 = ok (JArr (map JStr ds)) ->
  ds <> [] ->
  txn w = None ->
  stop_request_in w = None ->
  Forall (fun d => Sql.domain_found (Some d) (db w) = true) (selected max_domains ds) ->
  exists w',
    MonitoredScraper.scrape_all_stores E max_domains true w
    = (Val MonitoredScraper.no_locals, w', [Requested SupportedDomains 0])
    /\ db w' = db w
    /\ last_error (scraper_state w') = Some "All selected domains already scraped"
    /\ running (scraper_state w') = false.
Proof.
  intros Hapi Hds Htxn Hidle Hall.
  unfold MonitoredScraper.scrape_all_stores, try_finally, bind at 1 2 3 4 5 6 7,
    Dashboard.update_scraper_state, modify, the_world, ret.
  cbn -[MonitoredScraper.scrape].
  match goal with
  | |- context [MonitoredScraper.scrape E max_domains true ?w0] => set (w1 := w0)
  end.
  assert (Htxn1 : txn w1 = None) by exact Htxn.
  assert (Hidle1 : stop_request_in w1 = None) by exact Hidle.
  assert (Hdb1 : db w1 = db w) by reflexivity.
  assert (Hscrape :
            MonitoredScraper.scrape E max_domains true w1
            = (Val MonitoredScraper.no_locals,
               set_scraper_state
                 (Dashboard.with_last_error (Some "All selected domains already scraped")
                                            (scraper_state w1)) w1,
               [Requested SupportedDomains 0])).
  { unfold MonitoredScraper.scrape. unfold bind at 1.
    rewrite (get_supported_domains_list E (map JStr ds) w1 Hapi).
    rewrite (operator_idle w1 Hidle1).
    destruct ds as [| d0 ds0]; [contradiction |].
    remember (d0 :: ds0) as ds1 eqn:Hds1.
    assert (Htruthy : negb (Py.truthy (JArr (map JStr ds1))) = false)
      by (rewrite Hds1; reflexivity).
    rewrite Htruthy.
    unfold bind at 1. cbn [lift Py.len].
    unfold selected in Hall.
    assert (Hslice :
              exists sel,
                Forall (fun d => Sql.domain_found (Some d) (db w1) = true) sel
                /\ match HoneyScraper.limit max_domains with
                   | Some n => lift (Py.slice_to (JArr (map JStr ds1)) n)
                   | None => ret (JArr (map JStr ds1))
                   end w1
                   = (Val (JArr (map JStr sel)), w1, [])).
    { destruct (HoneyScraper.limit max_domains) as [n |].
      - exists (Py.take n ds1). split; [exact Hall |].
        cbn [Py.slice_to]. rewrite take_map. reflexivity.
      - exists ds1. split; [exact Hall | reflexivity]. }
    destruct Hslice as (sel & Hsel & Hslice).
    unfold bind at 1. rewrite Hslice.
    cbn [Py.iter lift].
    unfold bind at 1. cbn [Py.iter lift].
    unfold bind at 1. unfold bind at 1. unfold bind at 1.
    rewrite (count_scraped_all E sel 0 w1 Htxn1 Hsel).
    cbn [lift Py.len ret app fst snd]. rewrite length_map, Nat.add_0_l, Nat.eqb_refl.
    unfold bind, Dashboard.update_scraper_state, modify, ret. reflexivity. }
  rewrite Hscrape. cbn.
  eexists. split; [reflexivity |]. repeat split.
Qed.

Lemma monitored_run_with_nothing_left_witness :
  exists w',
    MonitoredScraper.scrape_all_stores (env_of api_later_store) (Some 1%Z) true
      (set_db (Sql.replace_domain {| domain := Some "a.com"; scraped_at := 0;
                                     store_count := 0 |} empty_db)
              (initial_world (1 # 2)))
    = (Val MonitoredScraper.no_locals, w', [Requested SupportedDomains 0])
    /\ db w' = Sql.replace_domain {| domain := Some "a.com"; scraped_at := 0;
                                     store_count := 0 |} empty_db
    /\ last_error (scraper_state w') = Some "All selected domains already scraped"
    /\ running (scraper_state w') = false.
Proof.
  apply (monitored_run_with_nothing_left
           (env_of api_later_store) ["a.com"; "b.com"] (Some 1%Z)); try reflexivity.
  - discriminate.
  - repeat constructor.
Defined.

(** ** Round trips through the file *)

Lemma store_found_write_plan_own (p : save_plan) (s : string) (d : database) :
  store_id (plan_store p) = Some s ->
  Sql.store_found (Some s) (write_plan p d) = true.
Proof.
  intros Hk. rewrite write_plan_file. cbv zeta.
  unfold Sql.store_found. cbn [stores].
  rewrite existsb_app. cbn [existsb]. rewrite Hk, (sql_eq_refl s).
  rewrite orb_true_r. reflexivity.
Qed.

Lemma each_mapping_known (E : env) (dom : json) (fields : list (string * json))
      (s : string) (l : HoneyScraper.locals) (c : nat) (w : world) :
  Py.get (JObj fields) "storeId" = Val (JStr s) ->
  txn w = None ->
  Sql.store_found (Some s) (db w) = true ->
  HoneyScraper.each_mapping E true dom (JObj fields) (l, c) w
  = (Val (Next, (l, S c)), w, []).
Proof.
  intros Hget Htxn Hfound.
  unfold HoneyScraper.each_mapping.
  unfold bind at 1. rewrite Hget. cbn [lift].
  unfold bind at 1. cbn [Py.get Py.get_default lift].
  unfold bind at 1. rewrite store_exists_run. cbn [Sql.bind_param Sql.text].
  rewrite Hfound, (set_txn_same w Htxn). reflexivity.
Qed.

(** X17.  A store that was saved is found again.  After a save that succeeds
    for a store whose id is a string, [_store_exists] answers true for that
    id, and a pass with resumption over a mapping of the store counts the
    store for its domain and goes on without a request, a sleep or a write. *)
Theorem saved_store_is_found_and_skipped (E : env) (domain partial_url details : json)
        (s : string) (p : save_plan) (w : world)
        (dom : json) (fields : list (string * json)) (l : HoneyScraper.locals) (c : nat) :
  plan_of E domain (JStr s) partial_url details = Val p ->
  Py.get (JObj fields) "storeId" = Val (JStr s) ->
  let w1 := snd (fst (HoneyScraper._save_store_to_db E domain (JStr s) partial_url
                                                     details w)) in
  HoneyScraper._store_exists E (JStr s) w1 = (Val true, w1, [])
  /\ HoneyScraper.each_mapping E true dom (JObj fields) (l, c) w1
     = (Val (Next, (l, S c)), w1, []).
Proof.
  intros Hplan Hget w1.
  assert (Hw1 : txn w1 = None /\ Sql.store_found (Some s) (db w1) = true).
  { unfold w1. rewrite save_run, Hplan. cbn [fst snd txn db set_txn set_db].
    split; [reflexivity |].
    apply store_found_write_plan_own. apply (plan_of_key E domain partial_url details s p Hplan). }
  destruct Hw1 as [Htxn Hfound]. split.
  - rewrite store_exists_run. cbn [Sql.bind_param Sql.text].
    rewrite Hfound, (set_txn_same w1 Htxn). reflexivity.
  - apply (each_mapping_known E dom fields s); assumption.
Qed.

Lemma saved_store_is_found_and_skipped_witness :
  let E := env_of api_empty_object in
  let w1 := snd (fst (HoneyScraper._save_store_to_db
                        E (JStr "a.com") (JStr "S1") (JStr "a.com") record_two_coupons
                        (initial_world (1 # 2)))) in
  HoneyScraper._store_exists E (JStr "S1") w1 = (Val true, w1, [])
  /\ HoneyScraper.each_mapping E true (JStr "b.com")
                               (JObj [("storeId", JStr "S1"); ("partialURL", JStr "b.com")])
                               (HoneyScraper.no_locals, 0) w1
     = (Val (Next, (HoneyScraper.no_locals, 1)), w1, []).
Proof.
  cbv zeta.
  refine (saved_store_is_found_and_skipped
            (env_of api_empty_object) (JStr "a.com") (JStr "a.com") record_two_coupons
            "S1" _ (initial_world (1 # 2)) (JStr "b.com")
            [("storeId", JStr "S1"); ("partialURL", JStr "b.com")]
            HoneyScraper.no_locals 0 eq_refl eq_refl).
Defined.

(** X18.  A store without an id is never found again.  [_store_exists]
    answers false for the id [None] whatever the file holds, and a save under
    the id [None] that succeeds replaces no row: it adds a row to the stores
    of the file, also when rows saved under [None] are there already. *)
Theorem store_without_id_is_never_found (E : env) (domain partial_url details : json)
        (p : save_plan) (w : world) :
  plan_of E domain JNull partial_url details = Val p ->
  let w1 := snd (fst (HoneyScraper._save_store_to_db E domain JNull partial_url details w)) in
  stores (db w1) = stores (db w) ++ [plan_store p]
  /\ store_id (plan_store p) = None
  /\ fst (fst (HoneyScraper._store_exists E JNull w1)) = Val false.
Proof.
  intros Hplan w1.
  assert (Hk : store_id (plan_store p) = None).
  { revert Hplan. unfold plan_of, and_then.
    destruct (HoneyScraper.arguments _ _ _); [| discriminate].
    cbn [Sql.bind_param].
    repeat match goal with
           | |- match ?x with _ => _ end = _ -> _ => destruct x; [| discriminate]
           end.
    intros [= <-]. reflexivity. }
  repeat split.
  - unfold w1. rewrite save_run, Hplan. cbn [fst snd db set_txn set_db].
    rewrite write_plan_file. cbv zeta. cbn [stores]. rewrite Hk.
    f_equal. induction (stores (db w)) as [| r rows IH]; cbn [filter]; [reflexivity |].
    assert (Sql.eq (store_id r) None = false) as -> by (destruct (store_id r); reflexivity).
    cbn [negb]. rewrite IH. reflexivity.
  - assumption.
  - rewrite store_exists_run. cbn [Sql.bind_param Sql.text fst].
    f_equal. unfold Sql.store_found.
    induction (stores (db w1)) as [| r rows IH]; cbn [existsb]; [reflexivity |].
    assert (Sql.eq (store_id r) None = false) as -> by (destruct (store_id r); reflexivity).
    exact IH.
Qed.

Lemma store_without_id_is_never_found_witness :
  let E := env_of api_empty_object in
  let w1 := snd (fst (HoneyScraper._save_store_to_db
                        E (JStr "a.com") JNull (JStr "a.com") record_one_coupon
                        (initial_world (1 # 2)))) in
  let w2 := snd (fst (HoneyScraper._save_store_to_db
                        E (JStr "a.com") JNull (JStr "a.com") record_one_coupon w1)) in
  List.length (stores (db w2)) = 2
  /\ fst (fst (HoneyScraper._store_exists E JNull w2)) = Val false.
Proof.
  cbv zeta.
  destruct (store_without_id_is_never_found
              (env_of api_empty_object) (JStr "a.com") (JStr "a.com") record_one_coupon
              _ (snd (fst (HoneyScraper._save_store_to_db
                             (env_of api_empty_object) (JStr "a.com") JNull (JStr "a.com")
                             record_one_coupon (initial_world (1 # 2)))))
              eq_refl)
    as (Hstores & _ & Hfound).
  split; [| exact Hfound].
  rewrite Hstores. reflexivity.
Defined.

(** X19.  A marker that was written is found again, and the last one counts.
    After [_mark_domain_scraped] for a domain that is a string,
    [_domain_scraped] answers true for it, the file holds one marker for the
    domain, with the count and the time of this call, whatever markers it
    held for it before, and the markers of the other domains, the stores,
    the coupons and the partial urls are as they were. *)
Theorem marker_is_found_and_last_one_counts (E : env) (d : string) (n : nat) (w : world) :
  let w1 := snd (fst (HoneyScraper._mark_domain_scraped E (JStr d) n w)) in
  fst (fst (HoneyScraper._domain_scraped E (JStr d) w1)) = Val true
  /\ markers_of (Some d) (db w1)
     = [{| domain := Some d; scraped_at := now E (clock w);
           store_count := Z.of_nat n |}]
  /\ (forall k, Sql.eq k (Some d) = false -> markers_of k (db w1) = markers_of k (db w))
  /\ stores (db w1) = stores (db w)
  /\ coupons (db w1) = coupons (db w)
  /\ partial_urls (db w1) = partial_urls (db w).
Proof.
  intros w1. unfold w1. rewrite mark_domain_scraped_run.
  cbn [Sql.bind_param Sql.text fst snd db set_txn set_db].
  repeat split.
  - rewrite domain_scraped_run. cbn [Sql.bind_param Sql.text fst snd db set_txn set_db].
    rewrite domain_found_replace_domain. reflexivity.
  - unfold markers_of, Sql.replace_domain. cbn [scraped_domains domain].
    rewrite filter_app. cbn [filter domain]. rewrite (sql_eq_refl d).
    replace (filter _ (filter _ _)) with (@nil domain_row); [reflexivity |].
    induction (scraped_domains (db w)) as [| r rows IH]; cbn [filter]; [reflexivity |].
    destruct (Sql.eq (domain r) (Some d)) eqn:Heq; cbn [negb filter]; [assumption |].
    rewrite Heq. assumption.
  - intros k Hk. unfold markers_of, Sql.replace_domain. cbn [scraped_domains domain].
    rewrite filter_app. cbn [filter domain].
    assert (Sql.eq (Some d) k = false) as ->.
    { destruct k; cbn in *; [rewrite String.eqb_sym; assumption | reflexivity]. }
    rewrite List.app_nil_r.
    induction (scraped_domains (db w)) as [| r rows IH]; cbn [filter]; [reflexivity |].
    destruct (Sql.eq (domain r) (Some d)) eqn:H1; cbn [negb filter].
    + destruct (Sql.eq (domain r) k) eqn:H2; [| assumption].
      exfalso. apply sql_eq_true in H1, H2. destruct H1 as [H1 _], H2 as [H2 _].
      rewrite <- H2, H1 in Hk. cbn in Hk. rewrite String.eqb_refl in Hk. discriminate.
    + rewrite IH. reflexivity.
Qed.

(** ** The pages of the store listing *)

Lemma where_columns_resolve (country : string) (active_only : bool) :
  prepares [stores_columns] (where_columns "" country active_only)
  && prepares [stores_columns; coupons_columns] (where_columns "" country active_only)
  = true.
Proof.
  unfold where_columns. cbn [String.eqb app].
  destruct (String.eqb country ""), active_only; vm_compute; reflexivity.
Qed.

Lemma chunks_cover {A : Type} (n : nat) (pages : nat) :
  forall l : list A,
    List.length l <= pages * n ->
    flat_map (fun i => firstn n (skipn (i * n) l)) (seq 0 pages) = l.
Proof.
  induction pages as [| pages IH]; intros l Hl.
  - cbn in *. destruct l; [reflexivity | cbn in Hl; lia].
  - cbn [seq flat_map]. rewrite <- seq_shift, flat_map_concat_map, map_map,
      <- flat_map_concat_map.
    cbn [Nat.mul skipn].
    rewrite (flat_map_ext _ (fun i => firstn n (skipn (i * n) (skipn n l)))).
    + rewrite IH; [apply firstn_skipn |]. rewrite length_skipn. lia.
    + intros i. rewrite skipn_skipn. f_equal. f_equal. lia.
Qed.

Lemma flat_map_seq_shift {B : Type} (f : nat -> list B) (pages : nat) :
  flat_map f (seq 1 pages) = flat_map (fun i => f (S i)) (seq 0 pages).
Proof.
  rewrite <- seq_shift, !flat_map_concat_map, map_map. reflexivity.
Qed.

(** X20.  The pages of the store listing cover it.  With no search and a
    positive page size, every page from the first to the last, as numbered
    by the pagination figures of the reply, is answered with 200 and at most
    [per_page] stores, and the pages one after the other give the listing of
    the stores that the filters keep, each row once and in its order. *)
Theorem pages_cover_the_listing (E : env)
        (listing : list store_row -> list child_row -> list (store_row * Z))
        (per_page : Z) (country : string) (active_only : bool) (d : database) :
  let kept := filter (kept_by E country active_only) (stores d) in
  let total := Z.of_nat (List.length kept) in
  let pages := ((total + per_page - 1) / per_page)%Z in
  (0 < per_page)%Z ->
  (total + per_page < 2 ^ 63)%Z ->
  List.length (listing kept (coupons d)) <= List.length kept ->
  (forall page,
      (1 <= page <= pages)%Z ->
      exists rows,
        api_stores E listing page per_page "" country active_only d
        = StoresPage rows page per_page total pages
        /\ List.length rows <= Z.to_nat per_page)
  /\ flat_map (fun p => page_rows (api_stores E listing (Z.of_nat p) per_page ""
                                              country active_only d))
              (seq 1 (Z.to_nat pages))
     = listing kept (coupons d).
Proof.
  intros kept total pages Hpp Hbound Hlisting.
  assert (Htotal : (0 <= total)%Z) by (unfold total; lia).
  assert (Hpages : (0 <= pages)%Z /\ (total <= pages * per_page)%Z
                   /\ (pages * per_page < total + per_page)%Z).
  { unfold pages.
    pose proof (Z.div_mod (total + per_page - 1) per_page ltac:(lia)) as Hdm.
    pose proof (Z.mod_pos_bound (total + per_page - 1) per_page Hpp) as Hmod.
    assert (0 <= (total + per_page - 1) / per_page)%Z
      by (apply Z.div_pos; lia).
    split; [assumption |]. nia. }
  destruct Hpages as (Hp0 & Hcover & Hlast).
  assert (Hreply : forall page,
             (1 <= page <= pages)%Z ->
             api_stores E listing page per_page "" country active_only d
             = StoresPage (firstn (Z.to_nat per_page)
                                  (skipn (Z.to_nat ((page - 1) * per_page))
                                         (listing kept (coupons d))))
                          page per_page total pages).
  { intros page Hpage. unfold api_stores. fold kept. fold total. fold pages.
    rewrite (where_columns_resolve country active_only). cbn [negb].
    assert (Hin : Sql.in_int64 per_page && Sql.in_int64 ((page - 1) * per_page) = true).
    { unfold Sql.in_int64. apply andb_true_iff. split; apply andb_true_iff; split;
        try apply Z.leb_le; try apply Z.ltb_lt; nia. }
    rewrite Hin. cbn [negb].
    assert ((per_page =? 0)%Z = false) as -> by (apply Z.eqb_neq; lia).
    unfold limit_offset.
    assert ((per_page <? 0)%Z = false) as -> by (apply Z.ltb_ge; lia).
    reflexivity. }
  split.
  - intros page Hpage. eexists. split; [apply Hreply; assumption |].
    apply firstn_le_length.
  - rewrite flat_map_seq_shift.
    transitivity (flat_map (fun i => firstn (Z.to_nat per_page)
                                            (skipn (i * Z.to_nat per_page)
                                                   (listing kept (coupons d))))
                           (seq 0 (Z.to_nat pages)));
      [| apply chunks_cover; nia].
    rewrite !flat_map_concat_map. f_equal. apply map_ext_in.
    intros i Hi. apply in_seq in Hi.
    rewrite Hreply by lia. cbn [page_rows].
    f_equal. f_equal. nia.
Qed.

Lemma pages_cover_the_listing_witness :
  let listing := fun (kept : list store_row) (cs : list child_row) =>
                   map (fun r => (r, 0%Z)) kept in
  flat_map (fun p => page_rows (api_stores (env_of api_two_stores) listing (Z.of_nat p) 1 ""
                                           "" false two_stores_file))
           (seq 1 2)
  = map (fun r => (r, 0%Z)) (stores two_stores_file).
Proof.
  cbv zeta.
  refine (proj2 (pages_cover_the_listing
                   (env_of api_two_stores) (fun kept _ => map (fun r => (r, 0%Z)) kept)
                   1 "" false two_stores_file _ _ _)).
  - reflexivity.
  - reflexivity.
  - rewrite length_map. apply Nat.le_refl.
Defined.

(** X21.  A search is never answered.  The [WHERE] clause of a search names
    the column [url] without its table; the count, taken from [stores] alone,
    resolves it, but the listing joins [stores] to [coupons], which both
    have a column of that name, and SQLite refuses the statement: a request
    with a search is answered with 500, whatever the file holds and whatever
    the page, the page size and the other filters. *)
Theorem search_is_never_answered (E : env)
        (listing : list store_row -> list child_row -> list (store_row * Z))
        (page per_page : Z) (search country : string) (active_only : bool)
        (d : database) :
  search <> "" ->
  prepares [stores_columns] (where_columns search country active_only) = true
  /\ resolves [stores_columns; coupons_columns] "url" = false
  /\ prepares [stores_columns; coupons_columns]
              (where_columns search country active_only) = false
  /\ api_stores E listing page per_page search country active_only d = StoresError500.
Proof.
  intros Hs.
  assert (Hnames : where_columns search country active_only
                   = ["name"; "domain"; "url"] ++ where_columns "" country active_only).
  { unfold where_columns. cbn [String.eqb].
    destruct (String.eqb search "") eqn:Heq; [| reflexivity].
    apply String.eqb_eq in Heq. contradiction. }
  assert (Hcount : prepares [stores_columns] (where_columns search country active_only)
                   = true).
  { rewrite Hnames. unfold prepares. rewrite forallb_app. apply andb_true_iff.
    split; [vm_compute; reflexivity |].
    pose proof (where_columns_resolve country active_only) as H.
    apply andb_true_iff in H. apply H. }
  assert (Hlist : prepares [stores_columns; coupons_columns]
                           (where_columns search country active_only) = false).
  { rewrite Hnames. unfold prepares. rewrite forallb_app.
    apply andb_false_iff. left. vm_compute. reflexivity. }
  split; [exact Hcount |].
  split; [vm_compute; reflexivity |].
  split; [exact Hlist |].
  unfold api_stores. rewrite Hcount, Hlist. reflexivity.
Qed.

Lemma search_is_never_answered_witness :
  let listing := fun (kept : list store_row) (_ : list child_row) =>
                   map (fun r => (r, 0%Z)) kept in
  prepares [stores_columns] (where_columns "S1" "" false) = true
  /\ resolves [stores_columns; coupons_columns] "url" = false
  /\ prepares [stores_columns; coupons_columns] (where_columns "S1" "" false) = false
  /\ api_stores (env_of api_two_stores) listing 1 50 "S1" "" false two_stores_file
     = StoresError500.
Proof.
  intros listing.
  assert (Hsearch : "S1" <> "") by discriminate.
  exact (search_is_never_answered (env_of api_two_stores) listing 1 50 "S1" "" false
                                  two_stores_file Hsearch).
Defined.

(** the same request without the search is answered *)
Lemma listing_without_search_is_answered :
  api_stores (env_of api_two_stores) (fun kept _ => map (fun r => (r, 0%Z)) kept)
             1 50 "" "" false two_stores_file
  = StoresPage (map (fun r => (r, 0%Z)) (stores two_stores_file)) 1 50 2 1.
Proof. vm_compute. reflexivity. Qed.
